(** * Advent calendar: date utilities and task-to-day mapping

    A shallow embedding of the date utilities ([ymdLocal], [parseYMDLocal],
    [getTaskDate], [getDaysBetween], [isToday], [isPastDate],
    [isFutureDate], [getTaskMonth], the display formatters, [makeTime],
    [getFirstDayOfWeekFromLang], [parseYMDStrict], [clampToMonthEnd],
    [warnOnce], [buildMonthDays]) and of [containsHtml]; of the calendar
    part of the application-config composable ([validateTasksAndDays],
    [generateCalendarDays], [getTaskForDay], [getTaskForDate],
    [updateCalendarDays], [isTaskActiveByIndex], [resolveImg]); of
    [groupedDays], [getTaskForDay] and the day selection of
    [components/CalendarContent.vue]; of the status and the countdown of
    [components/TaskCard.vue]; and of the configuration check
    [validateConfig]; together with the fragment of the ECMAScript
    [Date], [Number] and [String] built-ins they call.

    Conventions.
    - A JavaScript time value is an [option Z]: [None] is [NaN], [Some t] is
      [t] milliseconds since the epoch.  A [Date] object is its time value;
      mutation ([setDate], [setHours]) is written as a function returning
      the new time value.
    - The host time zone is a parameter ([TimeZone]), with the two offset
      functions of ECMA-262; [newYork2025] is a zone with daylight saving
      time and [fixedZone] one without.
    - A JavaScript string is a [string] whose characters are code units
      below 256.
    - Number values are exact ([num]); all the integers that occur are
      below 2^53 in magnitude, where doubles are exact.
    - A function that may throw returns a [result]; the [while] loop of
      [generateCalendarDays] takes fuel and returns [None] when it runs
      out.
    - What the host supplies (the month names of [Intl], the week
      information of [Intl.Locale], the table of bundled images) is a
      parameter of the function that uses it. *)

From Stdlib Require Import ZArith List String Ascii Bool Lia QArith Qround
  Permutation.
Import ListNotations.
Local Open Scope Z_scope.

(* ================================================================== *)
(** * ECMAScript time values (ECMA-262, Date objects) *)
(* ================================================================== *)

Module ES.

Definition msPerDay : Z := 86400000.

Definition Day (t : Z) : Z := t / msPerDay.
Definition TimeWithinDay (t : Z) : Z := t mod msPerDay.

Definition isLeapYear (y : Z) : bool :=
  if negb (y mod 4 =? 0) then false
  else if negb (y mod 100 =? 0) then true
  else if negb (y mod 400 =? 0) then false
  else true.

Definition DaysInYear (y : Z) : Z := if isLeapYear y then 366 else 365.

Definition DayFromYear (y : Z) : Z :=
  365 * (y - 1970) + (y - 1969) / 4 - (y - 1901) / 100 + (y - 1601) / 400.

Definition TimeFromYear (y : Z) : Z := msPerDay * DayFromYear y.

(** The largest [y] with [DayFromYear y <= d], found from the mean year
    length of 146097/400 days and one correction step. *)
Definition YearFromDay (d : Z) : Z :=
  let y0 := 1970 + (400 * d) / 146097 in
  if d <? DayFromYear y0 then y0 - 1
  else if DayFromYear (y0 + 1) <=? d then y0 + 1
  else y0.

Definition YearFromTime (t : Z) : Z := YearFromDay (Day t).

Definition InLeapYear (t : Z) : Z :=
  if isLeapYear (YearFromTime t) then 1 else 0.

Definition DayWithinYear (t : Z) : Z := Day t - DayFromYear (YearFromTime t).

(** Month number (0..11) of day [dwy] of a year, [leap] being 0 or 1. *)
Definition monthOfYearDay (dwy leap : Z) : Z :=
  if dwy <? 31 then 0
  else if dwy <? 59 + leap then 1
  else if dwy <? 90 + leap then 2
  else if dwy <? 120 + leap then 3
  else if dwy <? 151 + leap then 4
  else if dwy <? 181 + leap then 5
  else if dwy <? 212 + leap then 6
  else if dwy <? 243 + leap then 7
  else if dwy <? 273 + leap then 8
  else if dwy <? 304 + leap then 9
  else if dwy <? 334 + leap then 10
  else 11.

(** First day (within the year) of month [m] (0..11). *)
Definition monthStart (m leap : Z) : Z :=
  match m with
  | 0 => 0
  | 1 => 31
  | 2 => 59 + leap
  | 3 => 90 + leap
  | 4 => 120 + leap
  | 5 => 151 + leap
  | 6 => 181 + leap
  | 7 => 212 + leap
  | 8 => 243 + leap
  | 9 => 273 + leap
  | 10 => 304 + leap
  | _ => 334 + leap
  end.

Definition MonthFromTime (t : Z) : Z :=
  monthOfYearDay (DayWithinYear t) (InLeapYear t).

Definition DateFromTime (t : Z) : Z :=
  DayWithinYear t - monthStart (MonthFromTime t) (InLeapYear t) + 1.

Definition WeekDay (t : Z) : Z := (Day t + 4) mod 7.

(** [MakeDay] on integral arguments: the day number of the first of month
    [month mod 12] of year [year + floor (month / 12)], plus [date - 1]. *)
Definition MakeDay (year month date : Z) : Z :=
  let ym := year + month / 12 in
  let mn := month mod 12 in
  DayFromYear ym + monthStart mn (if isLeapYear ym then 1 else 0) + date - 1.

Definition MakeTime (hour min sec ms : Z) : Z :=
  hour * 3600000 + min * 60000 + sec * 1000 + ms.

Definition MakeDate (day time : Z) : Z := day * msPerDay + time.

Definition maxTime : Z := 8640000000000000.

Definition TimeClip (t : Z) : option Z :=
  if Z.abs t <=? maxTime then Some t else None.

(** Number of days of month [m] (0..11) in a year. *)
Definition daysInMonth (y m : Z) : Z :=
  match m with
  | 1 => if isLeapYear y then 29 else 28
  | 3 | 5 | 8 | 10 => 30
  | _ => 31
  end.

End ES.

(* ================================================================== *)
(** * Host time zone *)
(* ================================================================== *)

(** ECMA-262 leaves the local time zone adjustment to the host.
    [offsetAtUTC t] is the offset (ms) in force at the instant [t];
    [offsetAtLocal tl] is the offset used to interpret the local time [tl]
    (for a skipped or repeated local time: the offset before the
    transition). *)
Record TimeZone : Type := mkTimeZone {
  offsetAtUTC : Z -> Z;
  offsetAtLocal : Z -> Z
}.

Definition LocalTime (tz : TimeZone) (t : Z) : Z := t + offsetAtUTC tz t.
Definition UTC (tz : TimeZone) (t : Z) : Z := t - offsetAtLocal tz t.

(** A zone with a constant offset. *)
Definition fixedZone (off : Z) : TimeZone :=
  mkTimeZone (fun _ => off) (fun _ => off).

(** New York in 2025: UTC-5, and UTC-4 from 2025-03-09 02:00 local
    (07:00Z) until 2025-11-02 02:00 local (06:00Z). *)
Definition nyDstStartUTC : Z := ES.MakeDate (ES.MakeDay 2025 2 9) (ES.MakeTime 7 0 0 0).
Definition nyDstEndUTC : Z := ES.MakeDate (ES.MakeDay 2025 10 2) (ES.MakeTime 6 0 0 0).
Definition nyDstStartLocal : Z := ES.MakeDate (ES.MakeDay 2025 2 9) (ES.MakeTime 3 0 0 0).
Definition nyDstEndLocal : Z := ES.MakeDate (ES.MakeDay 2025 10 2) (ES.MakeTime 2 0 0 0).

Definition newYork2025 : TimeZone :=
  mkTimeZone
    (fun t => if (nyDstStartUTC <=? t) && (t <? nyDstEndUTC)
              then -4 * 3600000 else -5 * 3600000)
    (fun tl => if (nyDstStartLocal <=? tl) && (tl <? nyDstEndLocal)
               then -4 * 3600000 else -5 * 3600000).

(** Zones in which every local midnight exists, later midnights are later
    instants, and the offset stays below one day.  Fixed zones and zones
    that switch daylight saving time between 01:00 and 03:00 are of this
    kind. *)
Record regularZone (tz : TimeZone) : Prop := mkRegularZone {
  midnight_exists :
    forall d, LocalTime tz (UTC tz (d * ES.msPerDay)) = d * ES.msPerDay;
  midnight_mono :
    forall d1 d2, d1 < d2 ->
      UTC tz (d1 * ES.msPerDay) < UTC tz (d2 * ES.msPerDay);
  offset_bound :
    forall t, Z.abs (offsetAtLocal tz t) < ES.msPerDay
}.

(* ================================================================== *)
(** * ECMAScript numbers and strings *)
(* ================================================================== *)

Local Open Scope string_scope.
Local Open Scope list_scope.
Local Open Scope Z_scope.

(** The Number values the code handles.  Finite values are exact
    rationals: the rounding of a literal of more than 15 significant
    digits to a double is not represented. *)
Inductive num : Type :=
| NaN
| Inf (negative : bool)
| Fin (q : Q).

Definition ofZ (z : Z) : num := Fin (inject_Z z).

(** Truncation toward zero. *)
Definition truncQ (q : Q) : Z := Z.quot (Qnum q) (Zpos (Qden q)).

(** The global [isNaN]. *)
Definition isNaN (x : num) : bool :=
  match x with NaN => true | _ => false end.

(** [!x] for a Number: true for [NaN] and for zero. *)
Definition isFalsy (x : num) : bool :=
  match x with
  | NaN => true
  | Inf _ => false
  | Fin q => Qeq_bool q 0
  end.

(** [x - 1]. *)
Definition minus1 (x : num) : num :=
  match x with
  | Fin q => Fin (q - 1)%Q
  | other => other
  end.

(** [a !== x] where [a] is the result of a Date getter. *)
Definition getterNeq (a : option Z) (x : num) : bool :=
  match a, x with
  | Some z, Fin q => negb (Qeq_bool (inject_Z z) q)
  | _, _ => true
  end.

Module Str.

Definition isWhiteSpace (c : ascii) : bool :=
  let n := nat_of_ascii c in
  ((9 <=? n) && (n <=? 13) || (n =? 32) || (n =? 160))%nat.

Definition isDigit (c : ascii) : bool :=
  let n := nat_of_ascii c in ((48 <=? n) && (n <=? 57))%nat.

Fixpoint dropWhile (p : ascii -> bool) (l : list ascii) : list ascii :=
  match l with
  | [] => []
  | c :: r => if p c then dropWhile p r else l
  end.

Fixpoint span (p : ascii -> bool) (l : list ascii) : list ascii * list ascii :=
  match l with
  | [] => ([], [])
  | c :: r =>
      if p c then let (a, b) := span p r in (c :: a, b) else ([], l)
  end.

Definition trim (l : list ascii) : list ascii :=
  rev (dropWhile isWhiteSpace (rev (dropWhile isWhiteSpace l))).

(** Value of [c] as a digit in [radix], if it is one. *)
Definition digitOf (radix : Z) (c : ascii) : option Z :=
  let n := Z.of_nat (nat_of_ascii c) in
  let v :=
    if (48 <=? n) && (n <=? 57) then Some (n - 48)
    else if (97 <=? n) && (n <=? 102) then Some (n - 87)
    else if (65 <=? n) && (n <=? 70) then Some (n - 55)
    else None in
  match v with
  | Some d => if d <? radix then Some d else None
  | None => None
  end.

Fixpoint digitsToZ (radix acc : Z) (l : list ascii) : option Z :=
  match l with
  | [] => Some acc
  | c :: r =>
      match digitOf radix c with
      | Some d => digitsToZ radix (acc * radix + d) r
      | None => None
      end
  end.

(** One or more digits in [radix]. *)
Definition parseDigits (radix : Z) (l : list ascii) : option Z :=
  match l with
  | [] => None
  | _ => digitsToZ radix 0 l
  end.

(** ExponentPart, optional: empty, or [e] or [E], an optional sign and
    digits. *)
Definition parseExponent (l : list ascii) : option Z :=
  match l with
  | [] => Some 0
  | c :: r =>
      if (Ascii.eqb c "e" || Ascii.eqb c "E")%bool then
        match r with
        | "+"%char :: r' => parseDigits 10 r'
        | "-"%char :: r' => option_map Z.opp (parseDigits 10 r')
        | _ => parseDigits 10 r
        end
      else None
  end.

Definition isNil (l : list ascii) : bool :=
  match l with [] => true | _ => false end.

(** StrUnsignedDecimalLiteral other than [Infinity]. *)
Definition parseUnsignedDecimal (l : list ascii) : option Q :=
  let (ip, r1) := span isDigit l in
  match r1 with
  | "."%char :: r2 =>
      let (fp, r3) := span isDigit r2 in
      if isNil ip && isNil fp then None
      else
        match digitsToZ 10 0 (ip ++ fp), parseExponent r3 with
        | Some m, Some e =>
            Some (inject_Z m * Qpower (inject_Z 10) (e - Z.of_nat (List.length fp)))%Q
        | _, _ => None
        end
  | _ =>
      if isNil ip then None
      else
        match digitsToZ 10 0 ip, parseExponent r1 with
        | Some m, Some e => Some (inject_Z m * Qpower (inject_Z 10) e)%Q
        | _, _ => None
        end
  end.

Definition infinityLit : list ascii := list_ascii_of_string "Infinity".

Definition listEqb (a b : list ascii) : bool :=
  String.eqb (string_of_list_ascii a) (string_of_list_ascii b).

(** StrDecimalLiteral: an optional sign and an unsigned decimal literal. *)
Definition parseDecimal (l : list ascii) : num :=
  let unsigned (neg : bool) (u : list ascii) : num :=
    if listEqb u infinityLit then Inf neg
    else match parseUnsignedDecimal u with
         | Some q => Fin (if neg then (- q)%Q else q)
         | None => NaN
         end in
  match l with
  | "+"%char :: u => unsigned false u
  | "-"%char :: u => unsigned true u
  | _ => unsigned false l
  end.

(** Radix announced by the prefix [0x], [0o] or [0b] (either case). *)
Definition prefixRadix (c : ascii) : option Z :=
  if (Ascii.eqb c "x" || Ascii.eqb c "X")%bool then Some 16
  else if (Ascii.eqb c "o" || Ascii.eqb c "O")%bool then Some 8
  else if (Ascii.eqb c "b" || Ascii.eqb c "B")%bool then Some 2
  else None.

(** StringToNumber: white space is trimmed, the empty string is 0, and
    anything that is not a StrNumericLiteral is [NaN]. *)
Definition StringToNumber (s : string) : num :=
  match trim (list_ascii_of_string s) with
  | [] => Fin 0
  | "0"%char :: p :: r =>
      match prefixRadix p with
      | Some radix =>
          match parseDigits radix r with
          | Some z => ofZ z
          | None => NaN
          end
      | None => parseDecimal ("0"%char :: p :: r)
      end
  | l => parseDecimal l
  end.

(** [s.split(sep)] for a one-character separator. *)
Fixpoint split (sep : ascii) (s : string) : list string :=
  match s with
  | EmptyString => [EmptyString]
  | String c rest =>
      if Ascii.eqb c sep then EmptyString :: split sep rest
      else
        match split sep rest with
        | [] => [String c EmptyString]
        | p :: ps => String c p :: ps
        end
  end.

Definition digitChar (d : Z) : ascii := ascii_of_nat (48 + Z.to_nat d).

(** Decimal digits of a non-negative integer, most significant first. *)
Fixpoint digitsOf (fuel : nat) (n : Z) (acc : string) : string :=
  match fuel with
  | O => acc
  | S f =>
      let acc' := String (digitChar (n mod 10)) acc in
      if n <? 10 then acc' else digitsOf f (n / 10) acc'
  end.

(** Number::toString for an integer (below 10^21 in magnitude). *)
Definition ZToString (n : Z) : string :=
  if n <? 0
  then String "-" (digitsOf (S (Z.to_nat (Z.log2 (- n)))) (- n) EmptyString)
  else digitsOf (S (Z.to_nat (Z.log2 n))) n EmptyString.

(** [String(x)] and [`${x}`] for the result of a Date getter. *)
Definition ToString (x : option Z) : string :=
  match x with
  | Some n => ZToString n
  | None => "NaN"
  end.

Fixpoint repeatChar (n : nat) (c : ascii) : string :=
  match n with
  | O => EmptyString
  | S k => String c (repeatChar k c)
  end.

(** [s.padStart(len, c)] for a one-character filler. *)
Definition padStart (len : nat) (c : ascii) (s : string) : string :=
  (repeatChar (len - String.length s) c ++ s)%string.

End Str.

(** [Number(s)] applied to a string. *)
Definition Number (s : string) : num := Str.StringToNumber s.

(* ================================================================== *)
(** * Date objects *)
(* ================================================================== *)

(** A Date object, represented by its time value. *)
Definition Date : Type := option Z.

Module JSDate.

(** MakeFullYear followed by MakeDay and MakeDate at 00:00:00.000, for
    the three-argument constructors.  A non-finite argument gives [NaN]. *)
Definition makeLocalMidnight (y m d : num) : option Z :=
  match y, m, d with
  | Fin qy, Fin qm, Fin qd =>
      let yi := truncQ qy in
      let yr := if (0 <=? yi) && (yi <=? 99) then 1900 + yi else yi in
      Some (ES.MakeDate (ES.MakeDay yr (truncQ qm) (truncQ qd))
                        (ES.MakeTime 0 0 0 0))
  | _, _, _ => None
  end.

(** [new Date(y, m, d)]. *)
Definition construct (tz : TimeZone) (y m d : num) : Date :=
  match makeLocalMidnight y m d with
  | Some t => ES.TimeClip (UTC tz t)
  | None => None
  end.

(** [new Date(Date.UTC(y, m, d))]. *)
Definition constructUTC (y m d : num) : Date :=
  match makeLocalMidnight y m d with
  | Some t => ES.TimeClip t
  | None => None
  end.

Definition getTime (d : Date) : option Z := d.

Definition getFullYear (tz : TimeZone) (d : Date) : option Z :=
  option_map (fun t => ES.YearFromTime (LocalTime tz t)) d.
Definition getMonth (tz : TimeZone) (d : Date) : option Z :=
  option_map (fun t => ES.MonthFromTime (LocalTime tz t)) d.
Definition getDate (tz : TimeZone) (d : Date) : option Z :=
  option_map (fun t => ES.DateFromTime (LocalTime tz t)) d.
Definition getDay (tz : TimeZone) (d : Date) : option Z :=
  option_map (fun t => ES.WeekDay (LocalTime tz t)) d.

Definition getUTCFullYear (d : Date) : option Z :=
  option_map ES.YearFromTime d.
Definition getUTCMonth (d : Date) : option Z :=
  option_map ES.MonthFromTime d.
Definition getUTCDate (d : Date) : option Z :=
  option_map ES.DateFromTime d.

(** [d.setDate(dt)]: the new time value of [d]. *)
Definition setDate (tz : TimeZone) (d : Date) (dt : option Z) : Date :=
  match d, dt with
  | Some t, Some n =>
      let tl := LocalTime tz t in
      ES.TimeClip
        (UTC tz (ES.MakeDate
                   (ES.MakeDay (ES.YearFromTime tl) (ES.MonthFromTime tl) n)
                   (ES.TimeWithinDay tl)))
  | _, _ => None
  end.

(** [d.setUTCDate(dt)]. *)
Definition setUTCDate (d : Date) (dt : option Z) : Date :=
  match d, dt with
  | Some t, Some n =>
      ES.TimeClip
        (ES.MakeDate
           (ES.MakeDay (ES.YearFromTime t) (ES.MonthFromTime t) n)
           (ES.TimeWithinDay t))
  | _, _ => None
  end.

(** [d.setHours(0, 0, 0, 0)]. *)
Definition setHours0 (tz : TimeZone) (d : Date) : Date :=
  match d with
  | Some t =>
      ES.TimeClip
        (UTC tz (ES.MakeDate (ES.Day (LocalTime tz t)) (ES.MakeTime 0 0 0 0)))
  | None => None
  end.

(** [d.setUTCHours(0, 0, 0, 0)]. *)
Definition setUTCHours0 (d : Date) : Date :=
  match d with
  | Some t => ES.TimeClip (ES.MakeDate (ES.Day t) (ES.MakeTime 0 0 0 0))
  | None => None
  end.

(** [a <= b] on Date objects: their time values are compared, and a
    comparison with [NaN] is false. *)
Definition leb (a b : Date) : bool :=
  match a, b with
  | Some x, Some y => x <=? y
  | _, _ => false
  end.

End JSDate.

(** [x + k] and [a - b] on getter results, [NaN] propagating. *)
Definition addN (x : option Z) (k : Z) : option Z :=
  option_map (fun n => n + k) x.
Definition subN (a b : option Z) : option Z :=
  match a, b with
  | Some x, Some y => Some (x - y)
  | _, _ => None
  end.

(** [Math.floor(x / k)] and [Math.ceil(x / k)] for an integral [x] and a
    positive integral [k]. *)
Definition floorDiv (x : option Z) (k : Z) : option Z :=
  option_map (fun n => n / k) x.
Definition ceilDiv (x : option Z) (k : Z) : option Z :=
  option_map (fun n => - ((- n) / k)) x.

(** Outcome of a call that may throw. *)
Inductive result (A : Type) : Type :=
| Ok (a : A)
| Throw (msg : string).
Arguments Ok {A} a.
Arguments Throw {A} msg.

Definition bindR {A B : Type} (r : result A) (k : A -> result B) : result B :=
  match r with
  | Ok a => k a
  | Throw m => Throw m
  end.

Notation "'do' x <- r ; k" := (bindR r (fun x => k))
  (at level 10, x name, r at level 100, k at level 200).

(* ================================================================== *)
(** * utils/dateUtils *)
(* ================================================================== *)

(** [s.split('-').map(Number)]. *)
Definition splitNumbers (s : string) : list num :=
  map Number (Str.split "-" s).

(** The message of the error thrown by [parseYMDLocal] and
    [parseYMDUTC]. *)
Definition invalidFormat (s : string) : string :=
  ("Invalid date format: " ++ s ++ ". Expected YYYY-MM-DD")%string.

(** [ymdLocal(d)]: the year as it prints, month and day padded to two
    digits. *)
Definition ymdLocal (tz : TimeZone) (d : Date) : string :=
  let y := JSDate.getFullYear tz d in
  let m := Str.padStart 2 "0" (Str.ToString (addN (JSDate.getMonth tz d) 1)) in
  let day := Str.padStart 2 "0" (Str.ToString (JSDate.getDate tz d)) in
  (Str.ToString y ++ "-" ++ m ++ "-" ++ day)%string.

(** [parseYMDLocal(s)]: throws unless there are exactly three parts and
    none of them is [NaN]; otherwise [new Date(y, m - 1, d)]. *)
Definition parseYMDLocal (tz : TimeZone) (s : string) : result Date :=
  let parts := splitNumbers s in
  if negb (List.length parts =? 3)%nat || existsb isNaN parts
  then Throw (invalidFormat s)
  else
    match parts with
    | [y; m; d] => Ok (JSDate.construct tz y (minus1 m) d)
    | _ => Throw (invalidFormat s)
    end.

(** [getTaskDate(taskIndex, startDate)]; for a string, [startDate || '']
    is [startDate]. *)
Definition getTaskDate (tz : TimeZone) (taskIndex : Z) (startDate : string)
  : result string :=
  do start <- parseYMDLocal tz startDate;
  let taskDate := JSDate.setDate tz start (addN (JSDate.getDate tz start) taskIndex) in
  Ok (ymdLocal tz taskDate).

(** [getDaysBetween(startDate, endDate)]:
    [Math.ceil(timeDiff / (1000 * 3600 * 24)) + 1]. *)
Definition getDaysBetween (tz : TimeZone) (startDate endDate : string)
  : result (option Z) :=
  do start <- parseYMDLocal tz startDate;
  do end_ <- parseYMDLocal tz endDate;
  let timeDiff := subN (JSDate.getTime end_) (JSDate.getTime start) in
  let daysDiff := addN (ceilDiv timeDiff (1000 * 3600 * 24)) 1 in
  Ok daysDiff.

(** [isToday(dateString)]; [now] is the time value of [new Date()]. *)
Definition isToday (tz : TimeZone) (now : Z) (dateString : string) : bool :=
  String.eqb dateString (ymdLocal tz (Some now)).

(** [ymdUTC(d)]. *)
Definition ymdUTC (d : Date) : string :=
  let y := JSDate.getUTCFullYear d in
  let m := Str.padStart 2 "0" (Str.ToString (addN (JSDate.getUTCMonth d) 1)) in
  let day := Str.padStart 2 "0" (Str.ToString (JSDate.getUTCDate d)) in
  (Str.ToString y ++ "-" ++ m ++ "-" ++ day)%string.

(** [parseYMDUTC(s)]: as [parseYMDLocal], with
    [new Date(Date.UTC(y, m - 1, d))]. *)
Definition parseYMDUTC (s : string) : result Date :=
  let parts := splitNumbers s in
  if negb (List.length parts =? 3)%nat || existsb isNaN parts
  then Throw (invalidFormat s)
  else
    match parts with
    | [y; m; d] => Ok (JSDate.constructUTC y (minus1 m) d)
    | _ => Throw (invalidFormat s)
    end.

(** [isTodayUTC(dateString)]. *)
Definition isTodayUTC (now : Z) (dateString : string) : bool :=
  String.eqb dateString (ymdUTC (Some now)).

Inductive TimeMode : Type := local | utc.

(** The bundle returned by [makeTime]. *)
Record TimeFns : Type := mkTimeFns {
  ymd : Date -> string;
  parseYMD : string -> result Date;
  isTodayFn : Z -> string -> bool;
  getTaskDateByMode : Z -> string -> result string;
  getDaysBetweenByMode : string -> string -> result (option Z)
}.

(** [makeTime(mode)]; the two formatters for display, which go through
    [Intl.DateTimeFormat], are given apart as [formatTaskDateByMode] and
    [formatDisabledTaskDateByMode]. *)
Definition makeTime (tz : TimeZone) (mode : TimeMode) : TimeFns :=
  let isUTC := match mode with utc => true | local => false end in
  let ymd := if isUTC then ymdUTC else ymdLocal tz in
  let parseYMD := if isUTC then parseYMDUTC else parseYMDLocal tz in
  let isTodayFn := if isUTC then isTodayUTC else isToday tz in
  let getTaskDateByMode (taskIndex : Z) (startDate : string) : result string :=
    do start <- parseYMD startDate;
    let d :=
      if isUTC
      then JSDate.setUTCDate start (addN (JSDate.getUTCDate start) taskIndex)
      else JSDate.setDate tz start (addN (JSDate.getDate tz start) taskIndex) in
    Ok (ymd d) in
  let getDaysBetweenByMode (startDate endDate : string) : result (option Z) :=
    do start <- parseYMD startDate;
    do end_ <- parseYMD endDate;
    let start' := if isUTC then JSDate.setUTCHours0 start else JSDate.setHours0 tz start in
    let end' := if isUTC then JSDate.setUTCHours0 end_ else JSDate.setHours0 tz end_ in
    Ok (addN (floorDiv (subN (JSDate.getTime end') (JSDate.getTime start'))
                       (1000 * 60 * 60 * 24)) 1) in
  mkTimeFns ymd parseYMD isTodayFn getTaskDateByMode getDaysBetweenByMode.

(** [parseYMDStrict(dateString)]; [null] is [None]. *)
Definition parseYMDStrict (tz : TimeZone) (dateString : string) : option Date :=
  let parts := splitNumbers dateString in
  if negb (List.length parts =? 3)%nat || existsb isNaN parts then None
  else
    match parts with
    | [y; m; d] =>
        if isFalsy y || isFalsy m || isFalsy d then None
        else
          let date := JSDate.construct tz y (minus1 m) d in
          if getterNeq (JSDate.getFullYear tz date) y
             || getterNeq (JSDate.getMonth tz date) (minus1 m)
             || getterNeq (JSDate.getDate tz date) d
          then None
          else Some date
    | _ => None
    end.

(** A cell of the month grid of [buildMonthDays]: a placeholder
    ([isPlaceholder: true], [day: 0], no date) or a day. *)
Inductive MonthCell : Type :=
| Placeholder (id : string)
| RealDay (id : string) (day : Z) (date : string).

Definition isPlaceholderCell (c : MonthCell) : bool :=
  match c with Placeholder _ => true | RealDay _ _ _ => false end.

(** The values [0], [1], ..., below [n]; none when [n] is [NaN]. *)
Definition upTo (n : option Z) : list Z :=
  match n with
  | Some k => map Z.of_nat (seq 0 (Z.to_nat k))
  | None => []
  end.

(** The values [1], ..., [n]; none when [n] is [NaN]. *)
Definition oneTo (n : option Z) : list Z :=
  match n with
  | Some k => map Z.of_nat (seq 1 (Z.to_nat k))
  | None => []
  end.

(** [(weekday - firstDayOfWeek + 7) % 7], the remainder taking the sign
    of the dividend. *)
Definition weekOffset (weekday : option Z) (firstDayOfWeek : Z) : option Z :=
  option_map (fun w => Z.rem (w - firstDayOfWeek + 7) 7) weekday.

(** [buildMonthDays(year, monthIndex, firstDayOfWeek)]: the two [for]
    loops push the placeholders and then the days. *)
Definition buildMonthDays (tz : TimeZone) (year monthIndex firstDayOfWeek : Z)
  : list MonthCell :=
  let firstDate := JSDate.construct tz (ofZ year) (ofZ monthIndex) (ofZ 1) in
  let weekday := JSDate.getDay tz firstDate in
  let offset := weekOffset weekday firstDayOfWeek in
  let placeholders :=
    map (fun i =>
           Placeholder ("ph-" ++ Str.ZToString year ++ "-"
                        ++ Str.ZToString monthIndex ++ "-" ++ Str.ZToString i)%string)
        (upTo offset) in
  let daysInMonth :=
    JSDate.getDate tz (JSDate.construct tz (ofZ year) (ofZ (monthIndex + 1)) (ofZ 0)) in
  let real :=
    map (fun d =>
           let y := Str.ZToString year in
           let m := Str.padStart 2 "0" (Str.ZToString (monthIndex + 1)) in
           let dd := Str.padStart 2 "0" (Str.ZToString d) in
           RealDay (y ++ "-" ++ m ++ "-" ++ dd)%string d
                   (y ++ "-" ++ m ++ "-" ++ dd)%string)
        (oneTo daysInMonth) in
  placeholders ++ real.

(* ================================================================== *)
(** * composables/useAppConfig: calendar days and task mapping *)
(* ================================================================== *)

(** An [id] is a number for a generated day and a string for a grid
    placeholder. *)
Inductive DayId : Type :=
| NumId (n : Z)
| StrId (s : string).

(** What is handed to the logging collaborator ([devWarn], [devLog]):
    the kind of message and the numbers it interpolates. *)
Inductive Message : Type :=
| Mismatch (expectedDays : option Z) (actualTasks : Z)
| PerfectMatch (actualTasks : Z) (expectedDays : option Z)
| Diagnostics (actualTasks : Z) (expectedDays : option Z).

(** A call to the logger; the console shows it in development builds
    only. *)
Inductive LogEntry : Type :=
| devWarn (m : Message)
| devLog (m : Message).


Section Calendar.

(** Tasks are opaque to the date layer. *)
Context {CalendarTask : Type}.

(** [isPlaceholder] and [task] are optional; an absent [isPlaceholder] is
    [false] (only its truth value is read). *)
Record CalendarDay : Type := mkCalendarDay {
  id : DayId;
  day : option Z;
  date : string;
  isActive : bool;
  isSelected : bool;
  isToday_ : bool;
  hasTask : bool;
  isPlaceholder : bool;
  task : option CalendarTask
}.

(** The fields of [CalendarData] and [CalendarConfig] the calendar reads. *)
Record CalendarData : Type := mkCalendarData {
  tasks : list CalendarTask
}.

Record CalendarConfig : Type := mkCalendarConfig {
  startDate : string;
  endDate : string;
  timeMode : option TimeMode
}.

(** Module state: the [validationPerformed] guard, the calls made to the
    logging collaborator (oldest first) and the [calendarDays] ref. *)
Record World : Type := mkWorld {
  validationPerformed : bool;
  logged : list LogEntry;
  calendarDays : list CalendarDay
}.

(** The state when the module is loaded. *)
Definition initialWorld : World := mkWorld false [] [].

Definition setValidated (w : World) : World :=
  mkWorld true (logged w) (calendarDays w).
Definition addLog (e : LogEntry) (w : World) : World :=
  mkWorld (validationPerformed w) (logged w ++ [e]) (calendarDays w).
Definition setCalendarDays (ds : list CalendarDay) (w : World) : World :=
  mkWorld (validationPerformed w) (logged w) ds.

(** [a !== b] for a count and a possibly-[NaN] number. *)
Definition countNeq (a : Z) (b : option Z) : bool :=
  match b with
  | Some n => negb (a =? n)
  | None => true
  end.

(** [validateTasksAndDays(calendar, config)]: runs once; the flag is set
    before anything can throw. *)
Definition validateTasksAndDays (tz : TimeZone)
    (calendar : CalendarData) (config : CalendarConfig) (w : World)
  : result unit * World :=
  if validationPerformed w then (Ok tt, w)
  else
    let w1 := setValidated w in
    let actualTasks := Z.of_nat (List.length (tasks calendar)) in
    match getDaysBetween tz (startDate config) (endDate config) with
    | Throw m => (Throw m, w1)
    | Ok expectedDays =>
        if actualTasks =? 0
        then (Throw "No tasks found in calendar data", w1)
        else
          let w2 :=
            if countNeq actualTasks expectedDays
            then addLog (devWarn (Mismatch expectedDays actualTasks)) w1
            else addLog (devLog (PerfectMatch actualTasks expectedDays)) w1 in
          (Ok tt, addLog (devLog (Diagnostics actualTasks expectedDays)) w2)
    end.

(** The [while (currentDay <= endDate)] loop; [None] when [fuel]
    iterations do not reach the exit.  [dateString || ''] is [dateString],
    which is never empty. *)
Fixpoint daysLoop (fuel : nat) (tz : TimeZone) (now : Z)
    (currentDay endDate : Date) (id : Z) (days : list CalendarDay)
  : option (list CalendarDay) :=
  match fuel with
  | O => None
  | S fuel' =>
      if JSDate.leb currentDay endDate then
        let dateString := ymdLocal tz currentDay in
        let dayNumber := JSDate.getDate tz currentDay in
        let rec :=
          mkCalendarDay (NumId id) dayNumber dateString
                        false false (isToday tz now dateString) true false None in
        daysLoop fuel' tz now
                 (JSDate.setDate tz currentDay (addN (JSDate.getDate tz currentDay) 1))
                 endDate (id + 1) (days ++ [rec])
      else Some days
  end.

(** [generateCalendarDays(calendar, config)]; the dates are parsed and
    stepped in local time whatever the time mode. *)
Definition generateCalendarDays (fuel : nat) (tz : TimeZone) (now : Z)
    (calendar : CalendarData) (config : CalendarConfig) (w : World)
  : option (result (list CalendarDay) * World) :=
  match validateTasksAndDays tz calendar config w with
  | (Throw m, w1) => Some (Throw m, w1)
  | (Ok _, w1) =>
      match parseYMDLocal tz (startDate config) with
      | Throw m => Some (Throw m, w1)
      | Ok startD =>
          match parseYMDLocal tz (endDate config) with
          | Throw m => Some (Throw m, w1)
          | Ok endD =>
              match daysLoop fuel tz now startD endD 1 [] with
              | Some days => Some (Ok days, w1)
              | None => None
              end
          end
      end
  end.

(** [tasks[i]] for a numeric index: [undefined] ([None]) out of range and
    for [NaN]. *)
Definition arrayGet {A : Type} (l : list A) (i : option Z) : option A :=
  match i with
  | Some n => if n <? 0 then None else nth_error l (Z.to_nat n)
  | None => None
  end.

(** [a % b]: [NaN] when [b] is zero, otherwise the remainder with the sign
    of the dividend. *)
Definition jsRem (a b : Z) : option Z :=
  if b =? 0 then None else Some (Z.rem a b).

(** [getTaskForDay(dayIndex, tasks)]: a task object is truthy, so the
    throw is for [undefined] only. *)
Definition getTaskForDay (dayIndex : Z) (tasks : list CalendarTask)
  : result CalendarTask :=
  let taskIndex := jsRem dayIndex (Z.of_nat (List.length tasks)) in
  match arrayGet tasks taskIndex with
  | Some task => Ok task
  | None => Throw ("Task not found for day index " ++ Str.ZToString dayIndex)%string
  end.

(** [isTaskActiveByIndex(dayIndex, config)]. *)
Definition isTaskActiveByIndex (tz : TimeZone) (now : Z) (dayIndex : Z)
    (config : CalendarConfig) : result bool :=
  do taskDate <- getTaskDate tz dayIndex (startDate config);
  Ok (isToday tz now taskDate).

(** [getTaskForDate(date, tasks, config)]; [undefined] is [None]. *)
Definition getTaskForDate (tz : TimeZone) (date : string)
    (tasks : list CalendarTask) (config : CalendarConfig)
  : result (option CalendarTask) :=
  do startD <- parseYMDLocal tz (startDate config);
  do targetDate <- parseYMDLocal tz date;
  let dayIndex :=
    floorDiv (subN (JSDate.getTime targetDate) (JSDate.getTime startD))
             (1000 * 60 * 60 * 24) in
  match dayIndex with
  | Some i =>
      if (0 <=? i) && (i <? Z.of_nat (List.length tasks))
      then Ok (arrayGet tasks dayIndex)
      else Ok None
  | None => Ok None
  end.

(** [config.value.timeMode ?? 'local']. *)
Definition modeOf (config : CalendarConfig) : TimeMode :=
  match timeMode config with
  | Some m => m
  | None => local
  end.

(** The callback of [days.forEach] in [updateCalendarDays], applied from
    index [index] on; a throw abandons the traversal. *)
Fixpoint attachTasks (fns : TimeFns) (now : Z) (tasks : list CalendarTask)
    (start : string) (index : Z) (days : list CalendarDay)
  : result (list CalendarDay) :=
  match days with
  | [] => Ok []
  | d :: rest =>
      do task <- getTaskForDay index tasks;
      do taskDate <- getTaskDateByMode fns index start;
      let d' :=
        mkCalendarDay (id d) (day d) (date d)
                      (isTodayFn fns now taskDate) (isSelected d) (isToday_ d)
                      true (isPlaceholder d) (Some task) in
      do rest' <- attachTasks fns now tasks start (index + 1) rest;
      Ok (d' :: rest')
  end.

(** [updateCalendarDays()]: the ref [calendarDays] is assigned only when
    nothing has thrown. *)
Definition updateCalendarDays (fuel : nat) (tz : TimeZone) (now : Z)
    (calendar : CalendarData) (config : CalendarConfig) (w : World)
  : option (result unit * World) :=
  match generateCalendarDays fuel tz now calendar config w with
  | None => None
  | Some (Throw m, w1) => Some (Throw m, w1)
  | Some (Ok days, w1) =>
      match attachTasks (makeTime tz (modeOf config)) now (tasks calendar)
                        (startDate config) 0 days with
      | Throw m => Some (Throw m, w1)
      | Ok days' => Some (Ok tt, setCalendarDays days' w1)
      end
  end.

(** The public [getTaskForDate] of the composable. *)
Definition getTaskForDateLocal (tz : TimeZone) (calendar : CalendarData)
    (config : CalendarConfig) (date : string) : result (option CalendarTask) :=
  getTaskForDate tz date (tasks calendar) config.

(* ------------------------------------------------------------------ *)
(** ** components/CalendarContent.vue: [groupedDays] *)

(** Appends [d] to the group of [key] in an insertion-ordered map. *)
Fixpoint pushToGroup (key : string) (d : CalendarDay)
    (groups : list (string * list CalendarDay))
  : list (string * list CalendarDay) :=
  match groups with
  | [] => [(key, [d])]
  | (k, ds) :: rest =>
      if String.eqb k key then (k, ds ++ [d]) :: rest
      else (k, ds) :: pushToGroup key d rest
  end.

(** The key [`${dt.getFullYear()}-${dt.getMonth()}`], read with the
    local getters. *)
Definition monthKey (tz : TimeZone) (dt : Date) : string :=
  (Str.ToString (JSDate.getFullYear tz dt) ++ "-"
   ++ Str.ToString (JSDate.getMonth tz dt))%string.

(** The [forEach] that fills [byMonth]; [parseYMD] is the one of the
    active time mode. *)
Fixpoint groupByMonth (tz : TimeZone) (fns : TimeFns)
    (days : list CalendarDay) (groups : list (string * list CalendarDay))
  : result (list (string * list CalendarDay)) :=
  match days with
  | [] => Ok groups
  | d :: rest =>
      do dt <- parseYMD fns (date d);
      groupByMonth tz fns rest (pushToGroup (monthKey tz dt) d groups)
  end.

(** The placeholder pushed at position [i]. *)
Definition placeholderDay (year monthIndex : option Z) (i : Z) : CalendarDay :=
  mkCalendarDay
    (StrId ("ph-" ++ Str.ToString year ++ "-" ++ Str.ToString monthIndex
            ++ "-" ++ Str.ZToString i)%string)
    (Some 0) "" false false false false true None.

(** One entry of the result: the month label and the days themselves or,
    when aligning, the leading placeholders followed by the days.
    [monthLabel] stands for [toLocaleDateString(lang, { month: 'long' })]. *)
Definition monthGrid (tz : TimeZone) (monthLabel : Date -> string)
    (fns : TimeFns) (align : bool) (fdow : Z) (days : list CalendarDay)
  : result (string * list CalendarDay) :=
  match days with
  | [] => Throw "Cannot read properties of undefined (reading 'date')"
  | first :: _ =>
      do sample <- parseYMD fns (date first);
      let year := JSDate.getFullYear tz sample in
      let monthIndex := JSDate.getMonth tz sample in
      if negb align then Ok (monthLabel sample, days)
      else
        do startD <- parseYMD fns (date first);
        let firstDayOfWeek := JSDate.getDay tz startD in
        let offset := weekOffset firstDayOfWeek fdow in
        Ok (monthLabel sample,
            map (placeholderDay year monthIndex) (upTo offset) ++ days)
  end.

(** Maps a function that may throw, left to right. *)
Fixpoint mapR {A B : Type} (f : A -> result B) (l : list A) : result (list B) :=
  match l with
  | [] => Ok []
  | a :: r => do b <- f a; do bs <- mapR f r; Ok (b :: bs)
  end.

(** [fdow] is the value of [getFirstDayOfWeekFromLang]; [align] is
    [alignByWeekday && isWeekAlignMode]. *)
Definition groupedDays (tz : TimeZone) (monthLabel : Date -> string)
    (mode : TimeMode) (align : bool) (fdow : Z)
    (calendarDays : list CalendarDay)
  : result (list (string * list CalendarDay)) :=
  let fns := makeTime tz mode in
  do byMonth <- groupByMonth tz fns calendarDays [];
  mapR (fun g : string * list CalendarDay =>
          monthGrid tz monthLabel fns align fdow (snd g))
       byMonth.

(* ------------------------------------------------------------------ *)
(** ** components/CalendarDays.vue *)

(** What a click on the cell of [d] emits: a placeholder is rendered as a
    [div] without handler, any other day as a button whose click emits
    ['day-click'] with the day. *)
Definition dayClick (d : CalendarDay) : option CalendarDay :=
  if isPlaceholder d then None else Some d.

End Calendar.

Arguments CalendarDay : clear implicits.
Arguments CalendarData : clear implicits.
Arguments World : clear implicits.


(* ================================================================== *)
(** * Calendar dates, for stating the properties *)
(* ================================================================== *)

Module Civil.

(** Year, month (1..12) and day of month of the Gregorian calendar. *)
Definition date : Type := (Z * Z * Z)%type.

Definition year (c : date) : Z := fst (fst c).
Definition month (c : date) : Z := snd (fst c).
Definition dayOfMonth (c : date) : Z := snd c.

Definition isLeap (y : Z) : bool :=
  ((y mod 4 =? 0) && negb (y mod 100 =? 0)) || (y mod 400 =? 0).

Definition daysIn (y m : Z) : Z :=
  match m with
  | 2 => if isLeap y then 29 else 28
  | 4 | 6 | 9 | 11 => 30
  | _ => 31
  end.

Definition valid (c : date) : bool :=
  let '(y, m, d) := c in
  (1 <=? m) && (m <=? 12) && (1 <=? d) && (d <=? daysIn y m).

(** The day after [c]. *)
Definition next (c : date) : date :=
  let '(y, m, d) := c in
  if d <? daysIn y m then (y, m, d + 1)
  else if m <? 12 then (y, m + 1, 1)
  else (y + 1, 1, 1).

(** [c] plus [n] days. *)
Fixpoint addDays (n : nat) (c : date) : date :=
  match n with
  | O => c
  | S k => next (addDays k c)
  end.

(** [c1] is [c2] or an earlier date. *)
Definition leb (c1 c2 : date) : bool :=
  let '(y1, m1, d1) := c1 in
  let '(y2, m2, d2) := c2 in
  (y1 <? y2) || ((y1 =? y2) && ((m1 <? m2) || ((m1 =? m2) && (d1 <=? d2)))).

(** Valid dates of the years written with four digits and no leading
    zero. *)
Definition fourDigitYear (c : date) : bool :=
  valid c && (1000 <=? year c) && (year c <=? 9999).

Definition pad (len : nat) (n : Z) : string :=
  Str.padStart len "0" (Str.ZToString n).

(** The text [YYYY-MM-DD] of a date. *)
Definition format (c : date) : string :=
  let '(y, m, d) := c in
  (pad 4 y ++ "-" ++ pad 2 m ++ "-" ++ pad 2 d)%string.

Definition digitValue (c : ascii) : Z := Z.of_nat (nat_of_ascii c) - 48.

(** Reads a text of the shape [\d{4}-\d{2}-\d{2}]; [None] for any other
    text. *)
Definition read (s : string) : option date :=
  match list_ascii_of_string s with
  | [a; b; c; d; h1; e; f; h2; g; h] =>
      if forallb Str.isDigit [a; b; c; d; e; f; g; h]
         && Ascii.eqb h1 "-" && Ascii.eqb h2 "-"
      then Some (1000 * digitValue a + 100 * digitValue b
                 + 10 * digitValue c + digitValue d,
                 10 * digitValue e + digitValue f,
                 10 * digitValue g + digitValue h)
      else None
  | _ => None
  end.


(** Day number of a date, counted from 1970-01-01. *)
Definition dayNumber (c : date) : Z :=
  let '(y, m, d) := c in ES.MakeDay y (m - 1) d.

(** The date of the instant [t] (read in UTC). *)
Definition ofTime (t : Z) : date :=
  (ES.YearFromTime t, ES.MonthFromTime t + 1, ES.DateFromTime t).

End Civil.

(** Exact comparison of Number values. *)
Definition num_eqb (a b : num) : bool :=
  match a, b with
  | NaN, NaN => true
  | Inf x, Inf y => Bool.eqb x y
  | Fin p, Fin q => (Qnum p =? Qnum q) && (Pos.eqb (Qden p) (Qden q))
  | _, _ => false
  end.

(** The integers from [lo], [n] of them. *)
Definition zrange (lo : Z) (n : nat) : list Z :=
  map (fun k => lo + Z.of_nat k) (seq 0 n).

(** Texts of two and four decimal digits, given digit by digit. *)
Definition str2 (a b : Z) : string :=
  String (Str.digitChar a) (String (Str.digitChar b) EmptyString).
Definition str4 (a b c d : Z) : string :=
  String (Str.digitChar a) (String (Str.digitChar b) (str2 c d)).

Definition digits10 : list Z := zrange 0 10.

(** What holds of every two-digit text. *)
Definition check2 (a b : Z) : bool :=
  let n := 10 * a + b in
  String.eqb (Civil.pad 2 n) (str2 a b)
  && num_eqb (Number (str2 a b)) (ofZ n).

(** What holds of every four-digit text. *)
Definition check4 (a b c d : Z) : bool :=
  let n := 1000 * a + 100 * b + 10 * c + d in
  String.eqb (Civil.pad 4 n) (str4 a b c d)
  && num_eqb (Number (str4 a b c d)) (ofZ n)
  && (if 1 <=? a then String.eqb (Str.ZToString n) (str4 a b c d) else true).

(** The text of a date, digit by digit. *)
Definition ymdText (a b c d e f g h : Z) : string :=
  (str4 a b c d ++ "-" ++ str2 e f ++ "-" ++ str2 g h)%string.

(** The instant at which day number [n] begins in the zone [tz]. *)
Definition localMidnight (tz : TimeZone) (n : Z) : Z :=
  UTC tz (n * ES.msPerDay).

(** The record [generateCalendarDays] is expected to push for the date [c]
    under the identifier [idn]. *)
Definition generatedDay {CalendarTask : Type} (tz : TimeZone) (now : Z)
    (c : Civil.date) (idn : Z) : CalendarDay CalendarTask :=
  mkCalendarDay (NumId idn) (Some (Civil.dayOfMonth c)) (Civil.format c)
                false false (isToday tz now (Civil.format c)) true false None.

(** The record expected at zero-based position [i] of [calendarDays] for a
    range starting on [start]: identifier [i + 1], the date [i] days after
    [start], and the task at position [i mod length tasks]. *)
Definition expectedDay {CalendarTask : Type} (tz : TimeZone) (mode : TimeMode)
    (now : Z) (tasks : list CalendarTask) (start : Civil.date) (i : nat)
  : CalendarDay CalendarTask :=
  let c := Civil.addDays i start in
  mkCalendarDay (NumId (Z.of_nat i + 1)) (Some (Civil.dayOfMonth c))
                (Civil.format c)
                (isTodayFn (makeTime tz mode) now (Civil.format c))
                false (isToday tz now (Civil.format c)) true false
                (nth_error tasks (i mod List.length tasks)).

(** The module state after a successful [validateTasksAndDays]. *)
Definition validatedWorld {CalendarTask : Type} (w : World CalendarTask)
    (actualTasks : Z) (expectedDays : option Z) : World CalendarTask :=
  if validationPerformed w then w
  else
    addLog (devLog (Diagnostics actualTasks expectedDays))
      (addLog (if countNeq actualTasks expectedDays
               then devWarn (Mismatch expectedDays actualTasks)
               else devLog (PerfectMatch actualTasks expectedDays))
              (setValidated w)).


(** Day of the week of a date, 0 for Sunday. *)
Definition weekdayOf (c : Civil.date) : Z :=
  ES.WeekDay (Civil.dayNumber c * ES.msPerDay).

(** Number of leading placeholders that put [c] in its weekday column
    when weeks start on [fdow]. *)
Definition gridOffset (c : Civil.date) (fdow : Z) : Z :=
  (weekdayOf c - fdow + 7) mod 7.

(* ================================================================== *)
(** * utils/dateUtils: relative dates, clamping, warning once *)
(* ================================================================== *)

(** [a < b] on time values; false when one of them is [NaN]. *)
Definition ltN (a b : option Z) : bool :=
  match a, b with
  | Some x, Some y => x <? y
  | _, _ => false
  end.

(** [isPastDate(dateString)]; [now] is the time value of [new Date()]. *)
Definition isPastDate (tz : TimeZone) (now : Z) (dateString : string)
  : result bool :=
  do a <- parseYMDLocal tz dateString;
  do b <- parseYMDLocal tz (ymdLocal tz (Some now));
  let a' := JSDate.setHours0 tz a in
  let b' := JSDate.setHours0 tz b in
  Ok (ltN (JSDate.getTime a') (JSDate.getTime b')).

(** [isFutureDate(dateString)]. *)
Definition isFutureDate (tz : TimeZone) (now : Z) (dateString : string)
  : result bool :=
  do a <- parseYMDLocal tz dateString;
  do b <- parseYMDLocal tz (ymdLocal tz (Some now));
  let a' := JSDate.setHours0 tz a in
  let b' := JSDate.setHours0 tz b in
  Ok (ltN (JSDate.getTime b') (JSDate.getTime a')).

(** [Math.min(d, x)] for the result [x] of a Date getter. *)
Definition minN (d : Z) (x : option Z) : option Z :=
  option_map (Z.min d) x.

(** [clampToMonthEnd(y, m, d)] on integers: the fields [y], [m] and [d] of
    the object returned. *)
Definition clampToMonthEnd (tz : TimeZone) (y m d : Z) : Z * Z * option Z :=
  let lastDay := JSDate.getDate tz (JSDate.construct tz (ofZ y) (ofZ m) (ofZ 0)) in
  (y, m, minN d lastDay).

(** The module-level set [warnedKeys], in insertion order, and the
    messages for which a [devWarn] call has been scheduled (the call is
    made when the dynamic import of the logger resolves). *)
Record WarnState : Type := mkWarnState {
  warnedKeys : list string;
  scheduledWarnings : list string
}.

Definition noWarnings : WarnState := mkWarnState [] [].

(** [warnOnce(key, message)]. *)
Definition warnOnce (key message : string) (st : WarnState) : WarnState :=
  if existsb (String.eqb key) (warnedKeys st) then st
  else mkWarnState (warnedKeys st ++ [key])
                   (scheduledWarnings st ++ [("[Calendar] " ++ message)%string]).

(** A sequence of [warnOnce] calls, each given as its key and message. *)
Definition warnAll (calls : list (string * string)) (st : WarnState) : WarnState :=
  fold_left (fun s c => warnOnce (fst c) (snd c) s) calls st.

(* ------------------------------------------------------------------ *)
(** ** [getFirstDayOfWeekFromLang] *)

(** The code units of [c.toUpperCase()] for a code unit below 256: the
    letters a-z and the Latin-1 letters 224-254 (but the division sign)
    move down by 32, the micro sign becomes the Greek capital mu, the
    sharp s becomes SS and y with diaeresis becomes code unit 376. *)
Definition upperUnits (c : ascii) : list Z :=
  let n := Z.of_nat (nat_of_ascii c) in
  if (97 <=? n) && (n <=? 122) then [n - 32]
  else if n =? 181 then [924]
  else if n =? 223 then [83; 83]
  else if (224 <=? n) && (n <=? 254) && negb (n =? 247) then [n - 32]
  else if n =? 255 then [376]
  else [n].

(** The code units of a string. *)
Definition codeUnits (s : string) : list Z :=
  map (fun c => Z.of_nat (nat_of_ascii c)) (list_ascii_of_string s).

(** [s.toUpperCase()], as code units. *)
Definition toUpperCase (s : string) : list Z :=
  flat_map upperUnits (list_ascii_of_string s).

Definition unitsEqb (a b : list Z) : bool :=
  if list_eq_dec Z.eq_dec a b then true else false.

(** The [cfg] argument. *)
Inductive FirstDayConfig : Type := Auto | Monday | Sunday.

(** [getFirstDayOfWeekFromLang(lang, cfg)].  [localeFirstDay lang] is what
    the host gives for [new Intl.Locale(lang).weekInfo?.firstDay]: [None]
    when the constructor throws or the value is [undefined]. *)
Definition getFirstDayOfWeekFromLang (localeFirstDay : string -> option Z)
    (lang : string) (cfg : FirstDayConfig) : Z :=
  match cfg with
  | Monday => 1
  | Sunday => 0
  | Auto =>
      let fallback :=
        let region := option_map toUpperCase (nth_error (Str.split "-" lang) 1) in
        let r := match region with Some u => u | None => codeUnits "" end in
        if existsb (unitsEqb r) [codeUnits "US"; codeUnits "CA"; codeUnits "PH"]
        then 0 else 1 in
      match localeFirstDay lang with
      | Some first => if (first =? 0) || (first =? 1) then first else fallback
      | None => fallback
      end
  end.

(* ------------------------------------------------------------------ *)
(** ** utils/sanitizeHtml: [containsHtml] *)

(** [[^>]*>] at the head of [l]: the class matches every character but
    [>], so the match succeeds exactly when a [>] occurs in [l]. *)
Fixpoint closesTag (l : list ascii) : bool :=
  match l with
  | [] => false
  | c :: r => if Ascii.eqb c ">" then true else closesTag r
  end.

(** [<[^>]*>] tried at each position in turn. *)
Fixpoint findTag (l : list ascii) : bool :=
  match l with
  | [] => false
  | c :: r => (Ascii.eqb c "<" && closesTag r) || findTag r
  end.

(** [containsHtml(text)]: the regular expression is created afresh by
    each call, so the search starts at the first character. *)
Definition containsHtml (text : string) : bool :=
  findTag (list_ascii_of_string text).

(* ------------------------------------------------------------------ *)
(** ** Spelling without regard to ASCII letter case, for stating
       properties *)

Definition asciiLower (c : ascii) : ascii :=
  let n := nat_of_ascii c in
  if ((65 <=? n) && (n <=? 90))%nat then ascii_of_nat (n + 32) else c.

Fixpoint lowerASCII (s : string) : string :=
  match s with
  | EmptyString => EmptyString
  | String c r => String (asciiLower c) (lowerASCII r)
  end.

(** What holds of a character [c] and a capital letter [k]: [c]
    upper-cases to [k] alone exactly when it is that letter in either
    case. *)
Definition caseCheck (k : Z) (c : ascii) : bool :=
  Bool.eqb (unitsEqb (upperUnits c) [k])
           (Ascii.eqb (asciiLower c) (ascii_of_nat (Z.to_nat k + 32))).

(** The 256 characters. *)
Definition allAscii : list ascii := map ascii_of_nat (seq 0 256).

(** One warning is scheduled per key, and no key is kept twice. *)
Definition tidy (st : WarnState) : Prop :=
  NoDup (warnedKeys st)
  /\ List.length (scheduledWarnings st) = List.length (warnedKeys st).

(* ================================================================== *)
(** * utils/dateUtils: the formatters for display *)
(* ================================================================== *)

(** [d.toLocaleDateString('en', { month })]: the name the host's locale
    data gives to the month of [d] in the host zone ([monthName] maps the
    month index 0..11 to it), and ["Invalid Date"] for an invalid date. *)
Definition toLocaleMonth (tz : TimeZone) (monthName : Z -> string) (d : Date)
  : string :=
  match JSDate.getMonth tz d with
  | Some m => monthName m
  | None => "Invalid Date"
  end.

(** [new Intl.DateTimeFormat('en', { month, timeZone? }).format(d)]: the
    same name, read in UTC when [timeZone: 'UTC'] is given; an invalid
    date makes [format] throw a RangeError. *)
Definition intlMonth (tz : TimeZone) (isUTC : bool) (monthName : Z -> string)
    (d : Date) : result string :=
  match d with
  | Some t => Ok (monthName (ES.MonthFromTime (if isUTC then t else LocalTime tz t)))
  | None => Throw "Invalid time value"
  end.

(** [getTaskMonth(taskIndex, startDate)]. *)
Definition getTaskMonth (tz : TimeZone) (monthLong : Z -> string)
    (taskIndex : Z) (startDate : string) : result string :=
  do s <- getTaskDate tz taskIndex startDate;
  do date <- parseYMDLocal tz s;
  Ok (toLocaleMonth tz monthLong date).

(** [formatTaskDate(dateString)]. *)
Definition formatTaskDate (tz : TimeZone) (monthShort : Z -> string)
    (dateString : string) : result string :=
  do date <- parseYMDLocal tz dateString;
  let month := toLocaleMonth tz monthShort date in
  let day := JSDate.getDate tz date in
  Ok (month ++ ". " ++ Str.ToString day)%string.

(** [formatDisabledTaskDate(dateString)]. *)
Definition formatDisabledTaskDate (tz : TimeZone) (monthLong : Z -> string)
    (dateString : string) : result string :=
  do date <- parseYMDLocal tz dateString;
  let month := toLocaleMonth tz monthLong date in
  let day := JSDate.getDate tz date in
  Ok (month ++ ", " ++ Str.ToString day)%string.

(** [formatTaskDateByMode] of [makeTime(mode)]. *)
Definition formatTaskDateByMode (tz : TimeZone) (mode : TimeMode)
    (monthShort : Z -> string) (dateString : string) : result string :=
  let isUTC := match mode with utc => true | local => false end in
  do date <- parseYMD (makeTime tz mode) dateString;
  do month <- intlMonth tz isUTC monthShort date;
  let day := if isUTC then JSDate.getUTCDate date else JSDate.getDate tz date in
  Ok (month ++ ". " ++ Str.ToString day)%string.

(** [formatDisabledTaskDateByMode] of [makeTime(mode)]. *)
Definition formatDisabledTaskDateByMode (tz : TimeZone) (mode : TimeMode)
    (monthLong : Z -> string) (dateString : string) : result string :=
  let isUTC := match mode with utc => true | local => false end in
  do date <- parseYMD (makeTime tz mode) dateString;
  do month <- intlMonth tz isUTC monthLong date;
  let day := if isUTC then JSDate.getUTCDate date else JSDate.getDate tz date in
  Ok (month ++ ", " ++ Str.ToString day)%string.

(* ================================================================== *)
(** * composables/useAppConfig: image paths *)
(* ================================================================== *)

(** The rest of [s] after the prefix [p], if [s] starts with [p]. *)
Fixpoint dropPrefix (p s : string) : option string :=
  match p with
  | EmptyString => Some s
  | String a p' =>
      match s with
      | EmptyString => None
      | String b s' => if Ascii.eqb a b then dropPrefix p' s' else None
      end
  end.

(** [s.replace(/^p/, '')] for a literal [p]. *)
Definition stripPrefix (p s : string) : string :=
  match dropPrefix p s with
  | Some r => r
  | None => s
  end.

(** [s.replace(/^\/+/, '')]. *)
Fixpoint stripLeadingSlashes (s : string) : string :=
  match s with
  | String c r => if Ascii.eqb c "/" then stripLeadingSlashes r else s
  | EmptyString => EmptyString
  end.

Definition startsWith (p s : string) : bool :=
  match dropPrefix p s with Some _ => true | None => false end.

(** [/^(https?:)?\/\//.test(name)]. *)
Definition isAbsoluteUrl (name : string) : bool :=
  startsWith "//" name || startsWith "http://" name || startsWith "https://" name.

(** The three [replace] calls of [resolveImg]. *)
Definition cleanImgName (name : string) : string :=
  stripPrefix "assets/images/"
    (stripPrefix "src/assets/images/" (stripLeadingSlashes name)).

(** [resolveImg(name)]: the string returned and the messages handed to
    [devWarn].  [IMG k] is the value of [IMG[k]], [None] for
    [undefined]; an absent argument is [None]. *)
Definition resolveImg (IMG : string -> option string) (name : option string)
  : string * list string :=
  match name with
  | None => ("", [])
  | Some nm =>
      if String.eqb nm "" then ("", [])
      else if isAbsoluteUrl nm then (nm, [])
      else
        let clean := cleanImgName nm in
        match IMG clean with
        | Some url =>
            if String.eqb url ""
            then ("", [("[resolveImg] Not found in IMG map: " ++ clean)%string])
            else (url, [])
        | None => ("", [("[resolveImg] Not found in IMG map: " ++ clean)%string])
        end
  end.

(* ================================================================== *)
(** * components/TaskCard.vue: status and countdown *)
(* ================================================================== *)

(** [a === b] on time values; false when one of them is [NaN]. *)
Definition eqN (a b : option Z) : bool :=
  match a, b with
  | Some x, Some y => x =? y
  | _, _ => false
  end.

Module TaskCard.

Inductive Status : Type := ACTIVE | DISABLED | FINISHED.

(** [config.value.timeMode === 'utc']. *)
Definition isUTC (timeMode : option TimeMode) : bool :=
  match timeMode with
  | Some utc => true
  | _ => false
  end.

(** The time functions of the composable: [makeTime(timeMode ?? 'local')]. *)
Definition timeFns (tz : TimeZone) (timeMode : option TimeMode) : TimeFns :=
  makeTime tz (match timeMode with Some m => m | None => local end).

(** [setStartOfDay(d)]: the new time value of [d]. *)
Definition setStartOfDay (tz : TimeZone) (timeMode : option TimeMode) (d : Date)
  : Date :=
  if isUTC timeMode then JSDate.setUTCHours0 d else JSDate.setHours0 tz d.

(** [setEndOfDay(d)]: [setUTCHours(23, 59, 59, 999)] or
    [setHours(23, 59, 59, 999)]. *)
Definition setEndOfDay (tz : TimeZone) (timeMode : option TimeMode) (d : Date)
  : Date :=
  match d with
  | Some t =>
      if isUTC timeMode
      then ES.TimeClip (ES.MakeDate (ES.Day t) (ES.MakeTime 23 59 59 999))
      else ES.TimeClip
             (UTC tz (ES.MakeDate (ES.Day (LocalTime tz t))
                                  (ES.MakeTime 23 59 59 999)))
  | None => None
  end.

(** The [status] of the card of index [taskIndex]; [currentDate] is the
    [currentDate] ref of the composable. *)
Definition status (tz : TimeZone) (timeMode : option TimeMode)
    (currentDate : Date) (taskIndex : Z) (startDate : string) : result Status :=
  let fns := timeFns tz timeMode in
  do today <- parseYMD fns (ymd fns currentDate);
  let today' := setStartOfDay tz timeMode today in
  do taskDate <- getTaskDateByMode fns taskIndex startDate;
  do t <- parseYMD fns taskDate;
  let t' := setStartOfDay tz timeMode t in
  if eqN (JSDate.getTime t') (JSDate.getTime today') then Ok ACTIVE
  else if ltN t' today' then Ok FINISHED
  else Ok DISABLED.

(** The four numbers of the countdown, for a finite [timeLeft]: [%] is
    the remainder with the sign of the dividend. *)
Definition countdown (timeLeft : Z) : Z * Z * Z * Z :=
  let days := timeLeft / (1000 * 60 * 60 * 24) in
  let hours := Z.rem timeLeft (1000 * 60 * 60 * 24) / (1000 * 60 * 60) in
  let minutes := Z.rem timeLeft (1000 * 60 * 60) / (1000 * 60) in
  let seconds := Z.rem timeLeft (1000 * 60) / 1000 in
  (days, hours, minutes, seconds).

(** The text after the colon: the days, with their unit, only when there
    is at least one. *)
Definition countdownText (dayUnit : string) (timeLeft : Z) : string :=
  let '(days, hours, minutes, seconds) := countdown timeLeft in
  let dd := Str.padStart 2 "0" (Str.ZToString days) in
  let hh := Str.padStart 2 "0" (Str.ZToString hours) in
  let mm := Str.padStart 2 "0" (Str.ZToString minutes) in
  let ss := Str.padStart 2 "0" (Str.ZToString seconds) in
  if 0 <? days
  then (dd ++ dayUnit ++ " " ++ hh ++ " : " ++ mm ++ " : " ++ ss)%string
  else (hh ++ " : " ++ mm ++ " : " ++ ss)%string.

(** [timer]: [undefined] ([None]) unless the card is active and time is
    left; [currentTime] is the [currentTime] ref.  A [NaN] difference is
    not [<= 0] and prints as [NaN]. *)
Definition timer (tz : TimeZone) (timeMode : option TimeMode)
    (currentDate : Date) (currentTime : Date) (taskIndex : Z)
    (startDate finishesInText dayUnit : string) : result (option string) :=
  let fns := timeFns tz timeMode in
  do st <- status tz timeMode currentDate taskIndex startDate;
  match st with
  | ACTIVE =>
      do taskDate <- getTaskDateByMode fns taskIndex startDate;
      do taskDateObj <- parseYMD fns taskDate;
      let taskDateObj' := setEndOfDay tz timeMode taskDateObj in
      match subN (JSDate.getTime taskDateObj') (JSDate.getTime currentTime) with
      | Some timeLeft =>
          if timeLeft <=? 0 then Ok None
          else Ok (Some (finishesInText ++ ": " ++ countdownText dayUnit timeLeft)%string)
      | None => Ok (Some (finishesInText ++ ": NaN : NaN : NaN")%string)
      end
  | _ => Ok None
  end.

End TaskCard.

(* ================================================================== *)
(** * scripts/validate-config: [validateConfig] *)
(* ================================================================== *)

Module ValidateConfig.

(** The truth value of an optional string of the configuration. *)
Definition given (s : option string) : bool :=
  match s with
  | Some x => negb (String.eqb x "")
  | None => false
  end.

(** The errors of one date field. *)
Definition dateErrors (tz : TimeZone) (missing invalid : string)
    (field : option string) : list string :=
  match field with
  | Some s =>
      if String.eqb s "" then [missing]
      else
        match parseYMDStrict tz s with
        | Some _ => []
        | None => [(invalid ++ s ++ " (date does not exist)")%string]
        end
  | None => [missing]
  end.

(** [Math.ceil((end - start) / (1000 * 60 * 60 * 24)) + 1 > 92]. *)
Definition tooLong (startParsed endParsed : Date) : option Z :=
  match addN (ceilDiv (subN (JSDate.getTime endParsed) (JSDate.getTime startParsed))
                      (1000 * 60 * 60 * 24)) 1 with
  | Some daysDiff => if 92 <? daysDiff then Some daysDiff else None
  | None => None
  end.

(** [validateConfig(config)] on the fields [startDate], [endDate] and
    [firstDayOfWeek] of [config.config] (absent: [None]); the script's
    own [parseYMDStrict] is that of the date utilities.  The result is
    [errors] and [warnings]. *)
Definition validateConfig (tz : TimeZone)
    (startDate endDate firstDayOfWeek : option string)
  : list string * list string :=
  let e1 := dateErrors tz "Missing startDate in config" "Invalid start date: "
                       startDate in
  let e2 := dateErrors tz "Missing endDate in config" "Invalid end date: "
                       endDate in
  let range :=
    match startDate, endDate with
    | Some s, Some e =>
        if given startDate && given endDate then
          match parseYMDStrict tz s, parseYMDStrict tz e with
          | Some startParsed, Some endParsed =>
              ((if ltN (JSDate.getTime endParsed) (JSDate.getTime startParsed)
                then [("Start date (" ++ s ++ ") is after end date (" ++ e ++ ")")%string]
                else []),
               match tooLong startParsed endParsed with
               | Some daysDiff =>
                   [("Calendar range is very long: " ++ Str.ZToString daysDiff
                     ++ " days (max recommended: 92)")%string]
               | None => []
               end)
          | _, _ => ([], [])
          end
        else ([], [])
    | _, _ => ([], [])
    end in
  let e4 :=
    match firstDayOfWeek with
    | Some f =>
        if given firstDayOfWeek
           && negb (existsb (String.eqb f) ["auto"; "monday"; "sunday"])
        then [("Invalid firstDayOfWeek: " ++ f
               ++ ". Must be 'auto', 'monday', or 'sunday'")%string]
        else []
    | None => []
    end in
  (e1 ++ e2 ++ fst range ++ e4, snd range).

End ValidateConfig.

(* ================================================================== *)
(** * components/CalendarContent.vue: cards and selection *)
(* ================================================================== *)

Module CalendarContent.

Section Content.

Context {CalendarTask : Type}.

(** What [getTaskForDay] returns: a task of the configuration or the
    placeholder of a disabled task, of which the [id] and the
    [description] are kept (title, button text and image are those of
    [disabledTask]). *)
Inductive CardTask : Type :=
| Task (t : CalendarTask)
| DisabledTask (id description : string).

(** [a === b] on identifiers. *)
Definition idEqb (a b : DayId) : bool :=
  match a, b with
  | NumId x, NumId y => x =? y
  | StrId x, StrId y => String.eqb x y
  | _, _ => false
  end.

(** [`${id}`]. *)
Definition idToString (i : DayId) : string :=
  match i with
  | NumId n => Str.ZToString n
  | StrId s => s
  end.

(** [l.findIndex(p)], [None] for -1. *)
Fixpoint findIndex {A : Type} (p : A -> bool) (l : list A) : option nat :=
  match l with
  | [] => None
  | a :: r => if p a then Some O else option_map S (findIndex p r)
  end.

(** [formatDate(dateString, language)]: the text it puts under every
    language; [monthLabel] stands for
    [toLocaleDateString(language, { month: 'long' })]. *)
Definition formatDate (tz : TimeZone) (fns : TimeFns) (monthLabel : Date -> string)
    (dateString : string) : result string :=
  do date <- parseYMD fns dateString;
  let month := monthLabel date in
  let day := JSDate.getDate tz date in
  Ok (month ++ ", " ++ Str.ToString day)%string.

(** The placeholder returned for [day]. *)
Definition disabledFor (tz : TimeZone) (fns : TimeFns) (monthLabel : Date -> string)
    (day : CalendarDay CalendarTask) : result CardTask :=
  do description <- formatDate tz fns monthLabel (date day);
  Ok (DisabledTask ("placeholder-" ++ idToString (id day))%string description).

(** [getTaskForDay(day)] of the component. *)
Definition getTaskForDay (tz : TimeZone) (fns : TimeFns) (monthLabel : Date -> string)
    (calendarDays : list (CalendarDay CalendarTask)) (tasks : list CalendarTask)
    (day : CalendarDay CalendarTask) : result CardTask :=
  match findIndex (fun d => idEqb (id d) (id day)) calendarDays with
  | None => disabledFor tz fns monthLabel day
  | Some dayIndex =>
      let taskIndex := jsRem (Z.of_nat dayIndex) (Z.of_nat (List.length tasks)) in
      match arrayGet tasks taskIndex with
      | Some task => Ok (Task task)
      | None => disabledFor tz fns monthLabel day
      end
  end.

Definition setSelected (b : bool) (d : CalendarDay CalendarTask)
  : CalendarDay CalendarTask :=
  mkCalendarDay (id d) (day d) (date d) (isActive d) b (isToday_ d)
                (hasTask d) (isPlaceholder d) (task d).

(** [calendarDays.forEach(d => d.isSelected = false)] followed by
    [x.isSelected = true] for the element [x] at position [idx]. *)
Fixpoint selectOnly (idx : nat) (days : list (CalendarDay CalendarTask))
  : list (CalendarDay CalendarTask) :=
  match days with
  | [] => []
  | d :: r =>
      match idx with
      | O => setSelected true d :: map (setSelected false) r
      | S k => setSelected false d :: selectOnly k r
      end
  end.

(** What [onMounted] and [handleTaskClick] do to [calendarDays]: the day
    whose date is [todayStr] (the value of [ymd(new Date())]), or else
    the first day, becomes the only selected one; nothing happens when
    there is no day. *)
Definition selectTodayOrFirst (todayStr : string)
    (days : list (CalendarDay CalendarTask)) : list (CalendarDay CalendarTask) :=
  match days with
  | [] => []
  | _ =>
      match findIndex (fun d => String.eqb (date d) todayStr) days with
      | Some i => selectOnly i days
      | None => selectOnly 0 days
      end
  end.

(** [handleTaskClick(task)]: [taskIsActive] is the truth value of
    [task.isActive]. *)
Definition handleTaskClick (taskIsActive : bool) (todayStr : string)
    (days : list (CalendarDay CalendarTask)) : list (CalendarDay CalendarTask) :=
  if negb taskIsActive then selectTodayOrFirst todayStr days else days.

End Content.

End CalendarContent.

(* ================================================================== *)
(** * Months and order, for stating the properties of the groups *)
(* ================================================================== *)

(** Year and month of a date text of the shape [\d{4}-\d{2}-\d{2}]. *)
Definition yearMonth (s : string) : option (Z * Z) :=
  option_map (fun c => (Civil.year c, Civil.month c)) (Civil.read s).

(** Months counted from year 0, for a date text. *)
Definition monthRank (s : string) : Z :=
  match yearMonth s with
  | Some (y, m) => 12 * y + m
  | None => 0
  end.

(** [rank] does not decrease along [l]. *)
Fixpoint ascending {A : Type} (rank : A -> Z) (l : list A) : Prop :=
  match l with
  | [] => True
  | a :: r => (forall b, In b r -> rank a <= rank b) /\ ascending rank r
  end.

(** The members of each group rank below those of every later group. *)
Fixpoint groupsAscending {A : Type} (rank : A -> Z)
    (gs : list (string * list A)) : Prop :=
  match gs with
  | [] => True
  | g :: r =>
      (forall a g' b, In a (snd g) -> In g' r -> In b (snd g') -> rank a < rank b)
      /\ groupsAscending rank r
  end.

(** The days of [l] pushed one after the other to the group of their
    key. *)
Fixpoint groupRun {T : Type} (key : CalendarDay T -> string)
    (l : list (CalendarDay T)) (gs : list (string * list (CalendarDay T)))
  : list (string * list (CalendarDay T)) :=
  match l with
  | [] => gs
  | d :: r => groupRun key r (pushToGroup (key d) d gs)
  end.

(** The key under which [groupedDays] files a day, when its date
    parses. *)
Definition groupKey {T : Type} (tz : TimeZone) (fns : TimeFns)
    (d : CalendarDay T) : string :=
  match parseYMD fns (date d) with
  | Ok dt => monthKey tz dt
  | Throw _ => ""
  end.

(** The days of a group that are not placeholders. *)
Definition realDays {T : Type} (l : list (CalendarDay T)) : list (CalendarDay T) :=
  filter (fun d => negb (isPlaceholder d)) l.

(** What holds of two month indices up to 11: they print alike only when
    equal. *)
Definition monthTextCheck (a b : Z) : bool :=
  Bool.eqb (String.eqb (Str.ZToString a) (Str.ZToString b)) (a =? b).
(* ================================================================== *)
(** * Facts about ECMAScript time values *)
(* ================================================================== *)

Module ESFacts.
Import ES.

Lemma mod100_mod4 y : y mod 100 = 0 -> y mod 4 = 0.
Proof.
  intros H. apply Z.mod_divide in H; [|lia]. destruct H as [k ->].
  replace (k * 100) with (k * 25 * 4) by lia. apply Z.mod_mul. lia.
Qed.

Lemma mod400_mod100 y : y mod 400 = 0 -> y mod 100 = 0.
Proof.
  intros H. apply Z.mod_divide in H; [|lia]. destruct H as [k ->].
  replace (k * 400) with (k * 4 * 100) by lia. apply Z.mod_mul. lia.
Qed.

Lemma quot4_step y :
  (y + 1 - 1969) / 4 = (y - 1969) / 4 + (if y mod 4 =? 0 then 1 else 0).
Proof.
  destruct (y mod 4 =? 0) eqn:E; rewrite ?Z.eqb_eq, ?Z.eqb_neq in E;
    Z.div_mod_to_equations; lia.
Qed.

Lemma quot100_step y :
  (y + 1 - 1901) / 100 = (y - 1901) / 100 + (if y mod 100 =? 0 then 1 else 0).
Proof.
  destruct (y mod 100 =? 0) eqn:E; rewrite ?Z.eqb_eq, ?Z.eqb_neq in E;
    Z.div_mod_to_equations; lia.
Qed.

Lemma quot400_step y :
  (y + 1 - 1601) / 400 = (y - 1601) / 400 + (if y mod 400 =? 0 then 1 else 0).
Proof.
  destruct (y mod 400 =? 0) eqn:E; rewrite ?Z.eqb_eq, ?Z.eqb_neq in E;
    Z.div_mod_to_equations; lia.
Qed.

(** A year begins [DaysInYear] days after the previous one. *)
Lemma DayFromYear_succ y : DayFromYear (y + 1) = DayFromYear y + DaysInYear y.
Proof.
  unfold DaysInYear, isLeapYear, DayFromYear.
  rewrite quot4_step, quot100_step, quot400_step.
  pose proof (mod100_mod4 y). pose proof (mod400_mod100 y).
  destruct (y mod 4 =? 0) eqn:E4; destruct (y mod 100 =? 0) eqn:E100;
    destruct (y mod 400 =? 0) eqn:E400; cbn [negb];
    rewrite ?Z.eqb_eq, ?Z.eqb_neq in *; lia.
Qed.

Lemma DaysInYear_cases y : DaysInYear y = 365 \/ DaysInYear y = 366.
Proof. unfold DaysInYear. destruct (isLeapYear y); auto. Qed.

Lemma DayFromYear_lt y1 y2 : y1 < y2 -> DayFromYear y1 < DayFromYear y2.
Proof.
  intros H. replace y2 with (y1 + 1 + (y2 - y1 - 1)) by lia.
  assert (Hk : 0 <= y2 - y1 - 1) by lia.
  generalize dependent (y2 - y1 - 1). intros k Hk.
  pattern k. apply natlike_ind; [| |exact Hk].
  - rewrite Z.add_0_r, DayFromYear_succ.
    destruct (DaysInYear_cases y1); lia.
  - intros x Hx IH.
    replace (y1 + 1 + Z.succ x) with (y1 + 1 + x + 1) by lia.
    rewrite DayFromYear_succ.
    destruct (DaysInYear_cases (y1 + 1 + x)); lia.
Qed.

Lemma DayFromYear_le y1 y2 : y1 <= y2 -> DayFromYear y1 <= DayFromYear y2.
Proof.
  intros H. destruct (Z.eq_dec y1 y2) as [->|]; [lia|].
  pose proof (DayFromYear_lt y1 y2). lia.
Qed.

Lemma DayFromYear_bounds y :
  146097 * (y - 1970) - 800 <= 400 * DayFromYear y <= 146097 * (y - 1970) + 800.
Proof. unfold DayFromYear. Z.div_mod_to_equations. lia. Qed.

(** [YearFromDay d] is the year whose days include [d]. *)
Lemma YearFromDay_spec d :
  DayFromYear (YearFromDay d) <= d < DayFromYear (YearFromDay d + 1).
Proof.
  unfold YearFromDay.
  assert (Hq : 146097 * (400 * d / 146097) <= 400 * d
               < 146097 * (400 * d / 146097) + 146097)
    by (Z.div_mod_to_equations; lia).
  set (q := 400 * d / 146097) in *.
  pose proof (DayFromYear_bounds (1970 + q - 1)).
  pose proof (DayFromYear_bounds (1970 + q + 1 + 1)).
  destruct (d <? DayFromYear (1970 + q)) eqn:E1.
  - apply Z.ltb_lt in E1.
    replace (1970 + q - 1 + 1) with (1970 + q) by lia. lia.
  - apply Z.ltb_ge in E1.
    destruct (DayFromYear (1970 + q + 1) <=? d) eqn:E2.
    + apply Z.leb_le in E2. lia.
    + apply Z.leb_gt in E2. lia.
Qed.

Lemma YearFromDay_unique d y :
  DayFromYear y <= d < DayFromYear (y + 1) -> YearFromDay d = y.
Proof.
  intros H. pose proof (YearFromDay_spec d) as S.
  destruct (Z.lt_trichotomy (YearFromDay d) y) as [L|[E|G]]; [|exact E|].
  - pose proof (DayFromYear_le (YearFromDay d + 1) y). lia.
  - pose proof (DayFromYear_le (y + 1) (YearFromDay d)). lia.
Qed.

Lemma Day_MakeDate day tod :
  0 <= tod < msPerDay -> Day (MakeDate day tod) = day.
Proof.
  intros H. unfold Day, MakeDate, msPerDay in *.
  Z.div_mod_to_equations. lia.
Qed.

Lemma TimeWithinDay_MakeDate day tod :
  0 <= tod < msPerDay -> TimeWithinDay (MakeDate day tod) = tod.
Proof.
  intros H. unfold TimeWithinDay, MakeDate, msPerDay in *.
  Z.div_mod_to_equations. lia.
Qed.

Lemma MakeDate_Day t : MakeDate (Day t) (TimeWithinDay t) = t.
Proof.
  unfold MakeDate, Day, TimeWithinDay, msPerDay.
  Z.div_mod_to_equations. lia.
Qed.

Lemma DayWithinYear_range t :
  0 <= DayWithinYear t < 365 + InLeapYear t.
Proof.
  unfold DayWithinYear, InLeapYear, YearFromTime.
  pose proof (YearFromDay_spec (Day t)) as S.
  rewrite DayFromYear_succ in S. unfold DaysInYear in S.
  destruct (isLeapYear (YearFromDay (Day t))); lia.
Qed.

Ltac month_cases m :=
  let H := fresh in
  assert (H : m = 0 \/ m = 1 \/ m = 2 \/ m = 3 \/ m = 4 \/ m = 5 \/ m = 6
              \/ m = 7 \/ m = 8 \/ m = 9 \/ m = 10 \/ m = 11) by lia;
  repeat (destruct H as [H|H]); subst m.

Lemma monthOfYearDay_range dwy leap :
  0 <= monthOfYearDay dwy leap < 12.
Proof.
  unfold monthOfYearDay.
  repeat match goal with
         | |- context [if ?b then _ else _] => destruct b
         end; lia.
Qed.

Lemma MonthFromTime_range t : 0 <= MonthFromTime t < 12.
Proof. apply monthOfYearDay_range. Qed.

(** The date of month lies within the month. *)
Lemma DateFromTime_range t :
  1 <= DateFromTime t <= daysInMonth (YearFromTime t) (MonthFromTime t).
Proof.
  pose proof (DayWithinYear_range t) as R.
  unfold DateFromTime, MonthFromTime, monthOfYearDay, InLeapYear in *.
  set (dwy := DayWithinYear t) in *.
  unfold daysInMonth.
  destruct (isLeapYear (YearFromTime t));
    repeat match goal with
           | |- context [if ?a <? ?b then _ else _] =>
               destruct (Z.ltb_spec a b)
           end; cbn [monthStart]; lia.
Qed.

Lemma MakeDay_month y m d :
  0 <= m < 12 ->
  MakeDay y m d =
  DayFromYear y + monthStart m (if isLeapYear y then 1 else 0) + d - 1.
Proof.
  intros H. unfold MakeDay.
  rewrite (Z.div_small m 12), (Z.mod_small m 12) by lia.
  rewrite Z.add_0_r. reflexivity.
Qed.

(** Rebuilding a day from its own fields, [k] days later. *)
Lemma MakeDay_fields t k :
  MakeDay (YearFromTime t) (MonthFromTime t) (DateFromTime t + k) = Day t + k.
Proof.
  rewrite MakeDay_month by apply MonthFromTime_range.
  unfold DateFromTime, InLeapYear, DayWithinYear. lia.
Qed.

(** The fields of a valid calendar date are read back unchanged. *)
Lemma fields_of_MakeDay y m d t :
  0 <= m < 12 -> 1 <= d <= daysInMonth y m ->
  Day t = MakeDay y m d ->
  YearFromTime t = y /\ MonthFromTime t = m /\ DateFromTime t = d.
Proof.
  intros Hm Hd Ht. rewrite MakeDay_month in Ht by assumption.
  unfold daysInMonth in Hd.
  assert (Hy : YearFromTime t = y).
  { unfold YearFromTime. apply YearFromDay_unique.
    rewrite DayFromYear_succ, Ht. unfold DaysInYear.
    destruct (isLeapYear y); month_cases m; cbn [monthStart] in *; cbv iota in *; lia. }
  assert (Hw : DayWithinYear t = monthStart m (if isLeapYear y then 1 else 0) + d - 1).
  { unfold DayWithinYear. rewrite Hy, Ht. lia. }
  assert (Hl : InLeapYear t = if isLeapYear y then 1 else 0).
  { unfold InLeapYear. rewrite Hy. reflexivity. }
  assert (Hmo : MonthFromTime t = m).
  { unfold MonthFromTime. rewrite Hw, Hl. unfold monthOfYearDay.
    destruct (isLeapYear y); month_cases m; cbn [monthStart] in *; cbv iota in *;
      repeat match goal with
             | |- context [if ?a <? ?b then _ else _] =>
                 destruct (Z.ltb_spec a b); try lia
             end. }
  split; [exact Hy|]. split; [exact Hmo|].
  unfold DateFromTime. rewrite Hmo, Hw, Hl. lia.
Qed.

Lemma WeekDay_range t : 0 <= WeekDay t < 7.
Proof. unfold WeekDay. apply Z.mod_pos_bound. lia. Qed.

Lemma TimeClip_in_range t :
  Z.abs t <= maxTime -> TimeClip t = Some t.
Proof.
  intros H. unfold TimeClip. apply Z.leb_le in H. rewrite H. reflexivity.
Qed.

End ESFacts.

(* ================================================================== *)
(** * Facts about numbers and strings *)
(* ================================================================== *)

Module StrFacts.

Lemma triple_inj {A B C : Type} (a a' : A) (b b' : B) (c c' : C) :
  (a, b, c) = (a', b', c') -> a = a' /\ b = b' /\ c = c'.
Proof. intros H. injection H. auto. Qed.

Lemma num_eqb_eq a b : num_eqb a b = true -> a = b.
Proof.
  destruct a as [|x|[p1 p2]], b as [|y|[q1 q2]]; simpl; try discriminate; auto.
  - intros H. apply Bool.eqb_prop in H. congruence.
  - intros H. apply andb_true_iff in H. destruct H as [H1 H2].
    apply Z.eqb_eq in H1. apply Pos.eqb_eq in H2. congruence.
Qed.

Lemma zrange_In lo n z :
  lo <= z < lo + Z.of_nat n -> In z (zrange lo n).
Proof.
  intros H. unfold zrange. apply in_map_iff.
  exists (Z.to_nat (z - lo)). split; [lia|].
  apply in_seq. lia.
Qed.

Lemma digits10_In z : 0 <= z <= 9 -> In z digits10.
Proof. intros H. apply zrange_In. simpl. lia. Qed.

Lemma forallb2 (f : Z -> Z -> bool) l :
  forallb (fun a => forallb (fun b => f a b) l) l = true ->
  forall a b, In a l -> In b l -> f a b = true.
Proof.
  intros T a b Ha Hb. rewrite forallb_forall in T. specialize (T a Ha).
  rewrite forallb_forall in T. exact (T b Hb).
Qed.

Lemma table2_ok :
  forallb (fun a => forallb (fun b => check2 a b) digits10) digits10 = true.
Proof. vm_compute. reflexivity. Qed.

Lemma table4_ok :
  forallb (fun a => forallb (fun b =>
    forallb (fun c => forallb (fun d => check4 a b c d) digits10) digits10)
    digits10) digits10 = true.
Proof. vm_compute. reflexivity. Qed.

Lemma check2_ok a b : 0 <= a <= 9 -> 0 <= b <= 9 -> check2 a b = true.
Proof.
  intros Ha Hb.
  exact (forallb2 check2 digits10 table2_ok a b
           (digits10_In a Ha) (digits10_In b Hb)).
Qed.

Lemma check4_ok a b c d :
  0 <= a <= 9 -> 0 <= b <= 9 -> 0 <= c <= 9 -> 0 <= d <= 9 ->
  check4 a b c d = true.
Proof.
  intros Ha Hb Hc Hd.
  pose proof (forallb2
                (fun a b => forallb (fun c => forallb (fun d => check4 a b c d)
                                                     digits10) digits10)
                digits10 table4_ok a b (digits10_In a Ha) (digits10_In b Hb)) as T.
  exact (forallb2 (check4 a b) digits10 T c d
           (digits10_In c Hc) (digits10_In d Hd)).
Qed.

Lemma pad2_digits a b :
  0 <= a <= 9 -> 0 <= b <= 9 -> Civil.pad 2 (10 * a + b) = str2 a b.
Proof.
  intros Ha Hb. pose proof (check2_ok a b Ha Hb) as C. unfold check2 in C.
  apply andb_true_iff in C. destruct C as [C _].
  apply String.eqb_eq in C. exact C.
Qed.

Lemma Number_str2 a b :
  0 <= a <= 9 -> 0 <= b <= 9 -> Number (str2 a b) = ofZ (10 * a + b).
Proof.
  intros Ha Hb. pose proof (check2_ok a b Ha Hb) as C. unfold check2 in C.
  apply andb_true_iff in C. destruct C as [_ C].
  apply num_eqb_eq in C. exact C.
Qed.

Lemma pad4_digits a b c d :
  0 <= a <= 9 -> 0 <= b <= 9 -> 0 <= c <= 9 -> 0 <= d <= 9 ->
  Civil.pad 4 (1000 * a + 100 * b + 10 * c + d) = str4 a b c d.
Proof.
  intros Ha Hb Hc Hd. pose proof (check4_ok a b c d Ha Hb Hc Hd) as C.
  unfold check4 in C. rewrite !andb_true_iff in C. destruct C as [[C _] _].
  apply String.eqb_eq in C. exact C.
Qed.

Lemma Number_str4 a b c d :
  0 <= a <= 9 -> 0 <= b <= 9 -> 0 <= c <= 9 -> 0 <= d <= 9 ->
  Number (str4 a b c d) = ofZ (1000 * a + 100 * b + 10 * c + d).
Proof.
  intros Ha Hb Hc Hd. pose proof (check4_ok a b c d Ha Hb Hc Hd) as C.
  unfold check4 in C. rewrite !andb_true_iff in C. destruct C as [[_ C] _].
  apply num_eqb_eq in C. exact C.
Qed.

Lemma ZToString_digits a b c d :
  1 <= a <= 9 -> 0 <= b <= 9 -> 0 <= c <= 9 -> 0 <= d <= 9 ->
  Str.ZToString (1000 * a + 100 * b + 10 * c + d) = str4 a b c d.
Proof.
  intros Ha Hb Hc Hd.
  pose proof (check4_ok a b c d ltac:(lia) Hb Hc Hd) as C.
  unfold check4 in C. rewrite !andb_true_iff in C. destruct C as [_ C].
  replace (1 <=? a) with true in C by (symmetry; apply Z.leb_le; lia).
  apply String.eqb_eq in C. exact C.
Qed.

(** Decomposition of a number below 10000 into its digits. *)
Lemma digits_of_4 n :
  0 <= n <= 9999 ->
  exists a b c d,
    0 <= a <= 9 /\ 0 <= b <= 9 /\ 0 <= c <= 9 /\ 0 <= d <= 9 /\
    n = 1000 * a + 100 * b + 10 * c + d.
Proof.
  intros H.
  exists (n / 1000), (n / 100 mod 10), (n / 10 mod 10), (n mod 10).
  Z.div_mod_to_equations. lia.
Qed.

Lemma digits_of_2 n :
  0 <= n <= 99 ->
  exists a b, 0 <= a <= 9 /\ 0 <= b <= 9 /\ n = 10 * a + b.
Proof.
  intros H. exists (n / 10), (n mod 10). Z.div_mod_to_equations. lia.
Qed.

(** A year from 1000 to 9999 prints as its four digits. *)
Lemma ZToString_pad4 n : 1000 <= n <= 9999 -> Str.ZToString n = Civil.pad 4 n.
Proof.
  intros H. destruct (digits_of_4 n ltac:(lia)) as (a & b & c & d & Ha & Hb & Hc & Hd & ->).
  rewrite ZToString_digits, pad4_digits by lia. reflexivity.
Qed.

Lemma isDigit_digitChar c :
  Str.isDigit c = true ->
  c = Str.digitChar (Civil.digitValue c) /\ 0 <= Civil.digitValue c <= 9.
Proof.
  destruct c as [[] [] [] [] [] [] [] []]; intros H;
    try discriminate H; vm_compute; intuition congruence.
Qed.

Lemma digitChar_not_dash a :
  0 <= a <= 9 -> Ascii.eqb (Str.digitChar a) "-" = false.
Proof.
  intros H.
  assert (C : a = 0 \/ a = 1 \/ a = 2 \/ a = 3 \/ a = 4 \/ a = 5 \/ a = 6
              \/ a = 7 \/ a = 8 \/ a = 9) by lia.
  repeat (destruct C as [C|C]); subst a; reflexivity.
Qed.

Lemma format_digits a b c d e f g h :
  0 <= a <= 9 -> 0 <= b <= 9 -> 0 <= c <= 9 -> 0 <= d <= 9 ->
  0 <= e <= 9 -> 0 <= f <= 9 -> 0 <= g <= 9 -> 0 <= h <= 9 ->
  Civil.format (1000 * a + 100 * b + 10 * c + d, 10 * e + f, 10 * g + h)
  = ymdText a b c d e f g h.
Proof.
  intros. unfold Civil.format, ymdText.
  rewrite pad4_digits, !pad2_digits by assumption. reflexivity.
Qed.

(** A text of the shape [\d{4}-\d{2}-\d{2}] is made of eight digits. *)
Lemma read_inv s c :
  Civil.read s = Some c ->
  exists a b c' d e f g h,
    (0 <= a <= 9 /\ 0 <= b <= 9 /\ 0 <= c' <= 9 /\ 0 <= d <= 9) /\
    (0 <= e <= 9 /\ 0 <= f <= 9 /\ 0 <= g <= 9 /\ 0 <= h <= 9) /\
    s = ymdText a b c' d e f g h /\
    c = (1000 * a + 100 * b + 10 * c' + d, 10 * e + f, 10 * g + h).
Proof.
  unfold Civil.read. intros H.
  rewrite <- (string_of_list_ascii_of_string s).
  destruct (list_ascii_of_string s)
    as [|x1 [|x2 [|x3 [|x4 [|x5 [|x6 [|x7 [|x8 [|x9 [|x10 [|]]]]]]]]]]];
    try discriminate H.
  destruct (forallb Str.isDigit [x1; x2; x3; x4; x6; x7; x9; x10]) eqn:D;
    [|discriminate H].
  destruct (Ascii.eqb x5 "-") eqn:E5; [|discriminate H].
  destruct (Ascii.eqb x8 "-") eqn:E8; [|discriminate H].
  cbn [andb] in H. injection H as <-.
  apply Ascii.eqb_eq in E5, E8. subst x5 x8.
  cbn [forallb] in D. rewrite !andb_true_iff in D.
  destruct D as (D1 & D2 & D3 & D4 & D6 & D7 & D9 & D10 & _).
  apply isDigit_digitChar in D1, D2, D3, D4, D6, D7, D9, D10.
  destruct D1 as [E1 R1], D2 as [E2 R2], D3 as [E3 R3], D4 as [E4 R4],
           D6 as [E6 R6], D7 as [E7 R7], D9 as [E9 R9], D10 as [E10 R10].
  exists (Civil.digitValue x1), (Civil.digitValue x2), (Civil.digitValue x3),
    (Civil.digitValue x4), (Civil.digitValue x6), (Civil.digitValue x7),
    (Civil.digitValue x9), (Civil.digitValue x10).
  split; [auto|]. split; [auto|]. split; [|reflexivity].
  unfold ymdText, str4, str2. cbn [string_of_list_ascii String.append].
  congruence.
Qed.

Lemma read_format s c : Civil.read s = Some c -> s = Civil.format c.
Proof.
  intros H. destruct (read_inv s c H)
    as (a & b & c' & d & e & f & g & h & (Ha & Hb & Hc & Hd)
        & (He & Hf & Hg & Hh) & -> & ->).
  rewrite format_digits by assumption. reflexivity.
Qed.

Lemma read_range s y m d :
  Civil.read s = Some (y, m, d) ->
  0 <= y <= 9999 /\ 0 <= m <= 99 /\ 0 <= d <= 99.
Proof.
  intros H. destruct (read_inv s _ H)
    as (a & b & c' & d' & e & f & g & h & (Ha & Hb & Hc & Hd)
        & (He & Hf & Hg & Hh) & _ & E).
  apply triple_inj in E. destruct E as (E1 & E2 & E3). lia.
Qed.

(** The three parts of such a text convert to its three numbers. *)
Lemma splitNumbers_read s y m d :
  Civil.read s = Some (y, m, d) ->
  splitNumbers s = [ofZ y; ofZ m; ofZ d].
Proof.
  intros H. destruct (read_inv s _ H)
    as (a & b & c' & d' & e & f & g & h & (Ha & Hb & Hc & Hd)
        & (He & Hf & Hg & Hh) & -> & E).
  apply triple_inj in E. destruct E as (E1 & E2 & E3). subst y m d.
  unfold splitNumbers, ymdText, str4, str2.
  cbn [String.append Str.split].
  rewrite !digitChar_not_dash by assumption.
  cbn [Ascii.eqb Bool.eqb Str.split map].
  change (String (Str.digitChar a) (String (Str.digitChar b)
            (String (Str.digitChar c') (String (Str.digitChar d') ""))))
    with (str4 a b c' d').
  change (String (Str.digitChar e) (String (Str.digitChar f) ""))
    with (str2 e f).
  change (String (Str.digitChar g) (String (Str.digitChar h) ""))
    with (str2 g h).
  rewrite Number_str4, !Number_str2 by assumption. reflexivity.
Qed.

End StrFacts.

(* ================================================================== *)
(** * Facts about calendar dates *)
(* ================================================================== *)

Module CivilFacts.
Import ES ESFacts.

Lemma isLeap_ES y : Civil.isLeap y = isLeapYear y.
Proof.
  unfold Civil.isLeap, isLeapYear.
  pose proof (mod100_mod4 y). pose proof (mod400_mod100 y).
  destruct (y mod 4 =? 0) eqn:E4; destruct (y mod 100 =? 0) eqn:E100;
    destruct (y mod 400 =? 0) eqn:E400; cbn [negb andb orb];
    rewrite ?Z.eqb_eq, ?Z.eqb_neq in *; try reflexivity; lia.
Qed.

Lemma daysIn_ES y m :
  1 <= m <= 12 -> Civil.daysIn y m = daysInMonth y (m - 1).
Proof.
  intros H. unfold Civil.daysIn, daysInMonth. rewrite isLeap_ES.
  assert (C : m = 1 \/ m = 2 \/ m = 3 \/ m = 4 \/ m = 5 \/ m = 6 \/ m = 7
              \/ m = 8 \/ m = 9 \/ m = 10 \/ m = 11 \/ m = 12) by lia.
  repeat (destruct C as [C|C]); subst m; reflexivity.
Qed.

Lemma valid_inv y m d :
  Civil.valid (y, m, d) = true ->
  1 <= m <= 12 /\ 1 <= d <= Civil.daysIn y m.
Proof.
  unfold Civil.valid. rewrite !andb_true_iff, !Z.leb_le. lia.
Qed.

Lemma valid_intro y m d :
  1 <= m <= 12 -> 1 <= d <= Civil.daysIn y m -> Civil.valid (y, m, d) = true.
Proof.
  intros. unfold Civil.valid. rewrite !andb_true_iff, !Z.leb_le. lia.
Qed.

Lemma daysIn_range y m : 28 <= Civil.daysIn y m <= 31.
Proof.
  unfold Civil.daysIn.
  destruct m as [|p|p]; try lia.
  destruct (Civil.isLeap y);
    repeat (destruct p as [p|p|]; try lia).
Qed.

(** The date of an instant is a valid date. *)
Lemma ofTime_valid t : Civil.valid (Civil.ofTime t) = true.
Proof.
  unfold Civil.ofTime. pose proof (MonthFromTime_range t).
  pose proof (DateFromTime_range t).
  apply valid_intro; [lia|]. rewrite daysIn_ES by lia.
  replace (MonthFromTime t + 1 - 1) with (MonthFromTime t) by lia. lia.
Qed.

Lemma dayNumber_ofTime t : Civil.dayNumber (Civil.ofTime t) = Day t.
Proof.
  unfold Civil.dayNumber, Civil.ofTime.
  replace (MonthFromTime t + 1 - 1) with (MonthFromTime t) by lia.
  pose proof (MakeDay_fields t 0) as H. rewrite !Z.add_0_r in H. exact H.
Qed.

(** A valid date is the date of every instant of its day. *)
Lemma ofTime_dayNumber c t :
  Civil.valid c = true -> Day t = Civil.dayNumber c -> Civil.ofTime t = c.
Proof.
  destruct c as [[y m] d]. intros V E. apply valid_inv in V.
  destruct V as [Vm Vd]. rewrite daysIn_ES in Vd by assumption.
  unfold Civil.dayNumber in E.
  destruct (fields_of_MakeDay y (m - 1) d t) as (Hy & Hm & Hd);
    [lia|assumption|assumption|].
  unfold Civil.ofTime. rewrite Hy, Hm, Hd. f_equal. f_equal. lia.
Qed.

Lemma dayNumber_inj c1 c2 :
  Civil.valid c1 = true -> Civil.valid c2 = true ->
  Civil.dayNumber c1 = Civil.dayNumber c2 -> c1 = c2.
Proof.
  intros V1 V2 E.
  rewrite <- (ofTime_dayNumber c1 (MakeDate (Civil.dayNumber c1) 0) V1).
  - apply ofTime_dayNumber; [exact V2|].
    rewrite Day_MakeDate by (unfold msPerDay; lia). exact E.
  - apply Day_MakeDate. unfold msPerDay; lia.
Qed.

Lemma dayNumber_eq y m d :
  1 <= m <= 12 ->
  Civil.dayNumber (y, m, d) =
  DayFromYear y + monthStart (m - 1) (if isLeapYear y then 1 else 0) + d - 1.
Proof. intros H. unfold Civil.dayNumber. apply MakeDay_month. lia. Qed.

(** The next date is the next day. *)
Lemma next_spec c :
  Civil.valid c = true ->
  Civil.valid (Civil.next c) = true /\
  Civil.dayNumber (Civil.next c) = Civil.dayNumber c + 1.
Proof.
  destruct c as [[y m] d]. intros V. apply valid_inv in V.
  destruct V as [Vm Vd]. unfold Civil.next.
  destruct (Z.ltb_spec d (Civil.daysIn y m)) as [L|L].
  - split; [apply valid_intro; lia|].
    rewrite !dayNumber_eq by lia. lia.
  - assert (d = Civil.daysIn y m) by lia. subst d.
    destruct (Z.ltb_spec m 12) as [L12|L12].
    + split.
      * apply valid_intro; [lia|]. pose proof (daysIn_range y (m + 1)). lia.
      * rewrite !dayNumber_eq by lia. rewrite daysIn_ES by lia.
        unfold daysInMonth.
        replace (m + 1 - 1) with (m - 1 + 1) by lia.
        destruct (isLeapYear y);
          assert (C : m - 1 = 0 \/ m - 1 = 1 \/ m - 1 = 2 \/ m - 1 = 3
                      \/ m - 1 = 4 \/ m - 1 = 5 \/ m - 1 = 6 \/ m - 1 = 7
                      \/ m - 1 = 8 \/ m - 1 = 9 \/ m - 1 = 10) by lia;
          repeat (destruct C as [C|C]); rewrite C; cbn [monthStart Z.add Pos.add Pos.succ]; lia.
    + assert (m = 12) by lia. subst m.
      split; [apply valid_intro; [lia|unfold Civil.daysIn; lia]|].
      rewrite !dayNumber_eq by lia. rewrite DayFromYear_succ.
      unfold DaysInYear, Civil.daysIn.
      destruct (isLeapYear y); cbn [monthStart Z.sub Z.add Z.opp Z.pos_sub Pos.pred_double]; lia.
Qed.

Lemma addDays_spec n c :
  Civil.valid c = true ->
  Civil.valid (Civil.addDays n c) = true /\
  Civil.dayNumber (Civil.addDays n c) = Civil.dayNumber c + Z.of_nat n.
Proof.
  intros V. induction n as [|n [IV IH]].
  - cbn [Civil.addDays]. split; [exact V|lia].
  - cbn [Civil.addDays]. destruct (next_spec _ IV) as [V' E].
    split; [exact V'|]. rewrite E, IH. lia.
Qed.

(** The date [n] days after a valid date is the date of every instant of
    the [n]-th following day. *)
Lemma addDays_ofTime n c t :
  Civil.valid c = true ->
  Day t = Civil.dayNumber c + Z.of_nat n ->
  Civil.ofTime t = Civil.addDays n c.
Proof.
  intros V E. destruct (addDays_spec n c V) as [V' E'].
  apply ofTime_dayNumber; [exact V'|]. lia.
Qed.

Lemma month_end_le y k1 k2 :
  0 <= k1 -> k1 < k2 -> k2 <= 11 ->
  monthStart k1 (if isLeapYear y then 1 else 0) + daysInMonth y k1
  <= monthStart k2 (if isLeapYear y then 1 else 0).
Proof.
  intros H1 H2 H3. unfold daysInMonth.
  destruct (isLeapYear y); month_cases k1; month_cases k2; try lia;
    cbn [monthStart]; lia.
Qed.

Lemma year_end_lt y k d :
  0 <= k <= 11 -> d <= daysInMonth y k ->
  monthStart k (if isLeapYear y then 1 else 0) + d - 1 < DaysInYear y.
Proof.
  intros Hk Hd. unfold daysInMonth, DaysInYear in *.
  destruct (isLeapYear y); month_cases k; cbn [monthStart] in *;
    cbv iota in *; lia.
Qed.

Lemma monthStart_nonneg y k :
  0 <= k <= 11 -> 0 <= monthStart k (if isLeapYear y then 1 else 0).
Proof.
  intros Hk. destruct (isLeapYear y); month_cases k; cbn [monthStart]; lia.
Qed.

(** Earlier dates have smaller day numbers. *)
Lemma leb_dayNumber c1 c2 :
  Civil.valid c1 = true -> Civil.valid c2 = true ->
  Civil.leb c1 c2 = true -> Civil.dayNumber c1 <= Civil.dayNumber c2.
Proof.
  destruct c1 as [[y1 m1] d1], c2 as [[y2 m2] d2]. intros V1 V2 L.
  apply valid_inv in V1, V2. destruct V1 as [Vm1 Vd1], V2 as [Vm2 Vd2].
  rewrite !dayNumber_eq by lia.
  rewrite daysIn_ES in Vd1, Vd2 by lia.
  unfold Civil.leb in L. cbv beta iota zeta in L.
  repeat (rewrite orb_true_iff in L || rewrite andb_true_iff in L).
  rewrite !Z.ltb_lt, !Z.eqb_eq, Z.leb_le in L.
  destruct L as [Ly|[Ey [Lm|[Em Ld]]]].
  - pose proof (DayFromYear_le (y1 + 1) y2 ltac:(lia)) as D.
    rewrite DayFromYear_succ in D.
    pose proof (year_end_lt y1 (m1 - 1) d1 ltac:(lia) ltac:(lia)).
    pose proof (monthStart_nonneg y2 (m2 - 1) ltac:(lia)).
    lia.
  - subst y2.
    pose proof (month_end_le y1 (m1 - 1) (m2 - 1) ltac:(lia) ltac:(lia) ltac:(lia)).
    lia.
  - subst y2 m2. lia.
Qed.

(** From a valid date every valid date that is not earlier is reached by
    adding days. *)
Lemma addDays_complete c1 c2 :
  Civil.valid c1 = true -> Civil.valid c2 = true ->
  Civil.leb c1 c2 = true -> exists n, Civil.addDays n c1 = c2.
Proof.
  intros V1 V2 L. pose proof (leb_dayNumber c1 c2 V1 V2 L) as D.
  exists (Z.to_nat (Civil.dayNumber c2 - Civil.dayNumber c1)).
  destruct (addDays_spec (Z.to_nat (Civil.dayNumber c2 - Civil.dayNumber c1)) c1 V1)
    as [V E].
  apply dayNumber_inj; [exact V|exact V2|]. rewrite E. lia.
Qed.

Lemma leb_refl c : Civil.leb c c = true.
Proof.
  destruct c as [[y m] d]. unfold Civil.leb.
  rewrite !Z.eqb_refl, Z.leb_refl, !orb_true_r. reflexivity.
Qed.

Lemma leb_total c1 c2 : Civil.leb c1 c2 = false -> Civil.leb c2 c1 = true.
Proof.
  destruct c1 as [[y1 m1] d1], c2 as [[y2 m2] d2]. unfold Civil.leb.
  destruct (Z.ltb_spec y1 y2), (Z.ltb_spec y2 y1), (Z.eqb_spec y1 y2),
    (Z.eqb_spec y2 y1), (Z.ltb_spec m1 m2), (Z.ltb_spec m2 m1),
    (Z.eqb_spec m1 m2), (Z.eqb_spec m2 m1), (Z.leb_spec d1 d2),
    (Z.leb_spec d2 d1); cbn; intros; try reflexivity; try discriminate; lia.
Qed.

(** A later date has a greater day number. *)
Lemma leb_false_dayNumber c1 c2 :
  Civil.valid c1 = true -> Civil.valid c2 = true ->
  Civil.leb c1 c2 = false -> Civil.dayNumber c2 < Civil.dayNumber c1.
Proof.
  intros V1 V2 L.
  pose proof (leb_dayNumber c2 c1 V2 V1 (leb_total c1 c2 L)) as D.
  destruct (Z.eq_dec (Civil.dayNumber c2) (Civil.dayNumber c1)) as [E|N]; [|lia].
  apply (dayNumber_inj c2 c1 V2 V1) in E. subst c2.
  rewrite leb_refl in L. discriminate L.
Qed.

(** Day numbers of the years 0 to 9999. *)
Lemma dayNumber_bounds c :
  Civil.valid c = true -> 0 <= Civil.year c <= 9999 ->
  -720000 <= Civil.dayNumber c <= 2940000.
Proof.
  destruct c as [[y m] d]. unfold Civil.year. cbn [fst].
  intros V Hy. apply valid_inv in V. destruct V as [Vm Vd].
  rewrite dayNumber_eq by lia. pose proof (daysIn_range y m).
  pose proof (DayFromYear_bounds y).
  assert (0 <= monthStart (m - 1) (if isLeapYear y then 1 else 0) <= 335).
  { destruct (isLeapYear y);
      assert (C : m - 1 = 0 \/ m - 1 = 1 \/ m - 1 = 2 \/ m - 1 = 3
                  \/ m - 1 = 4 \/ m - 1 = 5 \/ m - 1 = 6 \/ m - 1 = 7
                  \/ m - 1 = 8 \/ m - 1 = 9 \/ m - 1 = 10 \/ m - 1 = 11) by lia;
      repeat (destruct C as [C|C]); rewrite C; cbn [monthStart]; lia. }
  lia.
Qed.

End CivilFacts.

(* ================================================================== *)
(** * Facts about Number values *)
(* ================================================================== *)

Module NumFacts.

Lemma truncQ_ofZ z : truncQ (inject_Z z) = z.
Proof. unfold truncQ, inject_Z. cbn [Qnum Qden]. apply Z.quot_1_r. Qed.

Lemma truncQ_minus1 z : truncQ (inject_Z z - 1) = z - 1.
Proof.
  unfold truncQ, inject_Z, Qminus, Qplus, Qopp. cbn [Qnum Qden].
  change (Z.pos (1 * 1)) with 1. rewrite Z.quot_1_r. lia.
Qed.

Lemma Qeq_bool_inject a b : Qeq_bool (inject_Z a) (inject_Z b) = (a =? b).
Proof.
  destruct (Z.eqb_spec a b) as [->|N].
  - apply Qeq_bool_iff. reflexivity.
  - destruct (Qeq_bool (inject_Z a) (inject_Z b)) eqn:E; [|reflexivity].
    apply Qeq_bool_iff in E. unfold Qeq, inject_Z in E. cbn [Qnum Qden] in E.
    lia.
Qed.

Lemma Qeq_bool_inject_minus1 a b :
  Qeq_bool (inject_Z a) (inject_Z b - 1) = (a =? b - 1).
Proof.
  destruct (Z.eqb_spec a (b - 1)) as [->|N].
  - apply Qeq_bool_iff. unfold Qeq, inject_Z, Qminus, Qplus, Qopp.
    cbn [Qnum Qden]. lia.
  - destruct (Qeq_bool (inject_Z a) (inject_Z b - 1)) eqn:E; [|reflexivity].
    apply Qeq_bool_iff in E.
    unfold Qeq, inject_Z, Qminus, Qplus, Qopp in E. cbn [Qnum Qden] in E. lia.
Qed.

Lemma isFalsy_ofZ z : isFalsy (ofZ z) = (z =? 0).
Proof. unfold isFalsy, ofZ. exact (Qeq_bool_inject z 0). Qed.

Lemma getterNeq_ofZ a z : getterNeq (Some a) (ofZ z) = negb (a =? z).
Proof. unfold getterNeq, ofZ. rewrite Qeq_bool_inject. reflexivity. Qed.

Lemma getterNeq_minus1 a z :
  getterNeq (Some a) (minus1 (ofZ z)) = negb (a =? z - 1).
Proof.
  unfold getterNeq, ofZ, minus1. rewrite Qeq_bool_inject_minus1. reflexivity.
Qed.

(** The time the constructors build from three integers, the month being
    given one-based as in the texts. *)
Lemma makeLocalMidnight_ofZ y m d :
  JSDate.makeLocalMidnight (ofZ y) (minus1 (ofZ m)) (ofZ d) =
  Some (ES.MakeDay (if (0 <=? y) && (y <=? 99) then 1900 + y else y) (m - 1) d
        * ES.msPerDay).
Proof.
  unfold JSDate.makeLocalMidnight, ofZ, minus1.
  rewrite !truncQ_ofZ, truncQ_minus1.
  unfold ES.MakeDate, ES.MakeTime. f_equal. lia.
Qed.

End NumFacts.

(* ================================================================== *)
(** * Facts about time zones *)
(* ================================================================== *)

Module ZoneFacts.
Import ES.

Lemma fixedZone_regular off :
  Z.abs off < msPerDay -> regularZone (fixedZone off).
Proof.
  intros H. constructor.
  - intros d. unfold LocalTime, UTC, fixedZone. cbn. lia.
  - intros d1 d2 L. unfold UTC, fixedZone, msPerDay. cbn. lia.
  - intros t. exact H.
Qed.

Lemma nyDstStartUTC_eq : nyDstStartUTC = 1741503600000.
Proof. reflexivity. Qed.
Lemma nyDstEndUTC_eq : nyDstEndUTC = 1762063200000.
Proof. reflexivity. Qed.
Lemma nyDstStartLocal_eq : nyDstStartLocal = 1741489200000.
Proof. reflexivity. Qed.
Lemma nyDstEndLocal_eq : nyDstEndLocal = 1762048800000.
Proof. reflexivity. Qed.

(** New York switches at 02:00, so every local midnight exists. *)
Lemma newYork2025_regular : regularZone newYork2025.
Proof.
  constructor.
  - intros d. unfold LocalTime, UTC, newYork2025. cbn [offsetAtUTC offsetAtLocal].
    rewrite nyDstStartUTC_eq, nyDstEndUTC_eq, nyDstStartLocal_eq, nyDstEndLocal_eq.
    unfold msPerDay.
    destruct (Z.leb_spec 1741489200000 (d * 86400000));
      destruct (Z.ltb_spec (d * 86400000) 1762048800000); cbn [andb];
      match goal with
      | |- context [if (?a <=? ?b) && (?c <? ?e) then _ else _] =>
          destruct (Z.leb_spec a b); destruct (Z.ltb_spec c e); cbn [andb]
      end; lia.
  - intros d1 d2 L. unfold UTC, newYork2025. cbn [offsetAtLocal].
    rewrite nyDstStartLocal_eq, nyDstEndLocal_eq. unfold msPerDay.
    repeat match goal with
           | |- context [if (?a <=? ?b) && (?c <? ?e) then _ else _] =>
               destruct (Z.leb_spec a b); destruct (Z.ltb_spec c e); cbn [andb]
           end; lia.
  - intros t. unfold newYork2025. cbn [offsetAtLocal]. unfold msPerDay.
    destruct ((nyDstStartLocal <=? t) && (t <? nyDstEndLocal)); lia.
Qed.

End ZoneFacts.

(* ================================================================== *)
(** * Facts about the date utilities *)
(* ================================================================== *)

Module DateFacts.
Import ES ESFacts CivilFacts StrFacts NumFacts.

(** ** UTC mode is local mode in the zone of offset 0 *)

Lemma construct_UTC y m d :
  JSDate.constructUTC y m d = JSDate.construct (fixedZone 0) y m d.
Proof.
  unfold JSDate.constructUTC, JSDate.construct.
  destruct (JSDate.makeLocalMidnight y m d) as [t|]; [|reflexivity].
  unfold UTC, fixedZone. cbn [offsetAtLocal]. rewrite Z.sub_0_r. reflexivity.
Qed.

Lemma LocalTime_zero t : LocalTime (fixedZone 0) t = t.
Proof. unfold LocalTime, fixedZone. cbn. lia. Qed.

Lemma UTC_zero t : UTC (fixedZone 0) t = t.
Proof. unfold UTC, fixedZone. cbn. lia. Qed.

Lemma getUTCFullYear_local d :
  JSDate.getUTCFullYear d = JSDate.getFullYear (fixedZone 0) d.
Proof. destruct d; cbn; rewrite ?LocalTime_zero; reflexivity. Qed.

Lemma getUTCMonth_local d :
  JSDate.getUTCMonth d = JSDate.getMonth (fixedZone 0) d.
Proof. destruct d; cbn; rewrite ?LocalTime_zero; reflexivity. Qed.

Lemma getUTCDate_local d :
  JSDate.getUTCDate d = JSDate.getDate (fixedZone 0) d.
Proof. destruct d; cbn; rewrite ?LocalTime_zero; reflexivity. Qed.

Lemma setUTCDate_local d n :
  JSDate.setUTCDate d n = JSDate.setDate (fixedZone 0) d n.
Proof.
  destruct d as [t|], n as [k|]; cbn; try reflexivity.
  rewrite LocalTime_zero, UTC_zero. reflexivity.
Qed.

Lemma setUTCHours0_local d :
  JSDate.setUTCHours0 d = JSDate.setHours0 (fixedZone 0) d.
Proof.
  destruct d as [t|]; cbn; try reflexivity.
  rewrite LocalTime_zero, UTC_zero. reflexivity.
Qed.

Lemma ymdUTC_local d : ymdUTC d = ymdLocal (fixedZone 0) d.
Proof.
  unfold ymdUTC, ymdLocal.
  rewrite getUTCFullYear_local, getUTCMonth_local, getUTCDate_local.
  reflexivity.
Qed.

Lemma parseYMDUTC_local s : parseYMDUTC s = parseYMDLocal (fixedZone 0) s.
Proof.
  unfold parseYMDUTC, parseYMDLocal.
  destruct (negb (List.length (splitNumbers s) =? 3)%nat || existsb isNaN (splitNumbers s));
    [reflexivity|].
  destruct (splitNumbers s) as [|y [|m [|d [|]]]]; try reflexivity.
  rewrite construct_UTC. reflexivity.
Qed.

Lemma isTodayUTC_local now s : isTodayUTC now s = isToday (fixedZone 0) now s.
Proof. unfold isTodayUTC, isToday. rewrite ymdUTC_local. reflexivity. Qed.

Lemma getTaskDateByMode_utc tz i s :
  getTaskDateByMode (makeTime tz utc) i s =
  getTaskDateByMode (makeTime (fixedZone 0) local) i s.
Proof.
  cbn [makeTime getTaskDateByMode]. rewrite parseYMDUTC_local.
  destruct (parseYMDLocal (fixedZone 0) s) as [d|m]; cbn [bindR]; [|reflexivity].
  rewrite setUTCDate_local, getUTCDate_local, ymdUTC_local. reflexivity.
Qed.

Lemma getDaysBetweenByMode_utc tz a b :
  getDaysBetweenByMode (makeTime tz utc) a b =
  getDaysBetweenByMode (makeTime (fixedZone 0) local) a b.
Proof.
  cbn [makeTime getDaysBetweenByMode]. rewrite !parseYMDUTC_local.
  destruct (parseYMDLocal (fixedZone 0) a) as [d|m]; cbn [bindR]; [|reflexivity].
  destruct (parseYMDLocal (fixedZone 0) b) as [e|m]; cbn [bindR]; [|reflexivity].
  rewrite !setUTCHours0_local. reflexivity.
Qed.

Lemma getTaskDateByMode_local tz i s :
  getTaskDateByMode (makeTime tz local) i s = getTaskDate tz i s.
Proof. reflexivity. Qed.

Lemma zero_regular : regularZone (fixedZone 0).
Proof. apply ZoneFacts.fixedZone_regular. unfold msPerDay. lia. Qed.

(** ** Parsing a text of the expected shape *)

Lemma parseYMDLocal_read tz s y m d :
  Civil.read s = Some (y, m, d) ->
  parseYMDLocal tz s =
  Ok (TimeClip
        (UTC tz (MakeDay (if (0 <=? y) && (y <=? 99) then 1900 + y else y)
                         (m - 1) d * msPerDay))).
Proof.
  intros H. unfold parseYMDLocal. rewrite (splitNumbers_read s y m d H).
  cbn [List.length Nat.eqb negb existsb isNaN ofZ orb].
  unfold JSDate.construct.
  change (Fin (inject_Z y)) with (ofZ y).
  change (Fin (inject_Z m)) with (ofZ m).
  change (Fin (inject_Z d)) with (ofZ d).
  rewrite makeLocalMidnight_ofZ. reflexivity.
Qed.

Section Regular.

Variable tz : TimeZone.
Hypothesis R : regularZone tz.

Lemma LocalTime_localMidnight n :
  LocalTime tz (localMidnight tz n) = n * msPerDay.
Proof. apply (midnight_exists tz R). Qed.

Lemma Day_localMidnight n : Day (LocalTime tz (localMidnight tz n)) = n.
Proof.
  rewrite LocalTime_localMidnight. unfold Day.
  apply Z.div_mul. unfold msPerDay. lia.
Qed.

Lemma TimeWithinDay_localMidnight n :
  TimeWithinDay (LocalTime tz (localMidnight tz n)) = 0.
Proof.
  rewrite LocalTime_localMidnight. unfold TimeWithinDay.
  apply Z.mod_mul. unfold msPerDay. lia.
Qed.

(** Day numbers well inside the range of time values. *)
Lemma localMidnight_clip n :
  -99999999 <= n <= 99999999 ->
  TimeClip (localMidnight tz n) = Some (localMidnight tz n).
Proof.
  intros H. apply TimeClip_in_range. unfold localMidnight, UTC.
  pose proof (offset_bound tz R (n * msPerDay)) as B.
  unfold maxTime, msPerDay in *. lia.
Qed.

Lemma localMidnight_le n1 n2 :
  (localMidnight tz n1 <=? localMidnight tz n2) = (n1 <=? n2).
Proof.
  unfold localMidnight.
  destruct (Z.leb_spec n1 n2) as [L|L].
  - apply Z.leb_le. destruct (Z.eq_dec n1 n2) as [->|N]; [lia|].
    pose proof (midnight_mono tz R n1 n2). lia.
  - apply Z.leb_gt. apply (midnight_mono tz R). exact L.
Qed.

(** The date read at a local midnight is the date of that day. *)
Lemma ofTime_localMidnight n :
  Civil.ofTime (LocalTime tz (localMidnight tz n)) = Civil.ofTime (n * msPerDay).
Proof. rewrite LocalTime_localMidnight. reflexivity. Qed.

(** A valid date from year 100 on parses to its local midnight. *)
Lemma parseYMDLocal_valid s c :
  Civil.read s = Some c -> Civil.valid c = true -> 100 <= Civil.year c ->
  parseYMDLocal tz s = Ok (Some (localMidnight tz (Civil.dayNumber c))).
Proof.
  destruct c as [[y m] d]. unfold Civil.year. cbn [fst].
  intros H V Hy. rewrite (parseYMDLocal_read tz s y m d H).
  replace ((0 <=? y) && (y <=? 99)) with false
    by (symmetry; apply andb_false_iff; right; apply Z.leb_gt; lia).
  pose proof (read_range s y m d H) as (Ry & _ & _).
  pose proof (dayNumber_bounds (y, m, d) V) as B.
  unfold Civil.year in B. cbn [fst] in B. specialize (B ltac:(lia)).
  change (MakeDay y (m - 1) d) with (Civil.dayNumber (y, m, d)).
  f_equal. apply localMidnight_clip. lia.
Qed.

(** [ymdLocal] prints the date read at the instant. *)
Lemma ymdLocal_ofTime t :
  1000 <= YearFromTime (LocalTime tz t) <= 9999 ->
  ymdLocal tz (Some t) = Civil.format (Civil.ofTime (LocalTime tz t)).
Proof.
  intros Hy. unfold ymdLocal, Civil.format, Civil.ofTime.
  cbn [JSDate.getFullYear JSDate.getMonth JSDate.getDate option_map addN
       Str.ToString].
  rewrite (ZToString_pad4 _ Hy). reflexivity.
Qed.

Lemma getDate_localMidnight n :
  JSDate.getDate tz (Some (localMidnight tz n)) = Some (DateFromTime (n * msPerDay)).
Proof. cbn. rewrite LocalTime_localMidnight. reflexivity. Qed.

(** [setDate(getDate() + k)] at a local midnight moves [k] days. *)
Lemma setDate_localMidnight n k :
  -99999999 <= n + k <= 99999999 ->
  JSDate.setDate tz (Some (localMidnight tz n))
                 (addN (JSDate.getDate tz (Some (localMidnight tz n))) k)
  = Some (localMidnight tz (n + k)).
Proof.
  intros H. cbn [JSDate.setDate JSDate.getDate option_map addN].
  rewrite MakeDay_fields, Day_localMidnight, TimeWithinDay_localMidnight.
  unfold MakeDate. rewrite Z.add_0_r. apply localMidnight_clip. exact H.
Qed.

End Regular.

End DateFacts.

(* ================================================================== *)
(** * Parsing, formatting and day arithmetic on valid dates *)
(* ================================================================== *)

Module RangeFacts.
Import ES ESFacts CivilFacts StrFacts NumFacts DateFacts.

Lemma fourDigitYear_inv c :
  Civil.fourDigitYear c = true ->
  Civil.valid c = true /\ 1000 <= Civil.year c <= 9999.
Proof.
  unfold Civil.fourDigitYear. rewrite !andb_true_iff, !Z.leb_le. tauto.
Qed.

Lemma Day_midnight n : Day (n * msPerDay) = n.
Proof. unfold Day. apply Z.div_mul. unfold msPerDay. lia. Qed.

Lemma YearFromDay_mono d1 d2 : d1 <= d2 -> YearFromDay d1 <= YearFromDay d2.
Proof.
  intros H. pose proof (YearFromDay_spec d1) as S1.
  pose proof (YearFromDay_spec d2) as S2.
  destruct (Z.le_gt_cases (YearFromDay d1) (YearFromDay d2)) as [L|G]; [exact L|].
  pose proof (DayFromYear_le (YearFromDay d2 + 1) (YearFromDay d1)). lia.
Qed.

Lemma year_ofTime_midnight c :
  Civil.valid c = true ->
  YearFromDay (Civil.dayNumber c) = Civil.year c.
Proof.
  intros V.
  pose proof (ofTime_dayNumber c (Civil.dayNumber c * msPerDay) V (Day_midnight _)) as E.
  rewrite <- E at 2. unfold Civil.ofTime, Civil.year, YearFromTime. cbn [fst].
  rewrite Day_midnight. reflexivity.
Qed.

(** Years grow with the number of days added. *)
Lemma year_addDays_mono c i j :
  Civil.valid c = true -> (i <= j)%nat ->
  Civil.year (Civil.addDays i c) <= Civil.year (Civil.addDays j c).
Proof.
  intros V L.
  destruct (addDays_spec i c V) as [Vi Ei].
  destruct (addDays_spec j c V) as [Vj Ej].
  rewrite <- (year_ofTime_midnight _ Vi), <- (year_ofTime_midnight _ Vj).
  apply YearFromDay_mono. lia.
Qed.

Lemma year_addDays_range c n i :
  Civil.valid c = true -> 1000 <= Civil.year c ->
  Civil.year (Civil.addDays n c) <= 9999 -> (i <= n)%nat ->
  1000 <= Civil.year (Civil.addDays i c) <= 9999.
Proof.
  intros V Lo Hi L.
  pose proof (year_addDays_mono c 0 i V ltac:(lia)) as A.
  pose proof (year_addDays_mono c i n V L) as B.
  cbn [Civil.addDays] in A. lia.
Qed.

Section Regular.

Variable tz : TimeZone.
Hypothesis R : regularZone tz.

(** At the local midnight of a date written with four digits, [ymdLocal]
    prints the date. *)
Lemma ymdLocal_localMidnight c :
  Civil.valid c = true -> 1000 <= Civil.year c <= 9999 ->
  ymdLocal tz (Some (localMidnight tz (Civil.dayNumber c))) = Civil.format c.
Proof.
  intros V Hy.
  assert (E : Civil.ofTime (LocalTime tz (localMidnight tz (Civil.dayNumber c))) = c).
  { apply ofTime_dayNumber; [exact V|]. apply (Day_localMidnight tz R). }
  rewrite ymdLocal_ofTime.
  - rewrite E. reflexivity.
  - change (YearFromTime (LocalTime tz (localMidnight tz (Civil.dayNumber c))))
      with (Civil.year (Civil.ofTime (LocalTime tz (localMidnight tz (Civil.dayNumber c))))).
    rewrite E. exact Hy.
Qed.

Lemma getDate_localMidnight_date c :
  Civil.valid c = true ->
  JSDate.getDate tz (Some (localMidnight tz (Civil.dayNumber c)))
  = Some (Civil.dayOfMonth c).
Proof.
  intros V.
  assert (E : Civil.ofTime (LocalTime tz (localMidnight tz (Civil.dayNumber c))) = c).
  { apply ofTime_dayNumber; [exact V|]. apply (Day_localMidnight tz R). }
  cbn [JSDate.getDate option_map]. f_equal.
  change (DateFromTime (LocalTime tz (localMidnight tz (Civil.dayNumber c))))
    with (Civil.dayOfMonth (Civil.ofTime (LocalTime tz (localMidnight tz (Civil.dayNumber c))))).
  rewrite E. reflexivity.
Qed.

(** Parsing a valid four-digit-year text and formatting the result gives
    the text back. *)
Lemma roundtrip_local s c :
  Civil.read s = Some c -> Civil.fourDigitYear c = true ->
  exists d, parseYMDLocal tz s = Ok d /\ ymdLocal tz d = s.
Proof.
  intros H F. destruct (fourDigitYear_inv c F) as [V Hy].
  exists (Some (localMidnight tz (Civil.dayNumber c))). split.
  - apply (parseYMDLocal_valid tz R s c H V). lia.
  - rewrite (ymdLocal_localMidnight c V Hy). symmetry. apply read_format. exact H.
Qed.

Lemma dayNumber_addDays_clip c n :
  Civil.valid c = true -> 0 <= Civil.year (Civil.addDays n c) <= 9999 ->
  -99999999 <= Civil.dayNumber c + Z.of_nat n <= 99999999.
Proof.
  intros V Hy. destruct (addDays_spec n c V) as [Vn En].
  pose proof (dayNumber_bounds _ Vn Hy). lia.
Qed.

(** The date of task [i]: the start date plus [i] days. *)
Lemma getTaskDate_spec s c i :
  Civil.read s = Some c -> Civil.fourDigitYear c = true ->
  Civil.year (Civil.addDays i c) <= 9999 ->
  getTaskDate tz (Z.of_nat i) s = Ok (Civil.format (Civil.addDays i c)).
Proof.
  intros H F Hi. destruct (fourDigitYear_inv c F) as [V Hy].
  unfold getTaskDate.
  rewrite (parseYMDLocal_valid tz R s c H V) by lia. cbn [bindR].
  pose proof (year_addDays_range c i i V ltac:(lia) Hi ltac:(lia)) as Yi.
  destruct (addDays_spec i c V) as [Vi Ei].
  rewrite (setDate_localMidnight tz R)
    by (apply dayNumber_addDays_clip; [exact V|lia]).
  rewrite <- Ei. rewrite (ymdLocal_localMidnight _ Vi Yi). reflexivity.
Qed.

End Regular.

(** The same in either mode: UTC mode needs no assumption on the zone. *)
Lemma getTaskDateByMode_spec tz mode s c i :
  mode = utc \/ regularZone tz ->
  Civil.read s = Some c -> Civil.fourDigitYear c = true ->
  Civil.year (Civil.addDays i c) <= 9999 ->
  getTaskDateByMode (makeTime tz mode) (Z.of_nat i) s
  = Ok (Civil.format (Civil.addDays i c)).
Proof.
  intros M H F Hi. destruct mode.
  - destruct M as [M|R]; [discriminate M|].
    rewrite getTaskDateByMode_local. apply (getTaskDate_spec tz R); assumption.
  - rewrite getTaskDateByMode_utc, getTaskDateByMode_local.
    apply (getTaskDate_spec (fixedZone 0) zero_regular); assumption.
Qed.

Lemma roundtrip_mode tz mode s c :
  mode = utc \/ regularZone tz ->
  Civil.read s = Some c -> Civil.fourDigitYear c = true ->
  exists d, parseYMD (makeTime tz mode) s = Ok d /\ ymd (makeTime tz mode) d = s.
Proof.
  intros M H F. destruct mode.
  - destruct M as [M|R]; [discriminate M|].
    exact (roundtrip_local tz R s c H F).
  - cbn [makeTime parseYMD ymd].
    destruct (roundtrip_local (fixedZone 0) zero_regular s c H F) as (d & P & Y).
    exists d. rewrite parseYMDUTC_local, ymdUTC_local. split; assumption.
Qed.

End RangeFacts.

(* ================================================================== *)
(** * The day generator and the task mapping *)
(* ================================================================== *)

Module GeneratorFacts.
Import ES ESFacts CivilFacts StrFacts NumFacts DateFacts RangeFacts.

Lemma map_seq_S {A : Type} (f : nat -> A) r :
  map f (seq 1 r) = map (fun i => f (S i)) (seq 0 r).
Proof. rewrite <- seq_shift, map_map. reflexivity. Qed.

(** ** [getTaskForDay] *)

Lemma getTaskForDay_cyclic {T : Type} (tasks : list T) (i : nat) :
  tasks <> [] ->
  exists t, nth_error tasks (i mod List.length tasks) = Some t /\
            getTaskForDay (Z.of_nat i) tasks = Ok t.
Proof.
  intros NE.
  assert (L : (List.length tasks <> 0)%nat)
    by (destruct tasks; [congruence|discriminate]).
  assert (B : (i mod List.length tasks < List.length tasks)%nat)
    by (apply Nat.mod_upper_bound; exact L).
  destruct (nth_error tasks (i mod List.length tasks)) as [t|] eqn:E.
  - exists t. split; [reflexivity|]. unfold getTaskForDay, jsRem.
    replace (Z.of_nat (List.length tasks) =? 0) with false
      by (symmetry; apply Z.eqb_neq; lia).
    rewrite Z.rem_mod_nonneg by lia. rewrite <- Nat2Z.inj_mod.
    unfold arrayGet.
    replace (Z.of_nat (i mod List.length tasks) <? 0) with false
      by (symmetry; apply Z.ltb_ge; lia).
    rewrite Nat2Z.id, E. reflexivity.
  - apply nth_error_None in E. lia.
Qed.

Lemma getTaskForDay_empty {T : Type} (i : Z) :
  getTaskForDay i (@nil T) =
  Throw ("Task not found for day index " ++ Str.ZToString i)%string.
Proof. reflexivity. Qed.

Section Regular.

Variable T : Type.
Variable tz : TimeZone.
Hypothesis R : regularZone tz.
Variable now : Z.

(** ** The loop of [generateCalendarDays] *)

Lemma daysLoop_spec (c : Civil.date) (n : nat) :
  Civil.valid c = true -> 1000 <= Civil.year c ->
  Civil.year (Civil.addDays n c) <= 9999 ->
  forall (r j : nat) (idn : Z) (acc : list (CalendarDay T)) (fuel : nat),
    (j + r = S n)%nat -> (r < fuel)%nat ->
    daysLoop fuel tz now
             (Some (localMidnight tz (Civil.dayNumber c + Z.of_nat j)))
             (Some (localMidnight tz (Civil.dayNumber c + Z.of_nat n))) idn acc
    = Some (acc ++ map (fun i => generatedDay tz now (Civil.addDays (j + i) c)
                                              (idn + Z.of_nat i))
                       (seq 0 r)).
Proof.
  intros V Lo Hi. induction r as [|r IH]; intros j idn acc fuel E F.
  - destruct fuel as [|fuel]; [lia|]. cbn [daysLoop JSDate.leb].
    rewrite (localMidnight_le tz R).
    replace (Civil.dayNumber c + Z.of_nat j <=? Civil.dayNumber c + Z.of_nat n)
      with false by (symmetry; apply Z.leb_gt; lia).
    cbn [seq map]. rewrite app_nil_r. reflexivity.
  - destruct fuel as [|fuel]; [lia|]. cbn [daysLoop JSDate.leb].
    rewrite (localMidnight_le tz R).
    replace (Civil.dayNumber c + Z.of_nat j <=? Civil.dayNumber c + Z.of_nat n)
      with true by (symmetry; apply Z.leb_le; lia).
    destruct (addDays_spec j c V) as [Vj Ej].
    pose proof (year_addDays_range c n j V Lo Hi ltac:(lia)) as Yj.
    rewrite (setDate_localMidnight tz R)
      by (pose proof (dayNumber_bounds _ Vj ltac:(lia)); lia).
    rewrite <- Ej.
    rewrite (ymdLocal_localMidnight tz R _ Vj Yj).
    rewrite (getDate_localMidnight_date tz R _ Vj).
    rewrite Ej.
    replace (Civil.dayNumber c + Z.of_nat j + 1)
      with (Civil.dayNumber c + Z.of_nat (S j)) by lia.
    rewrite (IH (S j) (idn + 1) _ fuel) by lia.
    f_equal. rewrite <- app_assoc. f_equal.
    cbn [seq map app]. f_equal.
    + unfold generatedDay. rewrite Nat.add_0_r, Z.add_0_r. reflexivity.
    + rewrite map_seq_S. apply map_ext. intros i.
      f_equal; [f_equal; lia|lia].
Qed.

(** An end date before the start date: the loop body never runs. *)
Lemma daysLoop_empty n1 n2 fuel idn (acc : list (CalendarDay T)) :
  n2 < n1 ->
  daysLoop (S fuel) tz now (Some (localMidnight tz n1))
           (Some (localMidnight tz n2)) idn acc = Some acc.
Proof.
  intros L. cbn [daysLoop JSDate.leb]. rewrite (localMidnight_le tz R).
  replace (n1 <=? n2) with false by (symmetry; apply Z.leb_gt; lia).
  reflexivity.
Qed.

End Regular.

(** ** The traversal of [updateCalendarDays] *)

Lemma attachTasks_spec {T : Type} tz mode now (tasks : list T) s c n :
  mode = utc \/ regularZone tz ->
  tasks <> [] ->
  Civil.read s = Some c -> Civil.fourDigitYear c = true ->
  Civil.year (Civil.addDays n c) <= 9999 ->
  forall (r j : nat),
    (j + r <= S n)%nat ->
    attachTasks (makeTime tz mode) now tasks s (Z.of_nat j)
      (map (fun i => generatedDay tz now (Civil.addDays (j + i) c)
                                  (1 + Z.of_nat (j + i)))
           (seq 0 r))
    = Ok (map (fun i => expectedDay tz mode now tasks c (j + i)) (seq 0 r)).
Proof.
  intros M NE H F Hi. destruct (fourDigitYear_inv c F) as [V Hy].
  induction r as [|r IH]; intros j L.
  - reflexivity.
  - cbn [seq map attachTasks].
    destruct (getTaskForDay_cyclic tasks j NE) as (t & Et & Gt).
    rewrite Gt. cbn [bindR].
    pose proof (year_addDays_range c n j V ltac:(lia) Hi ltac:(lia)) as Yj.
    rewrite (getTaskDateByMode_spec tz mode s c j M H F) by lia.
    cbn [bindR].
    rewrite map_seq_S.
    rewrite (map_ext (fun i => generatedDay tz now (Civil.addDays (j + S i) c)
                                            (1 + Z.of_nat (j + S i)))
                     (fun i => generatedDay tz now (Civil.addDays (S j + i) c)
                                            (1 + Z.of_nat (S j + i))))
      by (intros i; replace (j + S i)%nat with (S j + i)%nat by lia; reflexivity).
    replace (Z.of_nat j + 1) with (Z.of_nat (S j)) by lia.
    rewrite (IH (S j)) by lia. cbn [bindR]. f_equal. f_equal.
    + unfold expectedDay, generatedDay.
      cbn [id day date isSelected isToday_ isPlaceholder].
      rewrite Nat.add_0_r, Et. f_equal. f_equal. lia.
    + rewrite map_seq_S. apply map_ext. intros i.
      replace (j + S i)%nat with (S j + i)%nat by lia. reflexivity.
Qed.

End GeneratorFacts.

(* ================================================================== *)
(** * Day counts, validation and the whole update *)
(* ================================================================== *)

Module UpdateFacts.
Import ES ESFacts CivilFacts StrFacts NumFacts DateFacts RangeFacts GeneratorFacts.

Lemma read_year_range s c :
  Civil.read s = Some c -> 0 <= Civil.year c <= 9999.
Proof.
  destruct c as [[y m] d]. intros H.
  pose proof (read_range s y m d H). unfold Civil.year. cbn [fst]. lia.
Qed.

Lemma read_dayNumber_clip s c :
  Civil.read s = Some c -> Civil.valid c = true ->
  -99999999 <= Civil.dayNumber c <= 99999999.
Proof.
  intros H V. pose proof (dayNumber_bounds c V (read_year_range s c H)). lia.
Qed.

Section Regular.

Variable tz : TimeZone.
Hypothesis R : regularZone tz.

Lemma getDaysBetween_regular s e cs ce :
  Civil.read s = Some cs -> Civil.valid cs = true -> 100 <= Civil.year cs ->
  Civil.read e = Some ce -> Civil.valid ce = true -> 100 <= Civil.year ce ->
  getDaysBetween tz s e =
  Ok (Some (- ((- (localMidnight tz (Civil.dayNumber ce)
                   - localMidnight tz (Civil.dayNumber cs)))
               / (1000 * 3600 * 24)) + 1)).
Proof.
  intros Hs Vs Ys He Ve Ye. unfold getDaysBetween.
  rewrite (parseYMDLocal_valid tz R s cs Hs Vs Ys).
  rewrite (parseYMDLocal_valid tz R e ce He Ve Ye).
  reflexivity.
Qed.

(** The count is off by at most a day or two whatever the offsets are. *)
Lemma getDaysBetween_bounds s e cs ce :
  Civil.read s = Some cs -> Civil.valid cs = true -> 100 <= Civil.year cs ->
  Civil.read e = Some ce -> Civil.valid ce = true -> 100 <= Civil.year ce ->
  exists k, getDaysBetween tz s e = Ok (Some k) /\
            Civil.dayNumber ce - Civil.dayNumber cs - 1 <= k
            <= Civil.dayNumber ce - Civil.dayNumber cs + 3.
Proof.
  intros Hs Vs Ys He Ve Ye.
  rewrite (getDaysBetween_regular s e cs ce Hs Vs Ys He Ve Ye).
  eexists. split; [reflexivity|].
  unfold localMidnight, UTC.
  pose proof (offset_bound tz R (Civil.dayNumber ce * msPerDay)).
  pose proof (offset_bound tz R (Civil.dayNumber cs * msPerDay)).
  unfold msPerDay in *. change (1000 * 3600 * 24) with 86400000.
  Z.div_mod_to_equations. lia.
Qed.

(** With the same offset at both midnights the count is exact. *)
Lemma getDaysBetween_same_offset s e cs ce :
  Civil.read s = Some cs -> Civil.valid cs = true -> 100 <= Civil.year cs ->
  Civil.read e = Some ce -> Civil.valid ce = true -> 100 <= Civil.year ce ->
  offsetAtLocal tz (Civil.dayNumber cs * msPerDay)
  = offsetAtLocal tz (Civil.dayNumber ce * msPerDay) ->
  getDaysBetween tz s e
  = Ok (Some (Civil.dayNumber ce - Civil.dayNumber cs + 1)).
Proof.
  intros Hs Vs Ys He Ve Ye O.
  rewrite (getDaysBetween_regular s e cs ce Hs Vs Ys He Ve Ye).
  unfold localMidnight, UTC. rewrite O. unfold msPerDay.
  change (1000 * 3600 * 24) with 86400000.
  do 2 f_equal. Z.div_mod_to_equations. lia.
Qed.

Lemma setHours0_localMidnight n :
  -99999999 <= n <= 99999999 ->
  JSDate.setHours0 tz (Some (localMidnight tz n)) = Some (localMidnight tz n).
Proof.
  intros H. cbn [JSDate.setHours0]. rewrite (Day_localMidnight tz R).
  unfold MakeDate, MakeTime. cbn [Z.mul Z.add]. rewrite Z.add_0_r.
  apply (localMidnight_clip tz R). exact H.
Qed.

Lemma getDaysBetweenByMode_regular s e cs ce :
  Civil.read s = Some cs -> Civil.valid cs = true -> 100 <= Civil.year cs ->
  Civil.read e = Some ce -> Civil.valid ce = true -> 100 <= Civil.year ce ->
  getDaysBetweenByMode (makeTime tz local) s e =
  Ok (Some ((localMidnight tz (Civil.dayNumber ce)
             - localMidnight tz (Civil.dayNumber cs))
            / (1000 * 60 * 60 * 24) + 1)).
Proof.
  intros Hs Vs Ys He Ve Ye. cbn [makeTime getDaysBetweenByMode].
  rewrite (parseYMDLocal_valid tz R s cs Hs Vs Ys).
  rewrite (parseYMDLocal_valid tz R e ce He Ve Ye).
  cbn [bindR].
  rewrite !setHours0_localMidnight
    by (eapply read_dayNumber_clip; eassumption).
  reflexivity.
Qed.

Lemma getDaysBetweenByMode_same_offset s e cs ce :
  Civil.read s = Some cs -> Civil.valid cs = true -> 100 <= Civil.year cs ->
  Civil.read e = Some ce -> Civil.valid ce = true -> 100 <= Civil.year ce ->
  offsetAtLocal tz (Civil.dayNumber cs * msPerDay)
  = offsetAtLocal tz (Civil.dayNumber ce * msPerDay) ->
  getDaysBetweenByMode (makeTime tz local) s e
  = Ok (Some (Civil.dayNumber ce - Civil.dayNumber cs + 1)).
Proof.
  intros Hs Vs Ys He Ve Ye O.
  rewrite (getDaysBetweenByMode_regular s e cs ce Hs Vs Ys He Ve Ye).
  unfold localMidnight, UTC. rewrite O. unfold msPerDay.
  change (1000 * 60 * 60 * 24) with 86400000.
  do 2 f_equal. Z.div_mod_to_equations. lia.
Qed.

End Regular.

(** In UTC mode the inclusive count is exact in every host zone. *)
Lemma getDaysBetweenByMode_utc_exact tz s e cs ce :
  Civil.read s = Some cs -> Civil.valid cs = true -> 100 <= Civil.year cs ->
  Civil.read e = Some ce -> Civil.valid ce = true -> 100 <= Civil.year ce ->
  getDaysBetweenByMode (makeTime tz utc) s e
  = Ok (Some (Civil.dayNumber ce - Civil.dayNumber cs + 1)).
Proof.
  intros. rewrite getDaysBetweenByMode_utc.
  apply (getDaysBetweenByMode_same_offset (fixedZone 0) zero_regular s e cs ce);
    try assumption. reflexivity.
Qed.

(** ** [validateTasksAndDays] *)

Lemma validate_ok {T : Type} tz (ts : list T) s e tm (w : World T) k :
  ts <> [] ->
  getDaysBetween tz s e = Ok k ->
  validateTasksAndDays tz (mkCalendarData ts) (mkCalendarConfig s e tm) w
  = (Ok tt, validatedWorld w (Z.of_nat (List.length ts)) k).
Proof.
  intros NE G. unfold validateTasksAndDays, validatedWorld.
  destruct (validationPerformed w); [reflexivity|].
  cbn [startDate endDate tasks]. rewrite G.
  replace (Z.of_nat (List.length ts) =? 0) with false
    by (symmetry; apply Z.eqb_neq; destruct ts; [congruence|cbn; lia]).
  destruct (countNeq (Z.of_nat (List.length ts)) k); reflexivity.
Qed.

Lemma validate_empty {T : Type} tz s e tm (w : World T) :
  validationPerformed w = false ->
  validateTasksAndDays tz (mkCalendarData []) (mkCalendarConfig s e tm) w
  = (Throw (match getDaysBetween tz s e with
            | Ok _ => "No tasks found in calendar data"
            | Throw m => m
            end), setValidated w).
Proof.
  intros NV. unfold validateTasksAndDays. rewrite NV.
  cbn [startDate endDate tasks].
  destruct (getDaysBetween tz s e); reflexivity.
Qed.

Lemma validate_skipped {T : Type} tz cal cfg (w : World T) :
  validationPerformed w = true ->
  validateTasksAndDays tz cal cfg w = (Ok tt, w).
Proof. intros V. unfold validateTasksAndDays. rewrite V. reflexivity. Qed.


Lemma calendarDays_validated {T : Type} (w : World T) a k :
  calendarDays (validatedWorld w a k) = calendarDays w.
Proof.
  unfold validatedWorld. destruct (validationPerformed w); reflexivity.
Qed.

(** ** The whole of [updateCalendarDays] on a valid range *)

Lemma updateCalendarDays_spec {T : Type} tz now (ts : list T)
    s e cs n tm (w : World T) k fuel :
  regularZone tz -> ts <> [] ->
  Civil.read s = Some cs -> Civil.fourDigitYear cs = true ->
  Civil.read e = Some (Civil.addDays n cs) ->
  Civil.year (Civil.addDays n cs) <= 9999 ->
  getDaysBetween tz s e = Ok k ->
  (n + 1 < fuel)%nat ->
  updateCalendarDays fuel tz now (mkCalendarData ts)
                     (mkCalendarConfig s e tm) w
  = Some (Ok tt,
          setCalendarDays
            (map (expectedDay tz (modeOf (mkCalendarConfig s e tm)) now ts cs)
                 (seq 0 (S n)))
            (validatedWorld w (Z.of_nat (List.length ts)) k)).
Proof.
  intros R NE Hs Fs He Hi G Fu.
  destruct (fourDigitYear_inv cs Fs) as [Vs Ys].
  destruct (addDays_spec n cs Vs) as [Ve Ee].
  pose proof (year_addDays_range cs n n Vs ltac:(lia) Hi ltac:(lia)) as Ye.
  unfold updateCalendarDays, generateCalendarDays.
  rewrite (validate_ok tz ts s e tm w k NE G).
  cbn [startDate endDate tasks].
  rewrite (parseYMDLocal_valid tz R s cs Hs Vs) by lia.
  rewrite (parseYMDLocal_valid tz R e _ He Ve) by lia.
  rewrite Ee.
  pose proof (daysLoop_spec T tz R now cs n Vs ltac:(lia) Hi (S n) 0%nat 1 [] fuel
                ltac:(lia) ltac:(lia)) as L.
  cbn [Z.of_nat Nat.add] in L. rewrite Z.add_0_r in L. rewrite L. cbn [app].
  pose proof (attachTasks_spec tz (modeOf (mkCalendarConfig s e tm)) now ts
                s cs n (or_intror R) NE Hs Fs Hi (S n) 0%nat ltac:(lia)) as A.
  cbn [Z.of_nat Nat.add] in A. rewrite A. reflexivity.
Qed.

End UpdateFacts.

(* ================================================================== *)
(** * Facts used by the statements on lists of days *)
(* ================================================================== *)

Module ListFacts.
Import GeneratorFacts.

Lemma map_nth_error_all {A : Type} (l : list A) :
  map (fun i => nth_error l i) (seq 0 (List.length l)) = map Some l.
Proof.
  induction l as [|a l IH]; [reflexivity|].
  cbn [List.length seq map nth_error]. f_equal.
  rewrite map_seq_S. cbn [nth_error]. exact IH.
Qed.



Lemma nth_error_expected {T : Type} tz mode now (tasks : list T) c n i d :
  nth_error (map (expectedDay tz mode now tasks c) (seq 0 n)) i = Some d ->
  d = expectedDay tz mode now tasks c i /\ (i < n)%nat.
Proof.
  intros H.
  assert (L : (i < n)%nat).
  { assert (N : nth_error (map (expectedDay tz mode now tasks c) (seq 0 n)) i <> None)
      by congruence.
    apply nth_error_Some in N. rewrite length_map, length_seq in N. exact N. }
  split; [|exact L].
  rewrite nth_error_map in H. rewrite nth_error_seq in H.
  replace (i <? n)%nat with true in H by (symmetry; apply Nat.ltb_lt; exact L).
  cbn in H. congruence.
Qed.

End ListFacts.

(* ================================================================== *)
(** * Lookup by date and the month grid *)
(* ================================================================== *)

Module GridFacts.
Import ES ESFacts CivilFacts StrFacts NumFacts DateFacts RangeFacts
       GeneratorFacts UpdateFacts.

(** 1970-01-01 was a Thursday, and the next date is the next weekday. *)
Lemma weekdayOf_epoch : weekdayOf (1970, 1, 1) = 4.
Proof. reflexivity. Qed.

Lemma weekdayOf_next c :
  Civil.valid c = true ->
  weekdayOf (Civil.next c) = (weekdayOf c + 1) mod 7.
Proof.
  intros V. destruct (next_spec c V) as [_ E].
  unfold weekdayOf, WeekDay. rewrite !Day_midnight, E.
  rewrite Z.add_mod_idemp_l by lia. f_equal. lia.
Qed.

Lemma weekdayOf_range c : 0 <= weekdayOf c < 7.
Proof. apply WeekDay_range. Qed.

Section Regular.

Variable tz : TimeZone.
Hypothesis R : regularZone tz.

(** ** [getTaskForDate] *)

Lemma getTaskForDate_regular {T : Type} (ts : list T) s d cs cd tm e :
  Civil.read s = Some cs -> Civil.valid cs = true -> 100 <= Civil.year cs ->
  Civil.read d = Some cd -> Civil.valid cd = true -> 100 <= Civil.year cd ->
  getTaskForDate tz d ts (mkCalendarConfig s e tm) =
  let i := (localMidnight tz (Civil.dayNumber cd)
            - localMidnight tz (Civil.dayNumber cs)) / (1000 * 60 * 60 * 24) in
  Ok (if (0 <=? i) && (i <? Z.of_nat (List.length ts))
      then nth_error ts (Z.to_nat i) else None).
Proof.
  intros Hs Vs Ys Hd Vd Yd. unfold getTaskForDate. cbn [startDate].
  rewrite (parseYMDLocal_valid tz R s cs Hs Vs Ys).
  rewrite (parseYMDLocal_valid tz R d cd Hd Vd Yd).
  cbn [bindR JSDate.getTime subN floorDiv option_map]. cbv zeta.
  destruct ((0 <=?
             (localMidnight tz (Civil.dayNumber cd)
              - localMidnight tz (Civil.dayNumber cs)) / (1000 * 60 * 60 * 24))
            && ((localMidnight tz (Civil.dayNumber cd)
                 - localMidnight tz (Civil.dayNumber cs)) / (1000 * 60 * 60 * 24)
                <? Z.of_nat (List.length ts))) eqn:B; [|reflexivity].
  apply andb_true_iff in B. destruct B as [B _]. apply Z.leb_le in B.
  unfold arrayGet.
  replace ((localMidnight tz (Civil.dayNumber cd)
            - localMidnight tz (Civil.dayNumber cs)) / (1000 * 60 * 60 * 24) <? 0)
    with false by (symmetry; apply Z.ltb_ge; exact B).
  reflexivity.
Qed.

(** With the same offset at both midnights the index is the number of
    days from the start date to the queried date. *)
Lemma getTaskForDate_same_offset {T : Type} (ts : list T) s d cs cd tm e :
  Civil.read s = Some cs -> Civil.valid cs = true -> 100 <= Civil.year cs ->
  Civil.read d = Some cd -> Civil.valid cd = true -> 100 <= Civil.year cd ->
  offsetAtLocal tz (Civil.dayNumber cs * msPerDay)
  = offsetAtLocal tz (Civil.dayNumber cd * msPerDay) ->
  getTaskForDate tz d ts (mkCalendarConfig s e tm) =
  let i := Civil.dayNumber cd - Civil.dayNumber cs in
  Ok (if (0 <=? i) && (i <? Z.of_nat (List.length ts))
      then nth_error ts (Z.to_nat i) else None).
Proof.
  intros Hs Vs Ys Hd Vd Yd O.
  rewrite (getTaskForDate_regular ts s d cs cd tm e Hs Vs Ys Hd Vd Yd).
  assert (E : (localMidnight tz (Civil.dayNumber cd)
               - localMidnight tz (Civil.dayNumber cs)) / (1000 * 60 * 60 * 24)
              = Civil.dayNumber cd - Civil.dayNumber cs).
  { unfold localMidnight, UTC. rewrite O. unfold msPerDay.
    change (1000 * 60 * 60 * 24) with 86400000.
    Z.div_mod_to_equations. lia. }
  cbv zeta. rewrite E. reflexivity.
Qed.

(** ** The month grid *)

Lemma makeLocalMidnight_zero_based y m d :
  JSDate.makeLocalMidnight (ofZ y) (ofZ m) (ofZ d) =
  Some (MakeDay (if (0 <=? y) && (y <=? 99) then 1900 + y else y) m d
        * msPerDay).
Proof.
  unfold JSDate.makeLocalMidnight, ofZ. rewrite !truncQ_ofZ.
  unfold MakeDate, MakeTime. f_equal. lia.
Qed.

Lemma getDay_localMidnight n :
  JSDate.getDay tz (Some (localMidnight tz n)) = Some (WeekDay (n * msPerDay)).
Proof. cbn. rewrite (LocalTime_localMidnight tz R). reflexivity. Qed.

(** Day 0 of the next month is the last day of the month. *)
Lemma MakeDay_day_zero y mi :
  0 <= mi <= 11 ->
  MakeDay y (mi + 1) 0 = Civil.dayNumber (y, mi + 1, Civil.daysIn y (mi + 1)).
Proof.
  intros H. rewrite dayNumber_eq by lia.
  replace (mi + 1 - 1) with mi by lia.
  rewrite daysIn_ES by lia. replace (mi + 1 - 1) with mi by lia.
  destruct (Z.eq_dec mi 11) as [->|N].
  - unfold MakeDay. change ((11 + 1) / 12) with 1. change ((11 + 1) mod 12) with 0.
    rewrite DayFromYear_succ. unfold DaysInYear, daysInMonth.
    destruct (isLeapYear (y + 1)), (isLeapYear y); cbn [monthStart]; lia.
  - rewrite MakeDay_month by lia. unfold daysInMonth.
    destruct (isLeapYear y); month_cases mi; cbn [monthStart Z.add Pos.add Pos.succ];
      lia.
Qed.

(** [buildMonthDays] in a regular zone: the placeholders due for the
    weekday of the first of the month, then every day of the month. *)
Lemma buildMonthDays_regular year mi fdow :
  100 <= year <= 9999 -> 0 <= mi <= 11 ->
  buildMonthDays tz year mi fdow =
  map (fun i => Placeholder ("ph-" ++ Str.ZToString year ++ "-"
                             ++ Str.ZToString mi ++ "-" ++ Str.ZToString i)%string)
      (upTo (Some (Z.rem (weekdayOf (year, mi + 1, 1) - fdow + 7) 7)))
  ++ map (fun d =>
            RealDay (Str.ZToString year ++ "-" ++ Civil.pad 2 (mi + 1) ++ "-"
                     ++ Civil.pad 2 d)%string d
                    (Str.ZToString year ++ "-" ++ Civil.pad 2 (mi + 1) ++ "-"
                     ++ Civil.pad 2 d)%string)
         (oneTo (Some (Civil.daysIn year (mi + 1)))).
Proof.
  intros Hy Hm. unfold buildMonthDays, JSDate.construct.
  rewrite !makeLocalMidnight_zero_based.
  replace ((0 <=? year) && (year <=? 99)) with false
    by (symmetry; apply andb_false_iff; right; apply Z.leb_gt; lia).
  assert (V1 : Civil.valid (year, mi + 1, 1) = true).
  { apply valid_intro; [lia|]. pose proof (daysIn_range year (mi + 1)). lia. }
  assert (V2 : Civil.valid (year, mi + 1, Civil.daysIn year (mi + 1)) = true).
  { apply valid_intro; [lia|]. pose proof (daysIn_range year (mi + 1)). lia. }
  assert (E1 : MakeDay year mi 1 = Civil.dayNumber (year, mi + 1, 1)).
  { unfold Civil.dayNumber. f_equal. lia. }
  rewrite E1, MakeDay_day_zero by lia.
  change (UTC tz (Civil.dayNumber (year, mi + 1, 1) * msPerDay))
    with (localMidnight tz (Civil.dayNumber (year, mi + 1, 1))).
  change (UTC tz (Civil.dayNumber (year, mi + 1, Civil.daysIn year (mi + 1)) * msPerDay))
    with (localMidnight tz (Civil.dayNumber (year, mi + 1, Civil.daysIn year (mi + 1)))).
  rewrite !(localMidnight_clip tz R)
    by (match goal with
        | |- _ <= Civil.dayNumber ?c <= _ =>
            pose proof (dayNumber_bounds c ltac:(assumption)
                          ltac:(unfold Civil.year; cbn [fst]; lia)); lia
        end).
  rewrite getDay_localMidnight.
  rewrite (getDate_localMidnight_date tz R _ V2).
  reflexivity.
Qed.

(** One month group of [groupedDays] in local mode: the placeholders due
    for the weekday of its first day, then its days. *)
Lemma monthGrid_local {T : Type} label fdow (first : CalendarDay T) rest c :
  Civil.read (date first) = Some c -> Civil.fourDigitYear c = true ->
  monthGrid tz label (makeTime tz local) true fdow (first :: rest) =
  Ok (label (Some (localMidnight tz (Civil.dayNumber c))),
      map (placeholderDay (Some (Civil.year c)) (Some (Civil.month c - 1)))
          (upTo (Some (Z.rem (weekdayOf c - fdow + 7) 7)))
      ++ first :: rest).
Proof.
  intros H F. destruct (fourDigitYear_inv c F) as [V Y].
  unfold monthGrid. cbn [makeTime parseYMD].
  rewrite (parseYMDLocal_valid tz R _ c H V) by lia.
  cbn [bindR negb]. rewrite getDay_localMidnight.
  assert (E : Civil.ofTime (LocalTime tz (localMidnight tz (Civil.dayNumber c))) = c).
  { apply ofTime_dayNumber; [exact V|]. apply (Day_localMidnight tz R). }
  cbn [JSDate.getFullYear JSDate.getMonth option_map].
  change (YearFromTime (LocalTime tz (localMidnight tz (Civil.dayNumber c))))
    with (Civil.year (Civil.ofTime (LocalTime tz (localMidnight tz (Civil.dayNumber c))))).
  replace (MonthFromTime (LocalTime tz (localMidnight tz (Civil.dayNumber c))))
    with (Civil.month (Civil.ofTime (LocalTime tz (localMidnight tz (Civil.dayNumber c)))) - 1)
    by (unfold Civil.month, Civil.ofTime; cbn [fst snd]; lia).
  rewrite E. reflexivity.
Qed.

End Regular.

End GridFacts.

(* ================================================================== *)
(** * The day-range and task-mapping generator *)
(* ================================================================== *)

Import ES ESFacts CivilFacts StrFacts NumFacts DateFacts RangeFacts
       GeneratorFacts UpdateFacts ListFacts ZoneFacts.





(** C3 as stated fails: with an end date before the start date the
    generator raises nothing and stores an empty day list. *)
Lemma C3_reversed_range_counterexample :
  Civil.dayNumber (2025, 12, 1) < Civil.dayNumber (2025, 12, 24) /\
  exists w',
    updateCalendarDays 1 newYork2025 0 (mkCalendarData [tt])
      (mkCalendarConfig "2025-12-24" "2025-12-01" None) initialWorld
    = Some (Ok tt, w')
    /\ calendarDays w' = [].
Proof.
  split; [reflexivity|]. eexists. split; [vm_compute; reflexivity|reflexivity].
Qed.

(** C3, amended.  An empty task list is fatal: the first update throws
    (the message is "No tasks found in calendar data" when both dates
    parse) and later updates over a non-empty range throw "Task not found
    for day index 0"; either way the stored day list is left as it was.
    A start date after the end date is not an error: the update returns
    normally and stores an empty day list. *)
Theorem C3_fatal_only_without_tasks :
  (forall (T : Type) (tz : TimeZone) (now : Z) (s e : string)
          (tm : option TimeMode) (w : World T) (fuel : nat),
      validationPerformed w = false ->
      updateCalendarDays fuel tz now (mkCalendarData []) (mkCalendarConfig s e tm) w
      = Some (Throw (match getDaysBetween tz s e with
                     | Ok _ => "No tasks found in calendar data"
                     | Throw m => m
                     end),
              mkWorld true (logged w) (calendarDays w)))
  /\
  (forall (T : Type) (tz : TimeZone) (now : Z) (s e : string)
          (cs ce : Civil.date) (tm : option TimeMode) (w : World T),
      regularZone tz -> validationPerformed w = true ->
      Civil.read s = Some cs -> Civil.fourDigitYear cs = true ->
      Civil.read e = Some ce -> Civil.fourDigitYear ce = true ->
      Civil.leb cs ce = true ->
      exists n,
        Civil.addDays n cs = ce
        /\ forall fuel, (n + 1 < fuel)%nat ->
             updateCalendarDays fuel tz now (mkCalendarData [])
                                (mkCalendarConfig s e tm) w
             = Some (Throw "Task not found for day index 0", w))
  /\
  (forall (T : Type) (tz : TimeZone) (now : Z) (tasks : list T)
          (s e : string) (cs ce : Civil.date)
          (tm : option TimeMode) (w : World T) (fuel : nat),
      regularZone tz -> tasks <> [] ->
      Civil.read s = Some cs -> Civil.fourDigitYear cs = true ->
      Civil.read e = Some ce -> Civil.fourDigitYear ce = true ->
      Civil.leb cs ce = false ->
      exists w',
        updateCalendarDays (S fuel) tz now (mkCalendarData tasks)
                           (mkCalendarConfig s e tm) w
        = Some (Ok tt, w')
        /\ calendarDays w' = []).
Proof.
  split; [|split].
  - intros T tz now s e tm w fuel NV.
    unfold updateCalendarDays, generateCalendarDays.
    rewrite (validate_empty tz s e tm w NV). reflexivity.
  - intros T tz now s e cs ce tm w R V Hs Fs He Fe L.
    destruct (fourDigitYear_inv cs Fs) as [Vs Ys].
    destruct (fourDigitYear_inv ce Fe) as [Ve Ye].
    destruct (addDays_complete cs ce Vs Ve L) as (n & A).
    exists n. split; [exact A|]. subst ce. intros fuel Fu.
    destruct (addDays_spec n cs Vs) as [_ Ee].
    unfold updateCalendarDays, generateCalendarDays.
    rewrite (validate_skipped tz _ _ w V).
    cbn [startDate endDate tasks].
    rewrite (parseYMDLocal_valid tz R s cs Hs Vs) by lia.
    rewrite (parseYMDLocal_valid tz R e _ He Ve) by lia.
    rewrite Ee.
    pose proof (daysLoop_spec T tz R now cs n Vs ltac:(lia) ltac:(lia) (S n) 0%nat 1 []
                  fuel ltac:(lia) ltac:(lia)) as Lp.
    cbn [Z.of_nat Nat.add] in Lp. rewrite Z.add_0_r in Lp. rewrite Lp.
    reflexivity.
  - intros T tz now ts s e cs ce tm w fuel R NE Hs Fs He Fe L.
    destruct (fourDigitYear_inv cs Fs) as [Vs Ys].
    destruct (fourDigitYear_inv ce Fe) as [Ve Ye].
    pose proof (leb_false_dayNumber cs ce Vs Ve L) as Lt.
    destruct (getDaysBetween_bounds tz R s e cs ce Hs Vs ltac:(lia) He Ve ltac:(lia))
      as (g & Gg & _).
    unfold updateCalendarDays, generateCalendarDays.
    rewrite (validate_ok tz ts s e tm w (Some g) NE Gg).
    cbn [startDate endDate tasks].
    rewrite (parseYMDLocal_valid tz R s cs Hs Vs) by lia.
    rewrite (parseYMDLocal_valid tz R e ce He Ve) by lia.
    rewrite (daysLoop_empty T tz R now) by lia.
    cbn [attachTasks]. eexists. split; reflexivity.
Qed.

(** C3 amended, at New York: no tasks on the first update, no tasks on a
    later update, and a reversed range. *)
Lemma C3_fatal_witness :
  (validationPerformed (@initialWorld unit) = false /\
   updateCalendarDays 0 newYork2025 0 (mkCalendarData (@nil unit))
     (mkCalendarConfig "2025-12-01" "2025-12-24" None) initialWorld
   = Some (Throw "No tasks found in calendar data", mkWorld true [] []))
  /\
  (regularZone newYork2025 /\
   validationPerformed (mkWorld (CalendarTask := unit) true [] []) = true /\
   Civil.read "2025-12-01" = Some (2025, 12, 1) /\
   Civil.fourDigitYear (2025, 12, 1) = true /\
   Civil.read "2025-12-24" = Some (2025, 12, 24) /\
   Civil.fourDigitYear (2025, 12, 24) = true /\
   Civil.leb (2025, 12, 1) (2025, 12, 24) = true /\
   exists n,
     Civil.addDays n (2025, 12, 1) = (2025, 12, 24)
     /\ forall fuel, (n + 1 < fuel)%nat ->
          updateCalendarDays fuel newYork2025 0 (mkCalendarData (@nil unit))
            (mkCalendarConfig "2025-12-01" "2025-12-24" None) (mkWorld true [] [])
          = Some (Throw "Task not found for day index 0", mkWorld true [] []))
  /\
  (regularZone newYork2025 /\ [tt] <> [] /\
   Civil.read "2025-12-24" = Some (2025, 12, 24) /\
   Civil.fourDigitYear (2025, 12, 24) = true /\
   Civil.read "2025-12-01" = Some (2025, 12, 1) /\
   Civil.fourDigitYear (2025, 12, 1) = true /\
   Civil.leb (2025, 12, 24) (2025, 12, 1) = false /\
   exists w',
     updateCalendarDays 1 newYork2025 0 (mkCalendarData [tt])
       (mkCalendarConfig "2025-12-24" "2025-12-01" None) initialWorld
     = Some (Ok tt, w')
     /\ calendarDays w' = []).
Proof.
  assert (H1 : regularZone newYork2025) by exact newYork2025_regular.
  assert (H2 : [tt] <> []) by discriminate.
  split; [|split].
  - split; [reflexivity|].
    exact (proj1 C3_fatal_only_without_tasks unit newYork2025 0
             "2025-12-01" "2025-12-24" None initialWorld 0%nat eq_refl).
  - repeat (split; [first [exact H1|reflexivity]|]).
    exact (proj1 (proj2 C3_fatal_only_without_tasks) unit newYork2025 0
             "2025-12-01" "2025-12-24" (2025, 12, 1) (2025, 12, 24) None
             (mkWorld true [] []) H1 eq_refl eq_refl eq_refl eq_refl eq_refl
             eq_refl).
  - repeat (split; [first [exact H1|exact H2|reflexivity]|]).
    exact (proj2 (proj2 C3_fatal_only_without_tasks) unit newYork2025 0 [tt]
             "2025-12-24" "2025-12-01" (2025, 12, 24) (2025, 12, 1) None
             initialWorld 0%nat H1 H2 eq_refl eq_refl eq_refl eq_refl eq_refl).
Defined.

(* ================================================================== *)
(** * The time facade and the date primitives *)
(* ================================================================== *)

(** C5. For an index [i >= 0] and a valid start date written with a
    four-digit year, [getTaskDateByMode] of either mode (in local mode:
    in a host zone in which every local midnight exists) returns the text
    of the start date plus [i] days, as long as that date is still
    written with four digits; so does [getTaskDate].  In particular index
    0 from 2025-12-01 gives "2025-12-01" and index 5 gives
    "2025-12-06". *)
Theorem C5_task_date_for_index :
  forall (tz : TimeZone) (mode : TimeMode) (s : string) (c : Civil.date)
         (i : Z),
    mode = utc \/ regularZone tz ->
    0 <= i ->
    Civil.read s = Some c -> Civil.fourDigitYear c = true ->
    Civil.year (Civil.addDays (Z.to_nat i) c) <= 9999 ->
    getTaskDateByMode (makeTime tz mode) i s
    = Ok (Civil.format (Civil.addDays (Z.to_nat i) c))
    /\ (mode = local ->
        getTaskDate tz i s = Ok (Civil.format (Civil.addDays (Z.to_nat i) c)))
    /\ getTaskDateByMode (makeTime tz mode) 0 "2025-12-01" = Ok "2025-12-01"
    /\ getTaskDateByMode (makeTime tz mode) 5 "2025-12-01" = Ok "2025-12-06".
Proof.
  intros tz mode s c i M Hi H F Y.
  assert (E : forall j, (j <= 5)%nat ->
            getTaskDateByMode (makeTime tz mode) (Z.of_nat j) "2025-12-01"
            = Ok (Civil.format (Civil.addDays j (2025, 12, 1)))).
  { intros j Hj. apply getTaskDateByMode_spec; [exact M|reflexivity|reflexivity|].
    pose proof (year_addDays_mono (2025, 12, 1) j 5 eq_refl Hj) as L.
    assert (Civil.year (Civil.addDays 5 (2025, 12, 1)) = 2025) by reflexivity.
    lia. }
  split; [|split; [|split]].
  - rewrite <- (Z2Nat.id i Hi) at 1. apply getTaskDateByMode_spec; assumption.
  - intros ->. destruct M as [M|R]; [discriminate M|].
    rewrite <- (Z2Nat.id i Hi) at 1. apply (getTaskDate_spec tz R); assumption.
  - exact (E 0%nat ltac:(lia)).
  - exact (E 5%nat ltac:(lia)).
Qed.

(** C5, at New York in local mode: ten days after 2025-12-27 is
    2026-01-06. *)
Lemma C5_task_date_witness :
  (local = utc \/ regularZone newYork2025) /\ 0 <= 10 /\
  Civil.read "2025-12-27" = Some (2025, 12, 27) /\
  Civil.fourDigitYear (2025, 12, 27) = true /\
  Civil.year (Civil.addDays (Z.to_nat 10) (2025, 12, 27)) <= 9999 /\
  getTaskDateByMode (makeTime newYork2025 local) 10 "2025-12-27" = Ok "2026-01-06".
Proof.
  assert (H1 : local = utc \/ regularZone newYork2025)
    by (right; exact newYork2025_regular).
  assert (H2 : 0 <= 10) by lia.
  assert (H5 : Civil.year (Civil.addDays (Z.to_nat 10) (2025, 12, 27)) <= 9999)
    by (vm_compute; discriminate).
  repeat (split; [first [exact H1|exact H2|exact H5|reflexivity]|]).
  exact (proj1 (C5_task_date_for_index newYork2025 local "2025-12-27"
                  (2025, 12, 27) 10 H1 H2 eq_refl eq_refl H5)).
Defined.

(** C4.  Where the claim holds: from a valid date to the date [n] days
    later (four-digit years) both [getDaysBetween] and the facade's
    [getDaysBetweenByMode] return [n + 1], in UTC mode in every host zone
    and in local mode when the two local midnights have the same UTC
    offset; so the count from a date to itself is 1.  Where the code
    breaks it: in New York, over the start of daylight saving time
    (2025-03-09), the facade's local [getDaysBetweenByMode] counts 2 days
    from 2025-03-08 to 2025-03-10, and over its end (2025-11-02)
    [getDaysBetween] counts 4 days from 2025-11-01 to 2025-11-03; each
    range has 3 days, which the sibling function and the UTC mode
    return. *)
Theorem C4_days_between_across_dst :
  (forall (tz : TimeZone) (mode : TimeMode) (s e : string)
          (cs : Civil.date) (n : nat),
      Civil.read s = Some cs -> Civil.fourDigitYear cs = true ->
      Civil.read e = Some (Civil.addDays n cs) ->
      mode = utc \/
      (regularZone tz /\
       offsetAtLocal tz (Civil.dayNumber cs * ES.msPerDay)
       = offsetAtLocal tz (Civil.dayNumber (Civil.addDays n cs) * ES.msPerDay)) ->
      getDaysBetweenByMode (makeTime tz mode) s e = Ok (Some (Z.of_nat n + 1))
      /\ (mode = local -> getDaysBetween tz s e = Ok (Some (Z.of_nat n + 1))))
  /\
  (forall (tz : TimeZone) (mode : TimeMode) (s : string) (c : Civil.date),
      Civil.read s = Some c -> Civil.fourDigitYear c = true ->
      mode = utc \/ regularZone tz ->
      getDaysBetweenByMode (makeTime tz mode) s s = Ok (Some 1)
      /\ (mode = local -> getDaysBetween tz s s = Ok (Some 1)))
  /\
  (Civil.addDays 2 (2025, 1, 1) = (2025, 1, 3)
   /\ getDaysBetween newYork2025 "2025-01-01" "2025-01-03" = Ok (Some 3)
   /\ (forall mode,
         getDaysBetweenByMode (makeTime newYork2025 mode) "2025-01-01" "2025-01-03"
         = Ok (Some 3)))
  /\
  (Civil.addDays 2 (2025, 3, 8) = (2025, 3, 10)
   /\ getDaysBetweenByMode (makeTime newYork2025 local) "2025-03-08" "2025-03-10"
      = Ok (Some 2)
   /\ getDaysBetween newYork2025 "2025-03-08" "2025-03-10" = Ok (Some 3)
   /\ getDaysBetweenByMode (makeTime newYork2025 utc) "2025-03-08" "2025-03-10"
      = Ok (Some 3)
   /\ Civil.addDays 2 (2025, 11, 1) = (2025, 11, 3)
   /\ getDaysBetween newYork2025 "2025-11-01" "2025-11-03" = Ok (Some 4)
   /\ getDaysBetweenByMode (makeTime newYork2025 local) "2025-11-01" "2025-11-03"
      = Ok (Some 3)).
Proof.
  assert (G : forall (tz : TimeZone) (mode : TimeMode) (s e : string)
          (cs : Civil.date) (n : nat),
      Civil.read s = Some cs -> Civil.fourDigitYear cs = true ->
      Civil.read e = Some (Civil.addDays n cs) ->
      mode = utc \/
      (regularZone tz /\
       offsetAtLocal tz (Civil.dayNumber cs * ES.msPerDay)
       = offsetAtLocal tz (Civil.dayNumber (Civil.addDays n cs) * ES.msPerDay)) ->
      getDaysBetweenByMode (makeTime tz mode) s e = Ok (Some (Z.of_nat n + 1))
      /\ (mode = local -> getDaysBetween tz s e = Ok (Some (Z.of_nat n + 1)))).
  { intros tz mode s e cs n Hs Fs He M.
    destruct (fourDigitYear_inv cs Fs) as [Vs Ys].
    destruct (addDays_spec n cs Vs) as [Ve Ee].
    pose proof (year_addDays_mono cs 0 n Vs ltac:(lia)) as Ye.
    cbn [Civil.addDays] in Ye.
    replace (Z.of_nat n + 1)
      with (Civil.dayNumber (Civil.addDays n cs) - Civil.dayNumber cs + 1) by lia.
    destruct mode.
    - destruct M as [M|[R O]]; [discriminate M|]. split.
      + apply (getDaysBetweenByMode_same_offset tz R); try assumption; lia.
      + intros _. apply (getDaysBetween_same_offset tz R); try assumption; lia.
    - split; [|discriminate].
      apply getDaysBetweenByMode_utc_exact; try assumption; lia. }
  split; [exact G|]. split; [|split].
  - intros tz mode s c H F M.
    apply (G tz mode s s c 0%nat H F H).
    destruct M as [M|R]; [left; exact M|right; split; [exact R|reflexivity]].
  - split; [reflexivity|]. split; [vm_compute; reflexivity|].
    intros []; vm_compute; reflexivity.
  - repeat split; vm_compute; reflexivity.
Qed.

(** C4, where it holds: New York, 2025-12-01 to 2025-12-24, both
    midnights on standard time; and 2025-03-09 to itself. *)
Lemma C4_days_between_witness :
  (Civil.read "2025-12-01" = Some (2025, 12, 1) /\
   Civil.fourDigitYear (2025, 12, 1) = true /\
   Civil.read "2025-12-24" = Some (Civil.addDays 23 (2025, 12, 1)) /\
   (local = utc \/
    (regularZone newYork2025 /\
     offsetAtLocal newYork2025 (Civil.dayNumber (2025, 12, 1) * ES.msPerDay)
     = offsetAtLocal newYork2025
         (Civil.dayNumber (Civil.addDays 23 (2025, 12, 1)) * ES.msPerDay))) /\
   getDaysBetweenByMode (makeTime newYork2025 local) "2025-12-01" "2025-12-24"
   = Ok (Some 24)
   /\ (local = local ->
       getDaysBetween newYork2025 "2025-12-01" "2025-12-24" = Ok (Some 24)))
  /\
  (Civil.read "2025-03-09" = Some (2025, 3, 9) /\
   Civil.fourDigitYear (2025, 3, 9) = true /\
   (local = utc \/ regularZone newYork2025) /\
   getDaysBetweenByMode (makeTime newYork2025 local) "2025-03-09" "2025-03-09"
   = Ok (Some 1)
   /\ (local = local ->
       getDaysBetween newYork2025 "2025-03-09" "2025-03-09" = Ok (Some 1))).
Proof.
  assert (H4 : local = utc \/
   (regularZone newYork2025 /\
    offsetAtLocal newYork2025 (Civil.dayNumber (2025, 12, 1) * ES.msPerDay)
    = offsetAtLocal newYork2025
        (Civil.dayNumber (Civil.addDays 23 (2025, 12, 1)) * ES.msPerDay)))
    by (right; split; [exact newYork2025_regular|reflexivity]).
  assert (H5 : local = utc \/ regularZone newYork2025)
    by (right; exact newYork2025_regular).
  split.
  - do 3 (split; [reflexivity|]). split; [exact H4|].
    exact (proj1 C4_days_between_across_dst newYork2025 local
             "2025-12-01" "2025-12-24" (2025, 12, 1) 23%nat
             eq_refl eq_refl eq_refl H4).
  - do 2 (split; [reflexivity|]). split; [exact H5|].
    exact (proj1 (proj2 C4_days_between_across_dst) newYork2025 local
             "2025-03-09" (2025, 3, 9) eq_refl eq_refl H5).
Defined.

(** C6.  Where the claim holds: for a valid date text whose year is
    1000 to 9999, parsing and formatting in either mode gives the text
    back (in local mode: in a host zone in which every local midnight
    exists).  Where the code breaks it: "0999-12-31" is a valid date
    text, accepted by [parseYMDStrict], and comes back as "999-12-31" in
    both modes; "0050-01-01" comes back as "1950-01-01". *)
Theorem C6_roundtrip_fails_below_year_1000 :
  (forall (tz : TimeZone) (mode : TimeMode) (s : string) (c : Civil.date),
      mode = utc \/ regularZone tz ->
      Civil.read s = Some c -> Civil.fourDigitYear c = true ->
      exists d, parseYMD (makeTime tz mode) s = Ok d
                /\ ymd (makeTime tz mode) d = s)
  /\
  (Civil.read "0999-12-31" = Some (999, 12, 31)
   /\ Civil.valid (999, 12, 31) = true
   /\ (exists d, parseYMDStrict newYork2025 "0999-12-31" = Some d)
   /\ (do d <- parseYMDLocal newYork2025 "0999-12-31"; Ok (ymdLocal newYork2025 d))
      = Ok "999-12-31"
   /\ (do d <- parseYMDUTC "0999-12-31"; Ok (ymdUTC d)) = Ok "999-12-31"
   /\ (do d <- parseYMDLocal newYork2025 "0050-01-01"; Ok (ymdLocal newYork2025 d))
      = Ok "1950-01-01"
   /\ (do d <- parseYMDUTC "0050-01-01"; Ok (ymdUTC d)) = Ok "1950-01-01").
Proof.
  split; [exact roundtrip_mode|].
  split; [reflexivity|]. split; [reflexivity|].
  split; [eexists; vm_compute; reflexivity|].
  repeat split; vm_compute; reflexivity.
Qed.

(** C6, where it holds: "2024-02-29" in New York, local mode. *)
Lemma C6_roundtrip_witness :
  (local = utc \/ regularZone newYork2025) /\
  Civil.read "2024-02-29" = Some (2024, 2, 29) /\
  Civil.fourDigitYear (2024, 2, 29) = true /\
  exists d, parseYMD (makeTime newYork2025 local) "2024-02-29" = Ok d
            /\ ymd (makeTime newYork2025 local) d = "2024-02-29".
Proof.
  assert (H1 : local = utc \/ regularZone newYork2025)
    by (right; exact newYork2025_regular).
  split; [exact H1|]. split; [reflexivity|]. split; [reflexivity|].
  exact (proj1 C6_roundtrip_fails_below_year_1000 newYork2025 local
           "2024-02-29" (2024, 2, 29) H1 eq_refl eq_refl).
Defined.

(** C10.  Where the claim holds: with the same UTC offset at the local
    midnights of the start date and of the queried date (valid dates,
    four-digit years), [getTaskForDate] returns [tasks[i]] for the date
    [i] days after the start when [i] is below the number of tasks, and
    [undefined] for a later date and for a date before the start; it
    never wraps around.  Where the code breaks it: in New York, with the
    start date 2025-03-08 and two tasks, the date 2025-03-10 lies two
    days after the start, yet [getTaskForDate] returns the second task;
    in the zone of offset 0 it returns [undefined]. *)
Theorem C10_task_for_date_across_dst :
  (forall (T : Type) (tz : TimeZone) (ts : list T) (s e d : string)
          (cs : Civil.date) (i : nat) (tm : option TimeMode),
      regularZone tz ->
      Civil.read s = Some cs -> Civil.fourDigitYear cs = true ->
      Civil.read d = Some (Civil.addDays i cs) ->
      offsetAtLocal tz (Civil.dayNumber cs * ES.msPerDay)
      = offsetAtLocal tz (Civil.dayNumber (Civil.addDays i cs) * ES.msPerDay) ->
      getTaskForDateLocal tz (mkCalendarData ts) (mkCalendarConfig s e tm) d
      = Ok (nth_error ts i))
  /\
  (forall (T : Type) (tz : TimeZone) (ts : list T) (s e d : string)
          (cs cd : Civil.date) (k : nat) (tm : option TimeMode),
      regularZone tz ->
      Civil.read s = Some cs -> Civil.fourDigitYear cs = true ->
      Civil.read d = Some cd -> Civil.fourDigitYear cd = true ->
      Civil.addDays (S k) cd = cs ->
      offsetAtLocal tz (Civil.dayNumber cs * ES.msPerDay)
      = offsetAtLocal tz (Civil.dayNumber cd * ES.msPerDay) ->
      getTaskForDateLocal tz (mkCalendarData ts) (mkCalendarConfig s e tm) d
      = Ok None)
  /\
  (forall (T : Type) (t0 t1 : T),
      Civil.addDays 2 (2025, 3, 8) = (2025, 3, 10)
      /\ getTaskForDateLocal newYork2025 (mkCalendarData [t0; t1])
           (mkCalendarConfig "2025-03-08" "2025-03-31" None) "2025-03-10"
         = Ok (Some t1)
      /\ getTaskForDateLocal (fixedZone 0) (mkCalendarData [t0; t1])
           (mkCalendarConfig "2025-03-08" "2025-03-31" None) "2025-03-10"
         = Ok None).
Proof.
  split; [|split].
  - intros T tz ts s e d cs i tm R Hs Fs Hd O.
    destruct (fourDigitYear_inv cs Fs) as [Vs Ys].
    destruct (addDays_spec i cs Vs) as [Vd Ed].
    pose proof (year_addDays_mono cs 0 i Vs ltac:(lia)) as Yd.
    cbn [Civil.addDays] in Yd.
    unfold getTaskForDateLocal. cbn [tasks].
    rewrite (GridFacts.getTaskForDate_same_offset tz R ts s d cs _ tm e
               Hs Vs ltac:(lia) Hd Vd ltac:(lia) O).
    cbv zeta. rewrite Ed.
    replace (Civil.dayNumber cs + Z.of_nat i - Civil.dayNumber cs)
      with (Z.of_nat i) by lia.
    rewrite Nat2Z.id.
    destruct ((0 <=? Z.of_nat i) && (Z.of_nat i <? Z.of_nat (List.length ts))) eqn:B;
      [reflexivity|].
    apply andb_false_iff in B. destruct B as [B|B].
    + apply Z.leb_gt in B. lia.
    + apply Z.ltb_ge in B. symmetry. f_equal. apply nth_error_None. lia.
  - intros T tz ts s e d cs cd k tm R Hs Fs Hd Fd A O.
    destruct (fourDigitYear_inv cs Fs) as [Vs Ys].
    destruct (fourDigitYear_inv cd Fd) as [Vd Yd].
    destruct (addDays_spec (S k) cd Vd) as [_ Ek]. rewrite A in Ek.
    unfold getTaskForDateLocal. cbn [tasks].
    rewrite (GridFacts.getTaskForDate_same_offset tz R ts s d cs cd tm e
               Hs Vs ltac:(lia) Hd Vd ltac:(lia) O).
    cbv zeta.
    replace (0 <=? Civil.dayNumber cd - Civil.dayNumber cs) with false
      by (symmetry; apply Z.leb_gt; lia).
    reflexivity.
  - intros T t0 t1. repeat split; vm_compute; reflexivity.
Qed.

(** C10, where it holds: New York in December, three tasks: the day
    after the last task, and the day before the start. *)
Lemma C10_task_for_date_witness :
  (regularZone newYork2025 /\
   Civil.read "2025-12-01" = Some (2025, 12, 1) /\
   Civil.fourDigitYear (2025, 12, 1) = true /\
   Civil.read "2025-12-04" = Some (Civil.addDays 3 (2025, 12, 1)) /\
   offsetAtLocal newYork2025 (Civil.dayNumber (2025, 12, 1) * ES.msPerDay)
   = offsetAtLocal newYork2025
       (Civil.dayNumber (Civil.addDays 3 (2025, 12, 1)) * ES.msPerDay) /\
   getTaskForDateLocal newYork2025 (mkCalendarData [10; 20; 30])
     (mkCalendarConfig "2025-12-01" "2025-12-24" None) "2025-12-04"
   = Ok None)
  /\
  (regularZone newYork2025 /\
   Civil.read "2025-12-01" = Some (2025, 12, 1) /\
   Civil.fourDigitYear (2025, 12, 1) = true /\
   Civil.read "2025-11-30" = Some (2025, 11, 30) /\
   Civil.fourDigitYear (2025, 11, 30) = true /\
   Civil.addDays 1 (2025, 11, 30) = (2025, 12, 1) /\
   offsetAtLocal newYork2025 (Civil.dayNumber (2025, 12, 1) * ES.msPerDay)
   = offsetAtLocal newYork2025 (Civil.dayNumber (2025, 11, 30) * ES.msPerDay) /\
   getTaskForDateLocal newYork2025 (mkCalendarData [10; 20; 30])
     (mkCalendarConfig "2025-12-01" "2025-12-24" None) "2025-11-30"
   = Ok None).
Proof.
  split.
  - repeat (split; [first [exact newYork2025_regular|reflexivity]|]).
    exact (proj1 C10_task_for_date_across_dst Z newYork2025 [10; 20; 30]
             "2025-12-01" "2025-12-24" "2025-12-04" (2025, 12, 1) 3%nat None
             newYork2025_regular eq_refl eq_refl eq_refl eq_refl).
  - repeat (split; [first [exact newYork2025_regular|reflexivity]|]).
    exact (proj1 (proj2 C10_task_for_date_across_dst) Z newYork2025 [10; 20; 30]
             "2025-12-01" "2025-12-24" "2025-11-30" (2025, 12, 1) (2025, 11, 30)
             0%nat None newYork2025_regular eq_refl eq_refl eq_refl eq_refl
             eq_refl eq_refl).
Defined.

(** ** The parsers *)







(** ** The strict parser *)

Lemma parseYMDStrict_read tz s y m d :
  Civil.read s = Some (y, m, d) ->
  parseYMDStrict tz s =
  if (y =? 0) || (m =? 0) || (d =? 0) then None
  else
    let date := JSDate.construct tz (ofZ y) (minus1 (ofZ m)) (ofZ d) in
    if getterNeq (JSDate.getFullYear tz date) (ofZ y)
       || getterNeq (JSDate.getMonth tz date) (minus1 (ofZ m))
       || getterNeq (JSDate.getDate tz date) (ofZ d)
    then None else Some date.
Proof.
  intros H. unfold parseYMDStrict. rewrite (splitNumbers_read s y m d H).
  cbn [List.length Nat.eqb negb existsb isNaN ofZ orb].
  change (Fin (inject_Z y)) with (ofZ y).
  change (Fin (inject_Z m)) with (ofZ m).
  change (Fin (inject_Z d)) with (ofZ d).
  rewrite !isFalsy_ofZ. reflexivity.
Qed.

(** Whatever the strict parser accepts is a valid date, and the date it
    returns shows exactly the fields of the text. *)
Lemma parseYMDStrict_sound tz s c dt :
  Civil.read s = Some c -> parseYMDStrict tz s = Some dt ->
  Civil.valid c = true /\
  exists t, dt = Some t /\ Civil.ofTime (LocalTime tz t) = c.
Proof.
  destruct c as [[y m] d]. intros H P.
  rewrite (parseYMDStrict_read tz s y m d H) in P.
  destruct ((y =? 0) || (m =? 0) || (d =? 0)); [discriminate P|].
  cbv zeta in P.
  destruct (JSDate.construct tz (ofZ y) (minus1 (ofZ m)) (ofZ d)) as [t|] eqn:C;
    [|discriminate P].
  cbn [JSDate.getFullYear JSDate.getMonth JSDate.getDate option_map] in P.
  rewrite !getterNeq_ofZ, getterNeq_minus1 in P.
  destruct (YearFromTime (LocalTime tz t) =? y) eqn:Ey; [|discriminate P].
  destruct (MonthFromTime (LocalTime tz t) =? m - 1) eqn:Em; [|discriminate P].
  destruct (DateFromTime (LocalTime tz t) =? d) eqn:Ed; [|discriminate P].
  cbn [negb orb] in P. injection P as <-.
  apply Z.eqb_eq in Ey, Em, Ed.
  assert (E : Civil.ofTime (LocalTime tz t) = (y, m, d)).
  { unfold Civil.ofTime. rewrite Ey, Em, Ed. f_equal. f_equal. lia. }
  split; [rewrite <- E; apply ofTime_valid|].
  exists t. split; [reflexivity|exact E].
Qed.

(** C8. For a text of the shape [\d{4}-\d{2}-\d{2}] that is not a
    calendar date (a day beyond the end of its month, a month beyond 12,
    a zero) the strict parser returns [null], whatever the host zone; so
    it does for "2025-11-31".  For an input of three numeric, non-zero
    parts whose constructed date shows the year, month and day of the
    input, it returns that constructed date; and a date it returns for a
    text of the shape shows exactly the year, month and day written. *)
Theorem C8_strict_parser_rejects_overflow :
  (forall (tz : TimeZone) (s : string) (c : Civil.date),
      Civil.read s = Some c -> Civil.valid c = false ->
      parseYMDStrict tz s = None)
  /\ (forall tz : TimeZone, parseYMDStrict tz "2025-11-31" = None)
  /\ (forall (tz : TimeZone) (s : string) (y m d : num),
        splitNumbers s = [y; m; d] ->
        existsb isNaN [y; m; d] = false ->
        isFalsy y || isFalsy m || isFalsy d = false ->
        let date := JSDate.construct tz y (minus1 m) d in
        getterNeq (JSDate.getFullYear tz date) y = false ->
        getterNeq (JSDate.getMonth tz date) (minus1 m) = false ->
        getterNeq (JSDate.getDate tz date) d = false ->
        parseYMDStrict tz s = Some date)
  /\ (forall (tz : TimeZone) (s : string) (c : Civil.date) (dt : Date),
        Civil.read s = Some c -> parseYMDStrict tz s = Some dt ->
        Civil.valid c = true /\
        exists t, dt = Some t /\ Civil.ofTime (LocalTime tz t) = c).
Proof.
  assert (A : forall (tz : TimeZone) (s : string) (c : Civil.date),
      Civil.read s = Some c -> Civil.valid c = false ->
      parseYMDStrict tz s = None).
  { intros tz s c H V. destruct (parseYMDStrict tz s) as [dt|] eqn:P;
      [|reflexivity].
    destruct (parseYMDStrict_sound tz s c dt H P) as [V' _]. congruence. }
  split; [exact A|]. split; [|split].
  - intros tz. apply (A tz "2025-11-31" (2025, 11, 31)); reflexivity.
  - intros tz s y m d S N F date Gy Gm Gd. unfold parseYMDStrict.
    rewrite S. cbn [List.length Nat.eqb negb orb]. rewrite N, F.
    fold date. rewrite Gy, Gm, Gd. reflexivity.
  - exact parseYMDStrict_sound.
Qed.

(** C8, at New York: "2025-02-29" is rejected and "2024-02-29" is
    returned as the local midnight of that day. *)
Lemma C8_strict_parser_witness :
  (Civil.read "2025-02-29" = Some (2025, 2, 29) /\
   Civil.valid (2025, 2, 29) = false /\
   parseYMDStrict newYork2025 "2025-02-29" = None)
  /\
  (splitNumbers "2024-02-29" = [ofZ 2024; ofZ 2; ofZ 29] /\
   parseYMDStrict newYork2025 "2024-02-29"
   = Some (JSDate.construct newYork2025 (ofZ 2024) (minus1 (ofZ 2)) (ofZ 29)))
  /\
  (Civil.read "2024-02-29" = Some (2024, 2, 29) /\
   parseYMDStrict newYork2025 "2024-02-29"
   = Some (Some (localMidnight newYork2025 (Civil.dayNumber (2024, 2, 29)))) /\
   Civil.valid (2024, 2, 29) = true /\
   exists t, Some (localMidnight newYork2025 (Civil.dayNumber (2024, 2, 29))) = Some t
             /\ Civil.ofTime (LocalTime newYork2025 t) = (2024, 2, 29)).
Proof.
  split; [|split].
  - split; [reflexivity|]. split; [reflexivity|].
    exact (proj1 C8_strict_parser_rejects_overflow newYork2025 "2025-02-29"
             (2025, 2, 29) eq_refl eq_refl).
  - split; [reflexivity|].
    exact (proj1 (proj2 (proj2 C8_strict_parser_rejects_overflow))
             newYork2025 "2024-02-29" (ofZ 2024) (ofZ 2) (ofZ 29)
             eq_refl eq_refl eq_refl eq_refl eq_refl eq_refl).
  - split; [reflexivity|]. split; [reflexivity|].
    exact (proj2 (proj2 (proj2 C8_strict_parser_rejects_overflow))
             newYork2025 "2024-02-29" (2024, 2, 29)
             (Some (localMidnight newYork2025 (Civil.dayNumber (2024, 2, 29))))
             eq_refl eq_refl).
Defined.

(* ================================================================== *)
(** * The weekday-alignment grid *)
(* ================================================================== *)

(** C9.  Where the claim holds, in a host zone in which every local
    midnight exists: [buildMonthDays] emits [gridOffset] placeholders for
    the weekday of the first of the month and then every day of the
    month in order, and a month group of [groupedDays] in local mode is
    turned into [gridOffset] placeholders for the weekday of its first
    day followed by its days in their order; placeholders carry no date;
    and a click on them emits nothing; a Wednesday with weeks starting
    on Monday gets 2.  Where the code
    breaks it: 2025-10-01 is a Wednesday, and in UTC mode on a host in
    New York [groupedDays] emits one placeholder for it (and files the
    day under September): it parses the date as a UTC midnight and reads
    weekday and month with the local getters. *)
Theorem C9_grid_offset_wrong_in_utc_mode :
  (forall (tz : TimeZone) (year mi fdow : Z),
      regularZone tz -> 100 <= year <= 9999 -> 0 <= mi <= 11 ->
      0 <= fdow <= 1 ->
      exists placeholders real,
        buildMonthDays tz year mi fdow = placeholders ++ real
        /\ Z.of_nat (List.length placeholders) = gridOffset (year, mi + 1, 1) fdow
        /\ forallb isPlaceholderCell placeholders = true
        /\ real = map (fun d =>
                         RealDay (Str.ZToString year ++ "-" ++ Civil.pad 2 (mi + 1)
                                  ++ "-" ++ Civil.pad 2 d)%string d
                                 (Str.ZToString year ++ "-" ++ Civil.pad 2 (mi + 1)
                                  ++ "-" ++ Civil.pad 2 d)%string)
                      (zrange 1 (Z.to_nat (Civil.daysIn year (mi + 1)))))
  /\
  (forall (T : Type) (tz : TimeZone) (label : Date -> string) (fdow : Z)
          (first : CalendarDay T) (rest : list (CalendarDay T)) (c : Civil.date),
      regularZone tz -> 0 <= fdow <= 1 ->
      Civil.read (date first) = Some c -> Civil.fourDigitYear c = true ->
      exists m placeholders,
        monthGrid tz label (makeTime tz local) true fdow (first :: rest)
        = Ok (m, placeholders ++ first :: rest)
        /\ Z.of_nat (List.length placeholders) = gridOffset c fdow
        /\ forallb (fun p => isPlaceholder p && String.eqb (date p) ""
                               && match dayClick p with None => true | Some _ => false end)
                   placeholders
           = true)
  /\
  (forall c : Civil.date, weekdayOf c = 3 -> gridOffset c 1 = 2)
  /\
  (forall (label : Date -> string),
     let d1 : CalendarDay unit :=
       mkCalendarDay (NumId 1) (Some 1) "2025-10-01"
                     false false false true false None in
     weekdayOf (2025, 10, 1) = 3
     /\ map isPlaceholderCell (firstn 3 (buildMonthDays newYork2025 2025 9 1))
        = [true; true; false]
     /\ groupedDays newYork2025 label local true 1 [d1]
        = Ok [(label (Some (localMidnight newYork2025 (Civil.dayNumber (2025, 10, 1)))),
               [placeholderDay (Some 2025) (Some 9) 0;
                placeholderDay (Some 2025) (Some 9) 1; d1])]
     /\ groupedDays newYork2025 label utc true 1 [d1]
        = Ok [(label (Some (Civil.dayNumber (2025, 10, 1) * ES.msPerDay)),
               [placeholderDay (Some 2025) (Some 8) 0; d1])]).
Proof.
  assert (RemMod : forall c fdow, 0 <= fdow <= 1 ->
            Z.rem (weekdayOf c - fdow + 7) 7 = gridOffset c fdow).
  { intros c fdow Hf. pose proof (GridFacts.weekdayOf_range c).
    unfold gridOffset. apply Z.rem_mod_nonneg; lia. }
  assert (Len : forall (A : Type) (f : Z -> A) k, 0 <= k ->
            Z.of_nat (List.length (map f (upTo (Some k)))) = k).
  { intros A f k Hk. unfold upTo. rewrite !length_map, length_seq. lia. }
  split; [|split; [|split]].
  - intros tz year mi fdow R Hy Hm Hf.
    rewrite (GridFacts.buildMonthDays_regular tz R year mi fdow Hy Hm).
    rewrite (RemMod _ fdow Hf).
    eexists. eexists. split; [reflexivity|]. split; [|split].
    + apply Len. unfold gridOffset. apply Z.mod_pos_bound. lia.
    + rewrite forallb_forall. intros x Hx. apply in_map_iff in Hx.
      destruct Hx as (i & <- & _). reflexivity.
    + unfold oneTo, zrange. rewrite <- seq_shift, !map_map.
      apply map_ext. intros k. f_equal; repeat f_equal; lia.
  - intros T tz label fdow first rest c R Hf H F.
    rewrite (GridFacts.monthGrid_local tz R label fdow first rest c H F).
    rewrite (RemMod _ fdow Hf).
    eexists. eexists. split; [reflexivity|]. split.
    + apply Len. unfold gridOffset. apply Z.mod_pos_bound. lia.
    + rewrite forallb_forall. intros x Hx. apply in_map_iff in Hx.
      destruct Hx as (i & <- & _). reflexivity.
  - intros c W. unfold gridOffset. rewrite W. reflexivity.
  - intros label d1. repeat split; vm_compute; reflexivity.
Qed.

(** C9, where it holds: October 2025 in New York, weeks starting on
    Monday, for [buildMonthDays] and for a month group in local mode. *)
Lemma C9_grid_offset_witness :
  (regularZone newYork2025 /\ 100 <= 2025 <= 9999 /\ 0 <= 9 <= 11 /\
   0 <= 1 <= 1 /\
   exists placeholders real,
     buildMonthDays newYork2025 2025 9 1 = placeholders ++ real
     /\ Z.of_nat (List.length placeholders) = gridOffset (2025, 9 + 1, 1) 1
     /\ forallb isPlaceholderCell placeholders = true
     /\ real = map (fun d =>
                      RealDay (Str.ZToString 2025 ++ "-" ++ Civil.pad 2 (9 + 1)
                               ++ "-" ++ Civil.pad 2 d)%string d
                              (Str.ZToString 2025 ++ "-" ++ Civil.pad 2 (9 + 1)
                               ++ "-" ++ Civil.pad 2 d)%string)
                   (zrange 1 (Z.to_nat (Civil.daysIn 2025 (9 + 1)))))
  /\
  (let first : CalendarDay unit :=
     mkCalendarDay (NumId 1) (Some 1) "2025-10-01"
                   false false false true false None in
   regularZone newYork2025 /\ 0 <= 1 <= 1 /\
   Civil.read (date first) = Some (2025, 10, 1) /\
   Civil.fourDigitYear (2025, 10, 1) = true /\
   exists m placeholders,
     monthGrid newYork2025 (fun _ => "October") (makeTime newYork2025 local)
               true 1 (first :: [])
     = Ok (m, placeholders ++ first :: [])
     /\ Z.of_nat (List.length placeholders) = gridOffset (2025, 10, 1) 1
     /\ forallb (fun p => isPlaceholder p && String.eqb (date p) ""
                            && match dayClick p with None => true | Some _ => false end)
                placeholders
        = true)
  /\
  (weekdayOf (2025, 10, 1) = 3 /\ gridOffset (2025, 10, 1) 1 = 2).
Proof.
  assert (H1 : regularZone newYork2025) by exact newYork2025_regular.
  assert (H2 : 100 <= 2025 <= 9999) by lia.
  assert (H3 : 0 <= 9 <= 11) by lia.
  assert (H4 : 0 <= 1 <= 1) by lia.
  split; [|split].
  - repeat (split; [first [exact H1|exact H2|exact H3|exact H4]|]).
    exact (proj1 C9_grid_offset_wrong_in_utc_mode newYork2025 2025 9 1
             H1 H2 H3 H4).
  - intros first.
    repeat (split; [first [exact H1|exact H4|reflexivity]|]).
    exact (proj1 (proj2 C9_grid_offset_wrong_in_utc_mode) unit newYork2025
             (fun _ => "October") 1 first [] (2025, 10, 1)
             H1 H4 eq_refl eq_refl).
  - split; [reflexivity|].
    exact (proj1 (proj2 (proj2 C9_grid_offset_wrong_in_utc_mode))
             (2025, 10, 1) eq_refl).
Defined.

(* ================================================================== *)
(** * Further facts on dates and texts *)
(* ================================================================== *)

Module MoreFacts.
Import ES ESFacts CivilFacts StrFacts NumFacts DateFacts RangeFacts
       GeneratorFacts UpdateFacts ListFacts ZoneFacts GridFacts.

Lemma digitChar_value a :
  0 <= a <= 9 ->
  Str.isDigit (Str.digitChar a) = true /\ Civil.digitValue (Str.digitChar a) = a.
Proof.
  intros H.
  assert (C : a = 0 \/ a = 1 \/ a = 2 \/ a = 3 \/ a = 4 \/ a = 5 \/ a = 6
              \/ a = 7 \/ a = 8 \/ a = 9) by lia.
  repeat (destruct C as [C|C]); subst a; split; reflexivity.
Qed.

Lemma read_ymdText a b c d e f g h :
  0 <= a <= 9 -> 0 <= b <= 9 -> 0 <= c <= 9 -> 0 <= d <= 9 ->
  0 <= e <= 9 -> 0 <= f <= 9 -> 0 <= g <= 9 -> 0 <= h <= 9 ->
  Civil.read (ymdText a b c d e f g h)
  = Some (1000 * a + 100 * b + 10 * c + d, 10 * e + f, 10 * g + h).
Proof.
  intros Ha Hb Hc Hd He Hf Hg Hh.
  destruct (digitChar_value a Ha) as [Ia Va], (digitChar_value b Hb) as [Ib Vb],
    (digitChar_value c Hc) as [Ic Vc], (digitChar_value d Hd) as [Id Vd],
    (digitChar_value e He) as [Ie Ve], (digitChar_value f Hf) as [If_ Vf],
    (digitChar_value g Hg) as [Ig Vg], (digitChar_value h Hh) as [Ih Vh].
  unfold Civil.read, ymdText, str4, str2.
  cbn [String.append list_ascii_of_string forallb].
  rewrite Ia, Ib, Ic, Id, Ie, If_, Ig, Ih, Va, Vb, Vc, Vd, Ve, Vf, Vg, Vh.
  reflexivity.
Qed.

(** The text of a date reads back as the date. *)
Lemma format_read c :
  0 <= Civil.year c <= 9999 -> 0 <= Civil.month c <= 99 ->
  0 <= Civil.dayOfMonth c <= 99 ->
  Civil.read (Civil.format c) = Some c.
Proof.
  destruct c as [[y m] d]. unfold Civil.year, Civil.month, Civil.dayOfMonth.
  cbn [fst snd]. intros Hy Hm Hd.
  destruct (digits_of_4 y Hy) as (a & b & c & d' & Ha & Hb & Hc & Hd' & ->).
  destruct (digits_of_2 m Hm) as (e & f & He & Hf & ->).
  destruct (digits_of_2 d Hd) as (g & h & Hg & Hh & ->).
  rewrite format_digits by assumption. apply read_ymdText; assumption.
Qed.

Lemma valid_fields c :
  Civil.valid c = true ->
  1 <= Civil.month c <= 12 /\ 1 <= Civil.dayOfMonth c <= 31.
Proof.
  destruct c as [[y m] d]. intros V. apply valid_inv in V.
  pose proof (daysIn_range y m). unfold Civil.month, Civil.dayOfMonth.
  cbn [fst snd]. lia.
Qed.

Lemma format_read_valid c :
  Civil.valid c = true -> 0 <= Civil.year c <= 9999 ->
  Civil.read (Civil.format c) = Some c.
Proof.
  intros V Y. pose proof (valid_fields c V). apply format_read; lia.
Qed.

(** On valid dates the order of dates is the order of day numbers. *)
Lemma leb_dayNumber_iff c1 c2 :
  Civil.valid c1 = true -> Civil.valid c2 = true ->
  Civil.leb c1 c2 = (Civil.dayNumber c1 <=? Civil.dayNumber c2).
Proof.
  intros V1 V2. destruct (Civil.leb c1 c2) eqn:L.
  - symmetry. apply Z.leb_le. apply leb_dayNumber; assumption.
  - symmetry. apply Z.leb_gt. apply leb_false_dayNumber; assumption.
Qed.

Section Regular.

Variable tz : TimeZone.
Hypothesis R : regularZone tz.

(** Today's date, as [ymdLocal(new Date())] prints it, parses to the
    local midnight of today. *)
Lemma parse_today now :
  1000 <= YearFromTime (LocalTime tz now) <= 9999 ->
  ymdLocal tz (Some now) = Civil.format (Civil.ofTime (LocalTime tz now))
  /\ parseYMDLocal tz (ymdLocal tz (Some now))
     = Ok (Some (localMidnight tz (Day (LocalTime tz now)))).
Proof.
  intros Y. rewrite (ymdLocal_ofTime tz now Y). split; [reflexivity|].
  pose proof (ofTime_valid (LocalTime tz now)) as V.
  rewrite (parseYMDLocal_valid tz R _ (Civil.ofTime (LocalTime tz now))).
  - rewrite dayNumber_ofTime. reflexivity.
  - apply format_read_valid; [exact V|]. unfold Civil.ofTime, Civil.year.
    cbn [fst]. lia.
  - exact V.
  - unfold Civil.ofTime, Civil.year. cbn [fst]. lia.
Qed.

Lemma day_now_clip now :
  1000 <= YearFromTime (LocalTime tz now) <= 9999 ->
  -99999999 <= Day (LocalTime tz now) <= 99999999.
Proof.
  intros Y. rewrite <- dayNumber_ofTime.
  pose proof (dayNumber_bounds _ (ofTime_valid (LocalTime tz now))
                ltac:(unfold Civil.year, Civil.ofTime; cbn [fst]; lia)) as B.
  lia.
Qed.

Lemma localMidnight_lt n1 n2 :
  (localMidnight tz n1 <? localMidnight tz n2) = (n1 <? n2).
Proof.
  rewrite !Z.ltb_antisym. rewrite (localMidnight_le tz R). reflexivity.
Qed.

Lemma isPastDate_regular now s c :
  Civil.read s = Some c -> Civil.fourDigitYear c = true ->
  1000 <= YearFromTime (LocalTime tz now) <= 9999 ->
  isPastDate tz now s = Ok (Civil.dayNumber c <? Day (LocalTime tz now)).
Proof.
  intros H F Y. destruct (fourDigitYear_inv c F) as [V Yc].
  unfold isPastDate.
  rewrite (parseYMDLocal_valid tz R s c H V) by lia.
  destruct (parse_today now Y) as [_ P]. rewrite P. cbn [bindR].
  rewrite !(setHours0_localMidnight tz R)
    by (first [eapply read_dayNumber_clip; eassumption | apply day_now_clip; exact Y]).
  cbn [JSDate.getTime ltN]. rewrite localMidnight_lt. reflexivity.
Qed.

Lemma isFutureDate_regular now s c :
  Civil.read s = Some c -> Civil.fourDigitYear c = true ->
  1000 <= YearFromTime (LocalTime tz now) <= 9999 ->
  isFutureDate tz now s = Ok (Day (LocalTime tz now) <? Civil.dayNumber c).
Proof.
  intros H F Y. destruct (fourDigitYear_inv c F) as [V Yc].
  unfold isFutureDate.
  rewrite (parseYMDLocal_valid tz R s c H V) by lia.
  destruct (parse_today now Y) as [_ P]. rewrite P. cbn [bindR].
  rewrite !(setHours0_localMidnight tz R)
    by (first [eapply read_dayNumber_clip; eassumption | apply day_now_clip; exact Y]).
  cbn [JSDate.getTime ltN]. rewrite localMidnight_lt. reflexivity.
Qed.

Lemma isToday_regular now s c :
  Civil.read s = Some c -> Civil.valid c = true ->
  1000 <= YearFromTime (LocalTime tz now) <= 9999 ->
  isToday tz now s = (Civil.dayNumber c =? Day (LocalTime tz now)).
Proof.
  intros H V Y. unfold isToday. destruct (parse_today now Y) as [E _].
  rewrite E. rewrite (read_format s c H).
  pose proof (ofTime_valid (LocalTime tz now)) as Vt.
  destruct (Z.eqb_spec (Civil.dayNumber c) (Day (LocalTime tz now))) as [D|D].
  - rewrite <- dayNumber_ofTime in D.
    apply (dayNumber_inj _ _ V Vt) in D. rewrite D. apply String.eqb_refl.
  - apply String.eqb_neq. intros Q. apply D.
    assert (Q' : Civil.read (Civil.format c)
                 = Civil.read (Civil.format (Civil.ofTime (LocalTime tz now))))
      by (rewrite Q; reflexivity).
    rewrite <- (read_format s c H), H in Q'.
    rewrite format_read_valid in Q'; [|exact Vt|].
    + injection Q' as ->. apply dayNumber_ofTime.
    + unfold Civil.ofTime, Civil.year. cbn [fst]. lia.
Qed.

End Regular.

End MoreFacts.

Import MoreFacts GridFacts.

(* ================================================================== *)
(** * Overflowing dates, the strict parser and month ends *)
(* ================================================================== *)

Module ParserFacts.
Import ES ESFacts CivilFacts StrFacts NumFacts DateFacts RangeFacts
       GeneratorFacts UpdateFacts ListFacts ZoneFacts GridFacts MoreFacts.

Lemma YearFromDay_lower d y : DayFromYear y <= d -> y <= YearFromDay d.
Proof.
  intros H. pose proof (YearFromDay_spec d) as S.
  destruct (Z.le_gt_cases y (YearFromDay d)) as [L|G]; [exact L|].
  pose proof (DayFromYear_le (YearFromDay d + 1) y ltac:(lia)). lia.
Qed.

Lemma YearFromDay_upper d y : d < DayFromYear (y + 1) -> YearFromDay d <= y.
Proof.
  intros H. pose proof (YearFromDay_spec d) as S.
  destruct (Z.le_gt_cases (YearFromDay d) y) as [L|G]; [exact L|].
  pose proof (DayFromYear_le (y + 1) (YearFromDay d) ltac:(lia)). lia.
Qed.

Lemma daysInMonth_pos y k : 0 <= k <= 11 -> 28 <= daysInMonth y k.
Proof.
  intros H. pose proof (daysIn_ES y (k + 1) ltac:(lia)) as E.
  replace (k + 1 - 1) with k in E by lia. rewrite <- E.
  pose proof (daysIn_range y (k + 1)). lia.
Qed.

(** [MakeDay] counts days from the first of the month. *)
Lemma MakeDay_first y k d : MakeDay y k d = MakeDay y k 1 + (d - 1).
Proof. unfold MakeDay. lia. Qed.

Lemma dayNumber_first y m d :
  Civil.dayNumber (y, m, d) = Civil.dayNumber (y, m, 1) + (d - 1).
Proof. unfold Civil.dayNumber. apply MakeDay_first. Qed.

Lemma valid_first y m : 1 <= m <= 12 -> Civil.valid (y, m, 1) = true.
Proof.
  intros H. apply valid_intro; [lia|]. pose proof (daysIn_range y m). lia.
Qed.

(** The first of a month and the 98 days after it lie in the year of the
    month or in the next one. *)
Lemma year_after_first y m n :
  1 <= m <= 12 -> (n <= 98)%nat ->
  y <= Civil.year (Civil.addDays n (y, m, 1)) <= y + 1.
Proof.
  intros Hm Hn. pose proof (valid_first y m Hm) as V.
  destruct (addDays_spec n (y, m, 1) V) as [Vn En].
  rewrite <- (year_ofTime_midnight _ Vn). rewrite En.
  rewrite dayNumber_eq by lia.
  pose proof (monthStart_nonneg y (m - 1) ltac:(lia)) as S0.
  pose proof (year_end_lt y (m - 1) 1 ltac:(lia)) as S1.
  pose proof (daysInMonth_pos y (m - 1) ltac:(lia)) as D1.
  specialize (S1 ltac:(lia)).
  pose proof (DayFromYear_succ y) as Y1. pose proof (DayFromYear_succ (y + 1)) as Y2.
  pose proof (DaysInYear_cases y). pose proof (DaysInYear_cases (y + 1)).
  split.
  - apply YearFromDay_lower. lia.
  - apply YearFromDay_upper. replace (y + 1 + 1) with (y + 1 + 1) by lia. lia.
Qed.

Section Regular.

Variable tz : TimeZone.
Hypothesis R : regularZone tz.

(** What the non-strict parser makes of a day number beyond the month. *)
Lemma parseYMDLocal_overflow s y m d :
  Civil.read s = Some (y, m, d) -> 100 <= y -> 1 <= m <= 12 -> 1 <= d ->
  parseYMDLocal tz s
  = Ok (Some (localMidnight tz
                (Civil.dayNumber (Civil.addDays (Z.to_nat (d - 1)) (y, m, 1))))).
Proof.
  intros H Hy Hm Hd. rewrite (parseYMDLocal_read tz s y m d H).
  replace ((0 <=? y) && (y <=? 99)) with false
    by (symmetry; apply andb_false_iff; right; apply Z.leb_gt; lia).
  pose proof (read_range s y m d H) as (Ry & _ & Rd).
  pose proof (valid_first y m Hm) as V.
  destruct (addDays_spec (Z.to_nat (d - 1)) (y, m, 1) V) as [Vn En].
  change (MakeDay y (m - 1) d) with (Civil.dayNumber (y, m, d)).
  rewrite dayNumber_first.
  replace (Civil.dayNumber (y, m, 1) + (d - 1))
    with (Civil.dayNumber (Civil.addDays (Z.to_nat (d - 1)) (y, m, 1)))
    by (rewrite En; lia).
  f_equal. apply (localMidnight_clip tz R).
  pose proof (dayNumber_bounds (y, m, 1) V
                ltac:(unfold Civil.year; cbn [fst]; lia)). rewrite En. lia.
Qed.

(** The strict parser accepts a valid date from year 100 on. *)
Lemma parseYMDStrict_valid s c :
  Civil.read s = Some c -> Civil.valid c = true -> 100 <= Civil.year c ->
  parseYMDStrict tz s = Some (Some (localMidnight tz (Civil.dayNumber c))).
Proof.
  destruct c as [[y m] d]. unfold Civil.year. cbn [fst]. intros H V Hy.
  pose proof (read_range s y m d H) as (Ry & _ & _).
  rewrite (parseYMDStrict_read tz s y m d H).
  pose proof (valid_fields _ V) as [Fm Fd].
  unfold Civil.month, Civil.dayOfMonth in Fm, Fd. cbn [fst snd] in Fm, Fd.
  replace (y =? 0) with false by (symmetry; apply Z.eqb_neq; lia).
  replace (m =? 0) with false by (symmetry; apply Z.eqb_neq; lia).
  replace (d =? 0) with false by (symmetry; apply Z.eqb_neq; lia).
  cbn [orb]. cbv zeta.
  unfold JSDate.construct. rewrite makeLocalMidnight_ofZ.
  replace ((0 <=? y) && (y <=? 99)) with false
    by (symmetry; apply andb_false_iff; right; apply Z.leb_gt; lia).
  change (UTC tz (MakeDay y (m - 1) d * msPerDay))
    with (localMidnight tz (Civil.dayNumber (y, m, d))).
  rewrite (localMidnight_clip tz R)
    by (pose proof (dayNumber_bounds _ V ltac:(unfold Civil.year; cbn [fst]; lia));
        lia).
  assert (E : Civil.ofTime (LocalTime tz (localMidnight tz (Civil.dayNumber (y, m, d))))
              = (y, m, d)).
  { apply ofTime_dayNumber; [exact V|]. apply (Day_localMidnight tz R). }
  unfold Civil.ofTime in E. apply triple_inj in E. destruct E as (Ey & Em & Ed).
  cbn [JSDate.getFullYear JSDate.getMonth JSDate.getDate option_map].
  rewrite Ey, Ed. replace (MonthFromTime _) with (m - 1) by lia.
  rewrite !getterNeq_ofZ, getterNeq_minus1, !Z.eqb_refl. reflexivity.
Qed.

(** It rejects the years written 0000 to 0099. *)
Lemma parseYMDStrict_small_year s c :
  Civil.read s = Some c -> Civil.year c < 100 -> parseYMDStrict tz s = None.
Proof.
  destruct c as [[y m] d]. unfold Civil.year. cbn [fst]. intros H Hy.
  pose proof (read_range s y m d H) as (Ry & Rm & Rd).
  rewrite (parseYMDStrict_read tz s y m d H).
  destruct (Z.eqb_spec y 0) as [|Ny]; [reflexivity|].
  destruct (Z.eqb_spec m 0) as [|Nm]; [reflexivity|].
  destruct (Z.eqb_spec d 0) as [|Nd]; [reflexivity|].
  cbn [orb]. cbv zeta.
  unfold JSDate.construct. rewrite makeLocalMidnight_ofZ.
  replace ((0 <=? y) && (y <=? 99)) with true
    by (symmetry; apply andb_true_iff; split; apply Z.leb_le; lia).
  change (UTC tz (MakeDay (1900 + y) (m - 1) d * msPerDay))
    with (localMidnight tz (MakeDay (1900 + y) (m - 1) d)).
  assert (B : DayFromYear (1900 + y) <= MakeDay (1900 + y) (m - 1) d
              <= DayFromYear (1900 + y) + 4000).
  { unfold MakeDay.
    assert (Q : 0 <= (m - 1) / 12 <= 8) by (Z.div_mod_to_equations; lia).
    assert (K : 0 <= (m - 1) mod 12 <= 11) by (Z.div_mod_to_equations; lia).
    pose proof (monthStart_nonneg (1900 + y + (m - 1) / 12) ((m - 1) mod 12) K).
    pose proof (year_end_lt (1900 + y + (m - 1) / 12) ((m - 1) mod 12) 1 K) as E.
    pose proof (daysInMonth_pos (1900 + y + (m - 1) / 12) ((m - 1) mod 12) K) as D1.
    specialize (E ltac:(lia)).
    pose proof (DayFromYear_le (1900 + y) (1900 + y + (m - 1) / 12) ltac:(lia)).
    pose proof (DayFromYear_bounds (1900 + y)).
    pose proof (DayFromYear_bounds (1900 + y + (m - 1) / 12)).
    pose proof (DaysInYear_cases (1900 + y + (m - 1) / 12)).
    lia. }
  pose proof (DayFromYear_bounds (1900 + y)) as B0.
  rewrite (localMidnight_clip tz R) by lia.
  cbn [JSDate.getFullYear option_map]. rewrite getterNeq_ofZ.
  rewrite (LocalTime_localMidnight tz R). unfold YearFromTime.
  rewrite Day_midnight.
  pose proof (YearFromDay_lower _ (1900 + y) (proj1 B)).
  replace (YearFromDay (MakeDay (1900 + y) (m - 1) d) =? y) with false
    by (symmetry; apply Z.eqb_neq; lia).
  reflexivity.
Qed.

(** The last day of a month, as [new Date(y, m, 0).getDate()] finds it. *)
Lemma lastDay_regular y m :
  100 <= y <= 9999 -> 1 <= m <= 12 ->
  JSDate.getDate tz (JSDate.construct tz (ofZ y) (ofZ m) (ofZ 0))
  = Some (Civil.daysIn y m).
Proof.
  intros Hy Hm. unfold JSDate.construct.
  rewrite makeLocalMidnight_zero_based.
  replace ((0 <=? y) && (y <=? 99)) with false
    by (symmetry; apply andb_false_iff; right; apply Z.leb_gt; lia).
  pose proof (MakeDay_day_zero y (m - 1) ltac:(lia)) as Z0.
  replace (m - 1 + 1) with m in Z0 by lia. rewrite Z0.
  assert (V : Civil.valid (y, m, Civil.daysIn y m) = true).
  { apply valid_intro; [lia|]. pose proof (daysIn_range y m). lia. }
  change (UTC tz (Civil.dayNumber (y, m, Civil.daysIn y m) * msPerDay))
    with (localMidnight tz (Civil.dayNumber (y, m, Civil.daysIn y m))).
  rewrite (localMidnight_clip tz R)
    by (pose proof (dayNumber_bounds _ V ltac:(unfold Civil.year; cbn [fst]; lia));
        lia).
  apply (getDate_localMidnight_date tz R _ V).
Qed.

End Regular.

End ParserFacts.

(* ================================================================== *)
(** * Texts: tags, letter case *)
(* ================================================================== *)

Module TextFacts.

Lemma list_ascii_app a b :
  list_ascii_of_string (a ++ b) = list_ascii_of_string a ++ list_ascii_of_string b.
Proof.
  induction a as [|c a IH]; [reflexivity|]. cbn. rewrite IH. reflexivity.
Qed.

Lemma string_of_list_app a b :
  string_of_list_ascii (a ++ b)
  = (string_of_list_ascii a ++ string_of_list_ascii b)%string.
Proof.
  induction a as [|c a IH]; [reflexivity|]. cbn. rewrite IH. reflexivity.
Qed.

Lemma closesTag_iff l : closesTag l = true <-> In ">"%char l.
Proof.
  induction l as [|c r IH]; cbn [closesTag In].
  - split; [discriminate|tauto].
  - destruct (Ascii.eqb_spec c ">") as [->|N].
    + split; auto.
    + rewrite IH. split; [auto|]. intros [E|I]; [congruence|exact I].
Qed.

Lemma findTag_iff l :
  findTag l = true <->
  exists a b c, l = a ++ "<"%char :: b ++ ">"%char :: c.
Proof.
  induction l as [|x r IH]; cbn [findTag].
  - split; [discriminate|]. intros (a & b & c & E).
    destruct a; discriminate E.
  - rewrite orb_true_iff, andb_true_iff, IH, closesTag_iff. split.
    + intros [[E I]|(a & b & c & ->)].
      * apply Ascii.eqb_eq in E. subst x.
        apply in_split in I. destruct I as (b & c & ->).
        exists [], b, c. reflexivity.
      * exists (x :: a), b, c. reflexivity.
    + intros (a & b & c & E). destruct a as [|y a].
      * cbn [app] in E. injection E as -> ->. left.
        split; [reflexivity|]. apply in_or_app. right. left. reflexivity.
      * cbn [app] in E. injection E as -> ->. right. exists a, b, c. reflexivity.
Qed.

Lemma dropPrefix_app p k : dropPrefix p (p ++ k) = Some k.
Proof.
  induction p as [|c p IH]; [reflexivity|].
  cbn [String.append dropPrefix]. rewrite Ascii.eqb_refl. exact IH.
Qed.

Lemma stripPrefix_app p k : stripPrefix p (p ++ k) = k.
Proof. unfold stripPrefix. rewrite dropPrefix_app. reflexivity. Qed.

End TextFacts.

(* ================================================================== *)
(** * Warning once *)
(* ================================================================== *)

Module WarnFacts.

Lemma existsb_eqb_In k l : existsb (String.eqb k) l = true <-> In k l.
Proof.
  rewrite existsb_exists. split.
  - intros (x & I & E). apply String.eqb_eq in E. subst x. exact I.
  - intros I. exists k. split; [exact I|apply String.eqb_refl].
Qed.

Lemma warnOnce_known k m st :
  In k (warnedKeys st) -> warnOnce k m st = st.
Proof.
  intros I. unfold warnOnce.
  rewrite (proj2 (existsb_eqb_In k (warnedKeys st)) I). reflexivity.
Qed.

Lemma warnOnce_keys k m st x :
  In x (warnedKeys (warnOnce k m st)) <-> x = k \/ In x (warnedKeys st).
Proof.
  unfold warnOnce. destruct (existsb (String.eqb k) (warnedKeys st)) eqn:E.
  - apply existsb_eqb_In in E. split; [auto|]. intros [->|I]; assumption.
  - cbn [warnedKeys]. rewrite in_app_iff. cbn [In]. split.
    + intros [I|[<-|[]]]; auto.
    + intros [->|I]; auto.
Qed.

Lemma warnAll_keys calls st x :
  In x (warnedKeys (warnAll calls st))
  <-> In x (map fst calls) \/ In x (warnedKeys st).
Proof.
  revert st. induction calls as [|[k m] r IH]; intros st.
  - cbn. tauto.
  - cbn [warnAll fold_left map In fst snd].
    change (fold_left (fun s c => warnOnce (fst c) (snd c) s) r (warnOnce k m st))
      with (warnAll r (warnOnce k m st)).
    rewrite IH, warnOnce_keys. split; intros H; intuition auto.
Qed.

Lemma warnOnce_tidy k m st : tidy st -> tidy (warnOnce k m st).
Proof.
  intros [N L]. unfold warnOnce.
  destruct (existsb (String.eqb k) (warnedKeys st)) eqn:E; [split; assumption|].
  split; cbn [warnedKeys scheduledWarnings].
  - apply NoDup_app; [exact N|repeat constructor; intros []|].
    intros x I [E0|[]]. subst x.
    apply (proj2 (existsb_eqb_In k (warnedKeys st))) in I. congruence.
  - rewrite !length_app, L. reflexivity.
Qed.

Lemma warnAll_tidy calls st : tidy st -> tidy (warnAll calls st).
Proof.
  revert st. induction calls as [|[k m] r IH]; intros st T; [exact T|].
  cbn [warnAll fold_left fst snd]. apply IH. apply warnOnce_tidy. exact T.
Qed.

Lemma same_length_nodup (l1 l2 : list string) :
  NoDup l1 -> NoDup l2 -> (forall x, In x l1 <-> In x l2) ->
  List.length l1 = List.length l2.
Proof.
  intros N1 N2 E. apply Nat.le_antisymm.
  - apply NoDup_incl_length; [exact N1|]. intros x I. apply E. exact I.
  - apply NoDup_incl_length; [exact N2|]. intros x I. apply E. exact I.
Qed.

End WarnFacts.

(* ================================================================== *)
(** * Letter case of a region subtag *)
(* ================================================================== *)

Module CaseFacts.

Lemma allAscii_In c : In c allAscii.
Proof.
  unfold allAscii. apply in_map_iff. exists (nat_of_ascii c). split.
  - apply ascii_nat_embedding.
  - apply in_seq. pose proof (nat_ascii_bounded c). lia.
Qed.

Lemma caseTable :
  forallb (fun k => forallb (caseCheck k) allAscii) [85; 83; 67; 65; 80; 72] = true.
Proof. vm_compute. reflexivity. Qed.

Lemma unitsEqb_eq a b : unitsEqb a b = true <-> a = b.
Proof.
  unfold unitsEqb. destruct (list_eq_dec Z.eq_dec a b); split; congruence.
Qed.

Lemma upper_letter k c :
  In k [85; 83; 67; 65; 80; 72] ->
  (upperUnits c = [k] <-> asciiLower c = ascii_of_nat (Z.to_nat k + 32)).
Proof.
  intros I. pose proof caseTable as T. rewrite forallb_forall in T.
  specialize (T k I). rewrite forallb_forall in T.
  specialize (T c (allAscii_In c)). unfold caseCheck in T.
  apply Bool.eqb_prop in T. rewrite <- unitsEqb_eq, T. apply Ascii.eqb_eq.
Qed.

Lemma upperUnits_length c :
  (1 <= List.length (upperUnits c))%nat.
Proof.
  unfold upperUnits.
  repeat match goal with
         | |- context [if ?b then _ else _] => destruct b
         end; cbn; lia.
Qed.

(** A text upper-cases to two capital letters among those of US, CA and
    PH exactly when it is these two letters, in either case. *)
Lemma toUpperCase_pair r k1 k2 :
  In k1 [85; 83; 67; 65; 80; 72] -> In k2 [85; 83; 67; 65; 80; 72] ->
  k1 <> k2 ->
  (toUpperCase r = [k1; k2] <->
   lowerASCII r = String (ascii_of_nat (Z.to_nat k1 + 32))
                         (String (ascii_of_nat (Z.to_nat k2 + 32)) EmptyString)).
Proof.
  intros I1 I2 N. unfold toUpperCase.
  destruct r as [|c1 [|c2 [|c3 r]]]; cbn [list_ascii_of_string flat_map lowerASCII].
  - split; discriminate.
  - rewrite app_nil_r. split; [|discriminate].
    intros E. exfalso. unfold upperUnits in E.
    repeat match type of E with
           | context [if ?b then _ else _] => destruct b
           end; try discriminate E.
    injection E as <- <-. apply N. reflexivity.
  - rewrite app_nil_r. split.
    + intros E.
      pose proof (upperUnits_length c1) as L1.
      pose proof (upperUnits_length c2) as L2.
      assert (L : List.length (upperUnits c1 ++ upperUnits c2) = 2%nat)
        by (rewrite E; reflexivity).
      rewrite length_app in L.
      destruct (upperUnits c1) as [|a [|a' u1]] eqn:U1; cbn in L, L1; try lia.
      destruct (upperUnits c2) as [|b [|b' u2]] eqn:U2; cbn in L, L2; try lia.
      cbn [app] in E. injection E as -> ->.
      apply (upper_letter k1 c1 I1) in U1. apply (upper_letter k2 c2 I2) in U2.
      rewrite U1, U2. reflexivity.
    + intros E. injection E as E1 E2.
      apply (upper_letter k1 c1 I1) in E1. apply (upper_letter k2 c2 I2) in E2.
      rewrite E1, E2. reflexivity.
  - split; [|discriminate]. intros E. exfalso.
    pose proof (upperUnits_length c1). pose proof (upperUnits_length c2).
    pose proof (upperUnits_length c3).
    assert (L : List.length (upperUnits c1 ++ upperUnits c2 ++ upperUnits c3
                             ++ flat_map upperUnits (list_ascii_of_string r))
                = 2%nat) by (rewrite E; reflexivity).
    rewrite !length_app in L. lia.
Qed.

(** The regional fallback of [getFirstDayOfWeekFromLang]. *)
Lemma region_fallback lang :
  (if existsb
        (unitsEqb
           match option_map toUpperCase (nth_error (Str.split "-" lang) 1) with
           | Some u => u
           | None => codeUnits ""
           end)
        [codeUnits "US"; codeUnits "CA"; codeUnits "PH"]
   then 0 else 1) = 0
  <-> exists r, nth_error (Str.split "-" lang) 1 = Some r
                /\ In (lowerASCII r) ["us"; "ca"; "ph"].
Proof.
  change (codeUnits "US") with [85; 83]. change (codeUnits "CA") with [67; 65].
  change (codeUnits "PH") with [80; 72]. change (codeUnits "") with (@nil Z).
  destruct (nth_error (Str.split "-" lang) 1) as [r|]; cbn [option_map].
  - assert (Q : existsb (unitsEqb (toUpperCase r)) [[85; 83]; [67; 65]; [80; 72]]
                = true <-> In (lowerASCII r) ["us"; "ca"; "ph"]).
    { cbn [existsb In]. rewrite !orb_true_iff, !unitsEqb_eq.
      rewrite (toUpperCase_pair r 85 83), (toUpperCase_pair r 67 65),
        (toUpperCase_pair r 80 72) by (cbn; intuition lia).
      change (String (ascii_of_nat (Z.to_nat 85 + 32))
                (String (ascii_of_nat (Z.to_nat 83 + 32)) "")) with "us".
      change (String (ascii_of_nat (Z.to_nat 67 + 32))
                (String (ascii_of_nat (Z.to_nat 65 + 32)) "")) with "ca".
      change (String (ascii_of_nat (Z.to_nat 80 + 32))
                (String (ascii_of_nat (Z.to_nat 72 + 32)) "")) with "ph".
      split; intros H; intuition congruence. }
    destruct (existsb (unitsEqb (toUpperCase r)) [[85; 83]; [67; 65]; [80; 72]]).
    + split; [|reflexivity]. intros _. exists r. split; [reflexivity|].
      apply Q. reflexivity.
    + split; [discriminate|]. intros (r' & E & I). injection E as <-.
      apply Q in I. discriminate I.
  - cbn. split; [discriminate|]. intros (r & E & _). discriminate E.
Qed.

End CaseFacts.

(* ================================================================== *)
(** * The stored day list *)
(* ================================================================== *)

Module StoredFacts.
Import ES ESFacts CivilFacts StrFacts NumFacts DateFacts RangeFacts
       GeneratorFacts UpdateFacts ListFacts ZoneFacts GridFacts MoreFacts.

(** [updateCalendarDays] on a valid range: it returns normally and stores
    the expected records. *)
Lemma update_on_range {T : Type} tz now (ts : list T) s e cs ce tm (w : World T) :
  regularZone tz -> ts <> [] ->
  Civil.read s = Some cs -> Civil.fourDigitYear cs = true ->
  Civil.read e = Some ce -> Civil.fourDigitYear ce = true ->
  Civil.leb cs ce = true ->
  exists n w',
    Civil.addDays n cs = ce
    /\ (forall fuel, (n + 1 < fuel)%nat ->
          updateCalendarDays fuel tz now (mkCalendarData ts)
                             (mkCalendarConfig s e tm) w
          = Some (Ok tt, w'))
    /\ calendarDays w'
       = map (expectedDay tz (modeOf (mkCalendarConfig s e tm)) now ts cs)
             (seq 0 (S n)).
Proof.
  intros R NE Hs Fs He Fe L.
  destruct (fourDigitYear_inv cs Fs) as [Vs Ys].
  destruct (fourDigitYear_inv ce Fe) as [Ve Ye].
  destruct (addDays_complete cs ce Vs Ve L) as (n & A).
  exists n. subst ce.
  destruct (getDaysBetween_bounds tz R s e cs _ Hs Vs ltac:(lia) He Ve ltac:(lia))
    as (k & Gk & _).
  eexists. split; [reflexivity|]. split.
  - intros fuel Fu.
    exact (updateCalendarDays_spec tz now ts s e cs n tm w (Some k) fuel
             R NE Hs Fs He ltac:(lia) Gk Fu).
  - reflexivity.
Qed.

(** The instant at which dates are read in a mode. *)
Lemma isTodayFn_mode tz mode now s c :
  mode = utc \/ regularZone tz ->
  Civil.read s = Some c -> Civil.valid c = true ->
  1000 <= YearFromTime (match mode with utc => now | local => LocalTime tz now end)
       <= 9999 ->
  isTodayFn (makeTime tz mode) now s
  = (Civil.dayNumber c
     =? Day (match mode with utc => now | local => LocalTime tz now end)).
Proof.
  intros M H V Y. destruct mode.
  - destruct M as [M|R]; [discriminate M|].
    cbn [makeTime isTodayFn]. apply (isToday_regular tz R now s c H V Y).
  - cbn [makeTime isTodayFn]. rewrite isTodayUTC_local.
    rewrite (isToday_regular (fixedZone 0) zero_regular now s c H V);
      rewrite LocalTime_zero; [reflexivity|exact Y].
Qed.

Lemma filter_map_length {A B : Type} (f : A -> B) (p : B -> bool) l :
  List.length (filter p (map f l))
  = List.length (filter (fun a => p (f a)) l).
Proof.
  induction l as [|a l IH]; [reflexivity|]. cbn [map filter].
  destruct (p (f a)); cbn [List.length]; rewrite IH; reflexivity.
Qed.

(** Among [a], [a + 1], ..., [a + m - 1] the value [D] occurs once or
    not at all. *)
Lemma count_hits a D m :
  List.length (filter (fun i => a + Z.of_nat i =? D) (seq 0 m))
  = if (a <=? D) && (D <? a + Z.of_nat m) then 1%nat else 0%nat.
Proof.
  induction m as [|m IH].
  - cbn [seq filter List.length].
    destruct (Z.leb_spec a D), (Z.ltb_spec D (a + Z.of_nat 0)); cbn; lia.
  - rewrite seq_S, filter_app, length_app, IH. cbn [Nat.add filter].
    destruct (Z.eqb_spec (a + Z.of_nat m) D), (Z.leb_spec a D),
      (Z.ltb_spec D (a + Z.of_nat m)), (Z.ltb_spec D (a + Z.of_nat (S m)));
      cbn; lia.
Qed.

(** The dates of the expected records, by position. *)
Lemma expected_date {T : Type} tz mode now (ts : list T) cs i :
  date (expectedDay tz mode now ts cs i) = Civil.format (Civil.addDays i cs).
Proof. reflexivity. Qed.

Lemma expected_active {T : Type} tz mode now (ts : list T) cs i :
  mode = utc \/ regularZone tz ->
  Civil.valid cs = true -> 1000 <= Civil.year cs ->
  Civil.year (Civil.addDays i cs) <= 9999 ->
  1000 <= YearFromTime (match mode with utc => now | local => LocalTime tz now end)
       <= 9999 ->
  isActive (expectedDay tz mode now ts cs i)
  = (Civil.dayNumber cs + Z.of_nat i
     =? Day (match mode with utc => now | local => LocalTime tz now end)).
Proof.
  intros M V Lo Hi Y. cbn [expectedDay isActive].
  destruct (addDays_spec i cs V) as [Vi Ei].
  pose proof (year_addDays_range cs i i V Lo Hi ltac:(lia)) as Yi.
  rewrite (isTodayFn_mode tz mode now _ (Civil.addDays i cs) M); try assumption.
  - rewrite Ei. reflexivity.
  - apply format_read_valid; [exact Vi|lia].
Qed.

Lemma expected_today {T : Type} tz mode now (ts : list T) cs i :
  regularZone tz ->
  Civil.valid cs = true -> 1000 <= Civil.year cs ->
  Civil.year (Civil.addDays i cs) <= 9999 ->
  1000 <= YearFromTime (LocalTime tz now) <= 9999 ->
  isToday_ (expectedDay tz mode now ts cs i)
  = (Civil.dayNumber cs + Z.of_nat i =? Day (LocalTime tz now)).
Proof.
  intros R V Lo Hi Y. cbn [expectedDay isToday_].
  destruct (addDays_spec i cs V) as [Vi Ei].
  pose proof (year_addDays_range cs i i V Lo Hi ltac:(lia)) as Yi.
  rewrite (isToday_regular tz R now _ (Civil.addDays i cs)); try assumption.
  - rewrite Ei. reflexivity.
  - apply format_read_valid; [exact Vi|lia].
Qed.

End StoredFacts.

(* ================================================================== *)
(** * Finding and selecting a day *)
(* ================================================================== *)

Module ContentFacts.
Import ES ESFacts CivilFacts StrFacts NumFacts DateFacts RangeFacts
       GeneratorFacts UpdateFacts ListFacts ZoneFacts GridFacts MoreFacts
       StoredFacts.
Import CalendarContent.

Lemma findIndex_first {A : Type} (p : A -> bool) (l : list A) i a :
  nth_error l i = Some a -> p a = true ->
  (forall j b, (j < i)%nat -> nth_error l j = Some b -> p b = false) ->
  findIndex p l = Some i.
Proof.
  revert i. induction l as [|x l IH]; intros i N P F.
  - destruct i; discriminate N.
  - destruct i as [|i].
    + cbn in N. injection N as ->. cbn [findIndex]. rewrite P. reflexivity.
    + cbn [findIndex]. rewrite (F 0%nat x ltac:(lia) eq_refl).
      rewrite (IH i N P); [reflexivity|].
      intros j b Lj Nj. apply (F (S j) b ltac:(lia)). exact Nj.
Qed.

Lemma findIndex_none {A : Type} (p : A -> bool) (l : list A) :
  (forall a, In a l -> p a = false) -> findIndex p l = None.
Proof.
  induction l as [|x l IH]; intros F; [reflexivity|].
  cbn [findIndex]. rewrite (F x (or_introl eq_refl)).
  rewrite IH; [reflexivity|]. intros a I. apply F. right. exact I.
Qed.

Lemma selectOnly_nth {T : Type} i (l : list (CalendarDay T)) j :
  nth_error (selectOnly i l) j
  = option_map (setSelected (Nat.eqb j i)) (nth_error l j).
Proof.
  revert i j. induction l as [|d l IH]; intros i j.
  - destruct i, j; reflexivity.
  - destruct i as [|i], j as [|j]; cbn [selectOnly nth_error option_map Nat.eqb];
      try reflexivity.
    + rewrite nth_error_map. reflexivity.
    + apply IH.
Qed.

Lemma selectOnly_count {T : Type} i (l : list (CalendarDay T)) :
  (i < List.length l)%nat ->
  List.length (filter isSelected (selectOnly i l)) = 1%nat.
Proof.
  revert i. induction l as [|d l IH]; intros i L; [cbn in L; lia|].
  destruct i as [|i]; cbn [selectOnly filter setSelected isSelected List.length].
  - f_equal. clear. induction l as [|x l IH]; [reflexivity|].
    cbn [map filter setSelected isSelected]. exact IH.
  - apply IH. cbn in L. lia.
Qed.

Lemma selectOnly_rest {T : Type} i (l : list (CalendarDay T)) :
  map (setSelected false) (selectOnly i l) = map (setSelected false) l.
Proof.
  revert i. induction l as [|d l IH]; intros i; [destruct i; reflexivity|].
  destruct i as [|i]; cbn [selectOnly map]; f_equal.
  - rewrite map_map. reflexivity.
  - apply IH.
Qed.

(** The identifiers of the expected records find their positions. *)
Lemma findIndex_by_id {T : Type} tz mode now (ts : list T) cs m i :
  (i < m)%nat ->
  findIndex (fun d => idEqb (id d)
                            (id (expectedDay tz mode now ts cs i)))
            (map (expectedDay tz mode now ts cs) (seq 0 m))
  = Some i.
Proof.
  intros L.
  apply (findIndex_first _ _ i (expectedDay tz mode now ts cs i)).
  - rewrite nth_error_map, nth_error_seq.
    replace (i <? m)%nat with true by (symmetry; apply Nat.ltb_lt; exact L).
    reflexivity.
  - cbn [expectedDay id idEqb]. apply Z.eqb_refl.
  - intros j b Lj N. apply nth_error_expected in N. destruct N as [-> _].
    cbn [expectedDay id idEqb]. apply Z.eqb_neq. lia.
Qed.

(** The text of a day of the range is today's text exactly when the day
    is today. *)
Lemma format_eqb_today cs i today :
  Civil.valid cs = true -> 1000 <= Civil.year cs ->
  Civil.year (Civil.addDays i cs) <= 9999 ->
  Civil.valid today = true -> 1000 <= Civil.year today <= 9999 ->
  String.eqb (Civil.format (Civil.addDays i cs)) (Civil.format today)
  = (Civil.dayNumber cs + Z.of_nat i =? Civil.dayNumber today).
Proof.
  intros V Lo Hi Vt Yt. destruct (addDays_spec i cs V) as [Vi Ei].
  pose proof (year_addDays_range cs i i V Lo Hi ltac:(lia)) as Yi.
  rewrite <- Ei.
  destruct (Z.eqb_spec (Civil.dayNumber (Civil.addDays i cs))
                       (Civil.dayNumber today)) as [E|N].
  - apply (dayNumber_inj _ _ Vi Vt) in E. rewrite E. apply String.eqb_refl.
  - apply String.eqb_neq. intros Q. apply N.
    assert (Q' : Civil.read (Civil.format (Civil.addDays i cs))
                 = Civil.read (Civil.format today)) by (rewrite Q; reflexivity).
    rewrite !format_read_valid in Q' by (assumption || lia).
    injection Q' as ->. reflexivity.
Qed.

(** Where the day whose date is today's stands in the expected list. *)
Lemma findIndex_today {T : Type} tz mode now (ts : list T) cs n today :
  Civil.valid cs = true -> 1000 <= Civil.year cs ->
  Civil.year (Civil.addDays n cs) <= 9999 ->
  Civil.valid today = true -> 1000 <= Civil.year today <= 9999 ->
  findIndex (fun d => String.eqb (date d) (Civil.format today))
            (map (expectedDay tz mode now ts cs) (seq 0 (S n)))
  = if (Civil.dayNumber cs <=? Civil.dayNumber today)
       && (Civil.dayNumber today <=? Civil.dayNumber cs + Z.of_nat n)
    then Some (Z.to_nat (Civil.dayNumber today - Civil.dayNumber cs))
    else None.
Proof.
  intros V Lo Hi Vt Yt.
  assert (Q : forall j, (j <= n)%nat ->
            String.eqb (date (expectedDay tz mode now ts cs j)) (Civil.format today)
            = (Civil.dayNumber cs + Z.of_nat j =? Civil.dayNumber today)).
  { intros j Lj. rewrite expected_date. apply format_eqb_today; try assumption.
    pose proof (year_addDays_range cs n j V Lo Hi Lj). lia. }
  destruct (Z.leb_spec (Civil.dayNumber cs) (Civil.dayNumber today)) as [A|A];
    [destruct (Z.leb_spec (Civil.dayNumber today)
                          (Civil.dayNumber cs + Z.of_nat n)) as [B|B]|];
    cbn [andb].
  - set (i := Z.to_nat (Civil.dayNumber today - Civil.dayNumber cs)).
    apply (findIndex_first _ _ i (expectedDay tz mode now ts cs i)).
    + rewrite nth_error_map, nth_error_seq.
      replace (i <? S n)%nat with true
        by (symmetry; apply Nat.ltb_lt; unfold i; lia).
      reflexivity.
    + rewrite Q by (unfold i; lia). apply Z.eqb_eq. unfold i. lia.
    + intros j b Lj N. apply nth_error_expected in N. destruct N as [-> Lj'].
      rewrite Q by lia. apply Z.eqb_neq. unfold i in Lj. lia.
  - apply findIndex_none. intros d I. apply in_map_iff in I.
    destruct I as (j & <- & I). apply in_seq in I.
    rewrite Q by lia. apply Z.eqb_neq. lia.
  - apply findIndex_none. intros d I. apply in_map_iff in I.
    destruct I as (j & <- & I). apply in_seq in I.
    rewrite Q by lia. apply Z.eqb_neq. lia.
Qed.

(** What [ymd] of the active mode prints for the current instant. *)
Lemma ymd_mode tz mode now :
  1000 <= YearFromTime (match mode with utc => now | local => LocalTime tz now end)
       <= 9999 ->
  ymd (makeTime tz mode) (Some now)
  = Civil.format
      (Civil.ofTime (match mode with utc => now | local => LocalTime tz now end)).
Proof.
  intros Y. destruct mode; cbn [makeTime ymd].
  - apply ymdLocal_ofTime. exact Y.
  - rewrite ymdUTC_local. rewrite ymdLocal_ofTime; rewrite LocalTime_zero;
      [reflexivity|exact Y].
Qed.

End ContentFacts.

(* ================================================================== *)
(** * The status of a card *)
(* ================================================================== *)

Module StatusFacts.
Import ES ESFacts CivilFacts StrFacts NumFacts DateFacts RangeFacts
       GeneratorFacts UpdateFacts ListFacts ZoneFacts GridFacts MoreFacts
       StoredFacts.

Lemma status_unfold tz tm cd i s :
  TaskCard.status tz tm cd i s =
  bindR (parseYMD (TaskCard.timeFns tz tm) (ymd (TaskCard.timeFns tz tm) cd))
    (fun today =>
       bindR (getTaskDateByMode (TaskCard.timeFns tz tm) i s)
         (fun taskDate =>
            bindR (parseYMD (TaskCard.timeFns tz tm) taskDate)
              (fun t =>
                 if eqN (JSDate.getTime (TaskCard.setStartOfDay tz tm t))
                        (JSDate.getTime (TaskCard.setStartOfDay tz tm today))
                 then Ok TaskCard.ACTIVE
                 else if ltN (TaskCard.setStartOfDay tz tm t)
                             (TaskCard.setStartOfDay tz tm today)
                      then Ok TaskCard.FINISHED
                      else Ok TaskCard.DISABLED))).
Proof. reflexivity. Qed.

(** In UTC mode the status is the one of local mode in the zone of
    offset 0. *)
Lemma status_utc tz cd i s :
  TaskCard.status tz (Some utc) cd i s
  = TaskCard.status (fixedZone 0) (Some local) cd i s.
Proof.
  rewrite !status_unfold.
  change (TaskCard.timeFns tz (Some utc)) with (makeTime tz utc).
  change (TaskCard.timeFns (fixedZone 0) (Some local))
    with (makeTime (fixedZone 0) local).
  rewrite getTaskDateByMode_utc.
  change (ymd (makeTime tz utc) cd) with (ymdUTC cd).
  change (ymd (makeTime (fixedZone 0) local) cd) with (ymdLocal (fixedZone 0) cd).
  change (parseYMD (makeTime tz utc)) with parseYMDUTC.
  change (parseYMD (makeTime (fixedZone 0) local))
    with (parseYMDLocal (fixedZone 0)).
  rewrite ymdUTC_local, parseYMDUTC_local.
  destruct (parseYMDLocal (fixedZone 0) (ymdLocal (fixedZone 0) cd)) as [today|];
    [|reflexivity].
  cbn [bindR].
  destruct (getTaskDateByMode (makeTime (fixedZone 0) local) i s) as [taskDate|];
    [|reflexivity].
  cbn [bindR]. rewrite parseYMDUTC_local.
  destruct (parseYMDLocal (fixedZone 0) taskDate) as [t|]; [|reflexivity].
  cbn [bindR].
  change (TaskCard.setStartOfDay tz (Some utc)) with JSDate.setUTCHours0.
  change (TaskCard.setStartOfDay (fixedZone 0) (Some local))
    with (JSDate.setHours0 (fixedZone 0)).
  rewrite !setUTCHours0_local. reflexivity.
Qed.

Section Regular.

Variable tz : TimeZone.
Hypothesis R : regularZone tz.

Lemma localMidnight_eqb n1 n2 :
  (localMidnight tz n1 =? localMidnight tz n2) = (n1 =? n2).
Proof.
  pose proof (localMidnight_le tz R n1 n2) as A.
  pose proof (localMidnight_le tz R n2 n1) as B.
  destruct (Z.eqb_spec n1 n2) as [->|N]; [apply Z.eqb_refl|].
  apply Z.eqb_neq. intros E. rewrite E in A, B.
  rewrite Z.leb_refl in A, B. symmetry in A, B.
  apply Z.leb_le in A, B. lia.
Qed.

(** The status in local mode, by day numbers. *)
Lemma status_local tm cd i s cs :
  TaskCard.isUTC tm = false ->
  Civil.read s = Some cs -> Civil.fourDigitYear cs = true ->
  Civil.year (Civil.addDays i cs) <= 9999 ->
  1000 <= YearFromTime (LocalTime tz cd) <= 9999 ->
  TaskCard.status tz tm (Some cd) (Z.of_nat i) s
  = Ok (if Civil.dayNumber cs + Z.of_nat i =? Day (LocalTime tz cd)
        then TaskCard.ACTIVE
        else if Civil.dayNumber cs + Z.of_nat i <? Day (LocalTime tz cd)
             then TaskCard.FINISHED else TaskCard.DISABLED).
Proof.
  intros U H F Hi Y. destruct (fourDigitYear_inv cs F) as [V Yc].
  assert (Efns : TaskCard.timeFns tz tm = makeTime tz local).
  { destruct tm as [[|]|]; try reflexivity. discriminate U. }
  assert (Eset : forall d, TaskCard.setStartOfDay tz tm d = JSDate.setHours0 tz d).
  { intros d. unfold TaskCard.setStartOfDay. rewrite U. reflexivity. }
  rewrite status_unfold, Efns.
  change (ymd (makeTime tz local)) with (ymdLocal tz).
  change (parseYMD (makeTime tz local)) with (parseYMDLocal tz).
  destruct (parse_today tz R cd Y) as [_ P]. rewrite P. cbn [bindR].
  rewrite (getTaskDateByMode_spec tz local s cs i (or_intror R) H F Hi).
  cbn [bindR].
  destruct (addDays_spec i cs V) as [Vi Ei].
  pose proof (year_addDays_range cs i i V ltac:(lia) Hi ltac:(lia)) as Yi.
  rewrite (parseYMDLocal_valid tz R _ (Civil.addDays i cs))
    by (first [apply format_read_valid; [exact Vi|lia] | exact Vi | lia]).
  cbn [bindR]. rewrite !Eset.
  rewrite !(setHours0_localMidnight tz R)
    by (first [apply (day_now_clip tz cd Y)
              | pose proof (dayNumber_bounds _ Vi ltac:(lia)); lia]).
  cbn [JSDate.getTime eqN ltN].
  rewrite localMidnight_eqb, (localMidnight_lt tz R), Ei.
  destruct (Civil.dayNumber cs + Z.of_nat i =? Day (LocalTime tz cd));
    [reflexivity|].
  destruct (Civil.dayNumber cs + Z.of_nat i <? Day (LocalTime tz cd));
    reflexivity.
Qed.

End Regular.

End StatusFacts.

(* ================================================================== *)
(** * The countdown of the active card *)
(* ================================================================== *)

Module TimerFacts.
Import ES ESFacts CivilFacts StrFacts NumFacts DateFacts RangeFacts
       GeneratorFacts UpdateFacts ListFacts ZoneFacts GridFacts MoreFacts
       StoredFacts StatusFacts.

Lemma timer_unfold tz tm cd ct i s fin u :
  TaskCard.timer tz tm cd ct i s fin u =
  bindR (TaskCard.status tz tm cd i s)
    (fun st =>
       match st with
       | TaskCard.ACTIVE =>
           bindR (getTaskDateByMode (TaskCard.timeFns tz tm) i s)
             (fun taskDate =>
                bindR (parseYMD (TaskCard.timeFns tz tm) taskDate)
                  (fun taskDateObj =>
                     match subN (JSDate.getTime
                                   (TaskCard.setEndOfDay tz tm taskDateObj))
                                (JSDate.getTime ct) with
                     | Some timeLeft =>
                         if timeLeft <=? 0 then Ok None
                         else Ok (Some (fin ++ ": "
                                        ++ TaskCard.countdownText u timeLeft)%string)
                     | None => Ok (Some (fin ++ ": NaN : NaN : NaN")%string)
                     end))
       | _ => Ok None
       end).
Proof. reflexivity. Qed.

Lemma setEndOfDay_utc tz d :
  TaskCard.setEndOfDay tz (Some utc) d
  = TaskCard.setEndOfDay (fixedZone 0) (Some local) d.
Proof.
  destruct d as [t|]; [|reflexivity]. cbn [TaskCard.setEndOfDay TaskCard.isUTC].
  rewrite LocalTime_zero, UTC_zero. reflexivity.
Qed.

(** In UTC mode the countdown is the one of local mode in the zone of
    offset 0. *)
Lemma timer_utc tz cd ct i s fin u :
  TaskCard.timer tz (Some utc) cd ct i s fin u
  = TaskCard.timer (fixedZone 0) (Some local) cd ct i s fin u.
Proof.
  rewrite !timer_unfold, status_utc.
  destruct (TaskCard.status (fixedZone 0) (Some local) cd i s) as [[| |]|];
    try reflexivity.
  cbn [bindR].
  change (TaskCard.timeFns tz (Some utc)) with (makeTime tz utc).
  change (TaskCard.timeFns (fixedZone 0) (Some local))
    with (makeTime (fixedZone 0) local).
  rewrite getTaskDateByMode_utc.
  destruct (getTaskDateByMode (makeTime (fixedZone 0) local) i s) as [taskDate|];
    [|reflexivity].
  cbn [bindR].
  change (parseYMD (makeTime tz utc)) with parseYMDUTC.
  change (parseYMD (makeTime (fixedZone 0) local))
    with (parseYMDLocal (fixedZone 0)).
  rewrite parseYMDUTC_local.
  destruct (parseYMDLocal (fixedZone 0) taskDate) as [t|]; [|reflexivity].
  cbn [bindR]. rewrite setEndOfDay_utc. reflexivity.
Qed.

(** The countdown of the active card in local mode in a zone of fixed
    offset: the time left to 23:59:59.999 of the local day. *)
Lemma timer_fixed off tm cd ct i s cs fin u :
  Z.abs off < msPerDay ->
  TaskCard.isUTC tm = false ->
  Civil.read s = Some cs -> Civil.fourDigitYear cs = true ->
  Civil.year (Civil.addDays i cs) <= 9999 ->
  1000 <= YearFromTime (cd + off) <= 9999 ->
  Civil.dayNumber cs + Z.of_nat i = Day (cd + off) ->
  Day (ct + off) = Day (cd + off) ->
  TaskCard.timer (fixedZone off) tm (Some cd) (Some ct) (Z.of_nat i) s fin u
  = Ok (if (ct + off) mod msPerDay =? msPerDay - 1 then None
        else Some (fin ++ ": "
                   ++ TaskCard.countdownText u
                        (msPerDay - 1 - (ct + off) mod msPerDay))%string).
Proof.
  intros B U H F Hi Y A Dc.
  pose proof (fixedZone_regular off B) as R.
  destruct (fourDigitYear_inv cs F) as [V Yc].
  assert (L : forall t, LocalTime (fixedZone off) t = t + off) by reflexivity.
  rewrite timer_unfold.
  rewrite (status_local (fixedZone off) R tm cd i s cs U H F Hi)
    by (rewrite L; exact Y).
  rewrite L, A, Z.eqb_refl. cbn [bindR].
  assert (Efns : TaskCard.timeFns (fixedZone off) tm = makeTime (fixedZone off) local).
  { destruct tm as [[|]|]; try reflexivity. discriminate U. }
  rewrite Efns.
  rewrite (getTaskDateByMode_spec (fixedZone off) local s cs i (or_intror R) H F Hi).
  cbn [bindR].
  destruct (addDays_spec i cs V) as [Vi Ei].
  pose proof (year_addDays_range cs i i V ltac:(lia) Hi ltac:(lia)) as Yi.
  change (parseYMD (makeTime (fixedZone off) local))
    with (parseYMDLocal (fixedZone off)).
  rewrite (parseYMDLocal_valid (fixedZone off) R _ (Civil.addDays i cs))
    by (first [apply format_read_valid; [exact Vi|lia] | exact Vi | lia]).
  cbn [bindR]. unfold TaskCard.setEndOfDay. rewrite U.
  rewrite (Day_localMidnight (fixedZone off) R).
  pose proof (dayNumber_bounds _ Vi ltac:(lia)) as Bd.
  assert (E : UTC (fixedZone off)
                  (MakeDate (Civil.dayNumber (Civil.addDays i cs))
                            (MakeTime 23 59 59 999))
              = Civil.dayNumber (Civil.addDays i cs) * msPerDay
                + (msPerDay - 1) - off).
  { unfold UTC, fixedZone, MakeDate, MakeTime, msPerDay. cbn [offsetAtLocal]. lia. }
  rewrite E.
  rewrite TimeClip_in_range by (unfold maxTime, msPerDay in *; lia).
  cbn [JSDate.getTime subN].
  assert (T : Civil.dayNumber (Civil.addDays i cs) * msPerDay
              + (msPerDay - 1) - off - ct
              = msPerDay - 1 - (ct + off) mod msPerDay).
  { rewrite Ei, A, <- Dc. unfold Day.
    pose proof (Z.div_mod (ct + off) msPerDay ltac:(unfold msPerDay; lia)). lia. }
  rewrite T.
  pose proof (Z.mod_pos_bound (ct + off) msPerDay ltac:(unfold msPerDay; lia)) as M.
  destruct (Z.eqb_spec ((ct + off) mod msPerDay) (msPerDay - 1)) as [Q|Q].
  - rewrite Q. replace (msPerDay - 1 - (msPerDay - 1)) with 0 by lia. reflexivity.
  - replace (msPerDay - 1 - (ct + off) mod msPerDay <=? 0) with false
      by (symmetry; apply Z.leb_gt; lia).
    reflexivity.
Qed.

(** Within a day the countdown has no day part. *)
Lemma countdownText_within_day u tl :
  0 < tl < msPerDay ->
  TaskCard.countdownText u tl
  = (Civil.pad 2 (tl / 3600000) ++ " : " ++ Civil.pad 2 (tl mod 3600000 / 60000)
     ++ " : " ++ Civil.pad 2 (tl mod 60000 / 1000))%string.
Proof.
  intros B. unfold TaskCard.countdownText, TaskCard.countdown, msPerDay in *.
  change (1000 * 60 * 60 * 24) with 86400000.
  change (1000 * 60 * 60) with 3600000. change (1000 * 60) with 60000.
  rewrite !Z.rem_mod_nonneg by lia.
  rewrite (Z.div_small tl 86400000) by lia.
  rewrite (Z.mod_small tl 86400000) by lia.
  reflexivity.
Qed.

End TimerFacts.

(* ================================================================== *)
(** * The configuration check *)
(* ================================================================== *)

Module ConfigFacts.
Import ES ESFacts CivilFacts StrFacts NumFacts DateFacts RangeFacts
       GeneratorFacts UpdateFacts ListFacts ZoneFacts GridFacts MoreFacts
       ParserFacts StoredFacts.
Import ValidateConfig.

Lemma read_nonempty s c : Civil.read s = Some c -> String.eqb s "" = false.
Proof. intros H. destruct s; [discriminate H|reflexivity]. Qed.

(** The strict parser on a text of the shape, in a regular zone. *)
Lemma strict_cases tz s c :
  regularZone tz -> Civil.read s = Some c ->
  parseYMDStrict tz s
  = if Civil.valid c && (100 <=? Civil.year c)
    then Some (Some (localMidnight tz (Civil.dayNumber c)))
    else None.
Proof.
  intros R H. destruct (Civil.valid c) eqn:V; cbn [andb].
  - destruct (Z.leb_spec 100 (Civil.year c)) as [L|L].
    + apply (parseYMDStrict_valid tz R s c H V L).
    + apply (parseYMDStrict_small_year tz R s c H L).
  - destruct (parseYMDStrict tz s) as [dt|] eqn:P; [|reflexivity].
    destruct (parseYMDStrict_sound tz s c dt H P) as [V' _]. congruence.
Qed.

(** A later date has no smaller year. *)
Lemma leb_year c1 c2 : Civil.leb c1 c2 = true -> Civil.year c1 <= Civil.year c2.
Proof.
  destruct c1 as [[y1 m1] d1], c2 as [[y2 m2] d2]. unfold Civil.leb, Civil.year.
  cbn [fst]. intros L.
  repeat (rewrite orb_true_iff in L || rewrite andb_true_iff in L).
  rewrite Z.ltb_lt, Z.eqb_eq in L. lia.
Qed.

(** The errors for two texts of the shape, in a regular zone. *)
Lemma validateConfig_shape tz s e fd cs ce :
  regularZone tz -> Civil.read s = Some cs -> Civil.read e = Some ce ->
  fst (validateConfig tz (Some s) (Some e) fd)
  = (if Civil.valid cs && (100 <=? Civil.year cs) then []
     else [("Invalid start date: " ++ s ++ " (date does not exist)")%string])
    ++ (if Civil.valid ce && (100 <=? Civil.year ce) then []
        else [("Invalid end date: " ++ e ++ " (date does not exist)")%string])
    ++ (if Civil.valid cs && (100 <=? Civil.year cs)
           && (Civil.valid ce && (100 <=? Civil.year ce))
           && negb (Civil.leb cs ce)
        then [("Start date (" ++ s ++ ") is after end date (" ++ e ++ ")")%string]
        else [])
    ++ match fd with
       | Some f =>
           if given fd && negb (existsb (String.eqb f) ["auto"; "monday"; "sunday"])
           then [("Invalid firstDayOfWeek: " ++ f
                  ++ ". Must be 'auto', 'monday', or 'sunday'")%string]
           else []
       | None => []
       end.
Proof.
  intros R Hs He. unfold validateConfig, dateErrors. cbn [fst given].
  rewrite (read_nonempty s cs Hs), (read_nonempty e ce He). cbn [negb andb].
  rewrite (strict_cases tz s cs R Hs), (strict_cases tz e ce R He).
  destruct (Civil.valid cs) eqn:Vs, (100 <=? Civil.year cs) eqn:Ys,
    (Civil.valid ce) eqn:Ve, (100 <=? Civil.year ce) eqn:Ye;
    cbn [andb]; try reflexivity.
  cbn [JSDate.getTime ltN fst app].
  rewrite (localMidnight_lt tz R), (leb_dayNumber_iff cs ce Vs Ve).
  rewrite Z.ltb_antisym. reflexivity.
Qed.

End ConfigFacts.

(* ================================================================== *)
(** * The formatters for display *)
(* ================================================================== *)

Module FormatFacts.
Import ES ESFacts CivilFacts StrFacts NumFacts DateFacts RangeFacts
       GeneratorFacts UpdateFacts ListFacts ZoneFacts GridFacts MoreFacts.

Section Regular.

Variable tz : TimeZone.
Hypothesis R : regularZone tz.

Lemma month_localMidnight c :
  Civil.valid c = true ->
  MonthFromTime (LocalTime tz (localMidnight tz (Civil.dayNumber c)))
  = Civil.month c - 1.
Proof.
  intros V.
  assert (E : Civil.ofTime (LocalTime tz (localMidnight tz (Civil.dayNumber c))) = c).
  { apply ofTime_dayNumber; [exact V|]. apply (Day_localMidnight tz R). }
  rewrite <- E at 2. unfold Civil.ofTime, Civil.month. cbn [fst snd]. lia.
Qed.

Lemma formatTaskDate_local name sep s c :
  Civil.read s = Some c -> Civil.valid c = true -> 100 <= Civil.year c ->
  bindR (parseYMDLocal tz s)
        (fun date => Ok (toLocaleMonth tz name date ++ sep
                         ++ Str.ToString (JSDate.getDate tz date))%string)
  = Ok (name (Civil.month c - 1) ++ sep
        ++ Str.ZToString (Civil.dayOfMonth c))%string.
Proof.
  intros H V Y. rewrite (parseYMDLocal_valid tz R s c H V Y). cbn [bindR].
  unfold toLocaleMonth. rewrite (getDate_localMidnight_date tz R c V).
  cbn [JSDate.getMonth option_map]. rewrite (month_localMidnight c V).
  reflexivity.
Qed.

Lemma formatByMode_local name sep s c :
  Civil.read s = Some c -> Civil.valid c = true -> 100 <= Civil.year c ->
  bindR (parseYMDLocal tz s)
        (fun date =>
           bindR (intlMonth tz false name date)
                 (fun month => Ok (month ++ sep
                                   ++ Str.ToString (JSDate.getDate tz date))%string))
  = Ok (name (Civil.month c - 1) ++ sep
        ++ Str.ZToString (Civil.dayOfMonth c))%string.
Proof.
  intros H V Y. rewrite (parseYMDLocal_valid tz R s c H V Y). cbn [bindR intlMonth].
  rewrite (getDate_localMidnight_date tz R c V), (month_localMidnight c V).
  reflexivity.
Qed.

End Regular.

Lemma formatByMode_utc tz name sep s c :
  Civil.read s = Some c -> Civil.valid c = true -> 100 <= Civil.year c ->
  bindR (parseYMDUTC s)
        (fun date =>
           bindR (intlMonth tz true name date)
                 (fun month => Ok (month ++ sep
                                   ++ Str.ToString (JSDate.getUTCDate date))%string))
  = Ok (name (Civil.month c - 1) ++ sep
        ++ Str.ZToString (Civil.dayOfMonth c))%string.
Proof.
  intros H V Y.
  rewrite <- (formatByMode_local (fixedZone 0) zero_regular name sep s c H V Y).
  rewrite parseYMDUTC_local.
  destruct (parseYMDLocal (fixedZone 0) s) as [[t|]|]; cbn [bindR intlMonth];
    try reflexivity.
  rewrite LocalTime_zero, getUTCDate_local. reflexivity.
Qed.

End FormatFacts.

(* ================================================================== *)
(** * Grouping by month *)
(* ================================================================== *)

Module GroupFacts.

Section Groups.

Context {T : Type}.

Lemma pushToGroup_perm k (d : CalendarDay T) gs :
  Permutation (List.concat (map snd (pushToGroup k d gs))) (List.concat (map snd gs) ++ [d]).
Proof.
  induction gs as [|[k' ds] gs IH]; cbn [pushToGroup].
  - cbn. apply Permutation_refl.
  - destruct (String.eqb k' k); cbn [map snd List.concat].
    + rewrite <- !app_assoc. apply Permutation_app_head.
      apply Permutation_app_comm.
    + rewrite <- app_assoc. apply Permutation_app_head. exact IH.
Qed.

Lemma pushToGroup_nonempty k (d : CalendarDay T) gs :
  (forall g, In g gs -> snd g <> []) ->
  forall g, In g (pushToGroup k d gs) -> snd g <> [].
Proof.
  induction gs as [|[k' ds] gs IH]; intros N g I; cbn [pushToGroup] in I.
  - destruct I as [<-|[]]. discriminate.
  - destruct (String.eqb k' k).
    + destruct I as [<-|I].
      * cbn [snd]. destruct ds; discriminate.
      * apply N. right. exact I.
    + destruct I as [<-|I].
      * apply (N (k', ds)). left. reflexivity.
      * apply IH; [|exact I]. intros g' I'. apply N. right. exact I'.
Qed.

Lemma groupByMonth_spec tz fns (days : list (CalendarDay T)) gs :
  (forall d, In d days -> exists dt, parseYMD fns (date d) = Ok dt) ->
  (forall g, In g gs -> snd g <> []) ->
  exists gs',
    groupByMonth tz fns days gs = Ok gs'
    /\ Permutation (List.concat (map snd gs')) (List.concat (map snd gs) ++ days)
    /\ (forall g, In g gs' -> snd g <> []).
Proof.
  revert gs. induction days as [|d days IH]; intros gs P N.
  - exists gs. split; [reflexivity|]. split; [rewrite app_nil_r; apply Permutation_refl|exact N].
  - destruct (P d (or_introl eq_refl)) as (dt & E).
    cbn [groupByMonth]. rewrite E. cbn [bindR].
    destruct (IH (pushToGroup (monthKey tz dt) d gs)) as (gs' & G & Pm & N').
    + intros d' I. apply P. right. exact I.
    + apply pushToGroup_nonempty. exact N.
    + exists gs'. split; [exact G|]. split; [|exact N'].
      eapply Permutation_trans; [exact Pm|].
      change (d :: days) with ([d] ++ days). rewrite app_assoc.
      apply Permutation_app_tail. apply pushToGroup_perm.
Qed.

Lemma filter_placeholders (pre : list Z) y m (ds : list (CalendarDay T)) :
  (forall d, In d ds -> isPlaceholder d = false) ->
  filter (fun d => negb (isPlaceholder d)) (map (placeholderDay y m) pre ++ ds) = ds.
Proof.
  intros N. rewrite filter_app.
  assert (E : filter (fun d : CalendarDay T => negb (isPlaceholder d))
                     (map (placeholderDay y m) pre) = []).
  { induction pre as [|i pre IH]; [reflexivity|]. cbn. exact IH. }
  rewrite E. cbn [app].
  induction ds as [|d ds IH]; [reflexivity|]. cbn [filter].
  rewrite (N d (or_introl eq_refl)). cbn [negb]. f_equal.
  apply IH. intros d' I. apply N. right. exact I.
Qed.

(** One group of the result: the label and, before the days of the
    group, placeholders only. *)
Lemma monthGrid_spec tz label fns align fdow (ds : list (CalendarDay T)) :
  ds <> [] ->
  (forall d, In d ds -> exists dt, parseYMD fns (date d) = Ok dt) ->
  exists lbl pre y m,
    monthGrid tz label fns align fdow ds
    = Ok (lbl, map (placeholderDay y m) pre ++ ds)
    /\ (align = false -> pre = []).
Proof.
  intros NE P. destruct ds as [|first rest]; [congruence|].
  destruct (P first (or_introl eq_refl)) as (dt & E).
  unfold monthGrid. rewrite E. cbn [bindR].
  destruct align; cbn [negb].
  - eexists. eexists. eexists. eexists. split; [reflexivity|discriminate].
  - exists (label dt), [], None, None. split; [reflexivity|reflexivity].
Qed.

Lemma grids_spec tz label fns align fdow (gs : list (string * list (CalendarDay T))) :
  (forall g, In g gs -> snd g <> []) ->
  (forall g d, In g gs -> In d (snd g) ->
               isPlaceholder d = false
               /\ exists dt, parseYMD fns (date d) = Ok dt) ->
  exists rs,
    mapR (fun g : string * list (CalendarDay T) =>
            monthGrid tz label fns align fdow (snd g)) gs = Ok rs
    /\ filter (fun d => negb (isPlaceholder d)) (List.concat (map snd rs))
       = List.concat (map snd gs)
    /\ (align = false -> List.concat (map snd rs) = List.concat (map snd gs))
    /\ (forall r, In r rs -> snd r <> []).
Proof.
  induction gs as [|g gs IH]; intros N P.
  - exists []. repeat split; try reflexivity. intros r [].
  - destruct (monthGrid_spec tz label fns align fdow (snd g))
      as (lbl & pre & y & m & E & A).
    + apply N. left. reflexivity.
    + intros d I. apply (P g d (or_introl eq_refl) I).
    + destruct IH as (rs & M & F & AA & NN).
      * intros g' I. apply N. right. exact I.
      * intros g' d I I'. apply (P g' d (or_intror I) I').
      * exists ((lbl, map (placeholderDay y m) pre ++ snd g) :: rs).
        cbn [mapR]. rewrite E. cbn [bindR]. rewrite M. cbn [bindR].
        split; [reflexivity|]. cbn [map snd List.concat]. split; [|split].
        -- rewrite filter_app, F. f_equal. apply filter_placeholders.
           intros d I. apply (P g d (or_introl eq_refl) I).
        -- intros Al. rewrite (AA Al), (A Al). reflexivity.
        -- intros r [<-|I]; [|apply NN; exact I]. cbn [snd].
           intros Q. apply app_eq_nil in Q. destruct Q as [_ Q].
           apply (N g (or_introl eq_refl)). exact Q.
Qed.

End Groups.

End GroupFacts.

(* ================================================================== *)
(** * Composing the date calculations *)
(* ================================================================== *)

Module ComposeFacts.
Import ES ESFacts CivilFacts StrFacts NumFacts DateFacts RangeFacts
       GeneratorFacts UpdateFacts ListFacts ZoneFacts GridFacts MoreFacts.

Lemma addDays_add i j c :
  Civil.addDays j (Civil.addDays i c) = Civil.addDays (i + j) c.
Proof.
  induction j as [|j IH]; [rewrite Nat.add_0_r; reflexivity|].
  rewrite Nat.add_succ_r. cbn [Civil.addDays]. rewrite IH. reflexivity.
Qed.

Lemma fourDigitYear_addDays c n i :
  Civil.fourDigitYear c = true -> Civil.year (Civil.addDays n c) <= 9999 ->
  (i <= n)%nat ->
  Civil.fourDigitYear (Civil.addDays i c) = true.
Proof.
  intros F Hn L. destruct (fourDigitYear_inv c F) as [V Y].
  destruct (addDays_spec i c V) as [Vi _].
  pose proof (year_addDays_range c n i V ltac:(lia) Hn L) as Yi.
  unfold Civil.fourDigitYear. rewrite Vi.
  rewrite !andb_true_iff, !Z.leb_le. repeat split; lia.
Qed.

End ComposeFacts.

(* ================================================================== *)
(** * Groups of a list in ascending order *)
(* ================================================================== *)

Module OrderFacts.
Import ES ESFacts CivilFacts StrFacts NumFacts DateFacts RangeFacts
       GeneratorFacts UpdateFacts ListFacts ZoneFacts GridFacts MoreFacts
       StoredFacts FormatFacts GroupFacts.

Section Runs.

Context {T : Type}.
Variable key : CalendarDay T -> string.
Variable rank : CalendarDay T -> Z.

(** The days considered: on them equal keys mean equal ranks. *)
Variable U : CalendarDay T -> Prop.
Hypothesis KR : forall a b, U a -> U b -> (key a = key b <-> rank a = rank b).

(** Every group is non-empty, made of days considered, and filed under
    the key of its days. *)
Definition filed (gs : list (string * list (CalendarDay T))) : Prop :=
  forall g, In g gs ->
    snd g <> [] /\ forall x, In x (snd g) -> U x /\ key x = fst g.

Lemma push_ordered d gs :
  U d -> filed gs -> groupsAscending rank gs ->
  (forall g x, In g gs -> In x (snd g) -> rank x <= rank d) ->
  List.concat (map snd (pushToGroup (key d) d gs))
  = List.concat (map snd gs) ++ [d]
  /\ filed (pushToGroup (key d) d gs)
  /\ groupsAscending rank (pushToGroup (key d) d gs)
  /\ (forall g x, In g (pushToGroup (key d) d gs) -> In x (snd g) ->
        x = d \/ exists g0, In g0 gs /\ In x (snd g0)).
Proof.
  intros Ud. induction gs as [|[k ds] gs IH]; intros F A B.
  - cbn [pushToGroup]. split; [reflexivity|]. split; [|split].
    + intros g [<-|[]]. cbn [fst snd]. split; [discriminate|].
      intros x [<-|[]]. split; [exact Ud|reflexivity].
    + cbn. split; [intros a g' b _ []|exact I].
    + intros g x [<-|[]] [<-|[]]. left. reflexivity.
  - cbn [pushToGroup]. destruct A as [A1 A2].
    destruct (F (k, ds) (or_introl eq_refl)) as [Nds Kds]. cbn [fst snd] in Nds, Kds.
    destruct (String.eqb_spec k (key d)) as [E|NE].
    + (* the group of [d]: it is the last one *)
      assert (L : gs = []).
      { destruct gs as [|g' gs']; [reflexivity|]. exfalso.
        destruct (F g' (or_intror (or_introl eq_refl))) as [Ng' _].
        destruct ds as [|a ds']; [congruence|].
        destruct (snd g') as [|b bs] eqn:Eg; [congruence|].
        pose proof (A1 a g' b (or_introl eq_refl) (or_introl eq_refl)
                      ltac:(rewrite Eg; left; reflexivity)) as Lt.
        pose proof (B g' b (or_intror (or_introl eq_refl))
                      ltac:(rewrite Eg; left; reflexivity)) as Le.
        destruct (Kds a (or_introl eq_refl)) as [Ua Ka].
        pose proof (proj1 (KR a d Ua Ud) ltac:(congruence)). lia. }
      subst gs. cbn [map snd List.concat]. rewrite !app_nil_r.
      split; [reflexivity|]. split; [|split].
      * intros g [<-|[]]. cbn [fst snd]. split; [destruct ds; discriminate|].
        intros x Ix. apply in_app_or in Ix. destruct Ix as [Ix|[<-|[]]].
        -- apply Kds. exact Ix.
        -- split; [exact Ud|congruence].
      * cbn. split; [intros a g' b _ []|exact I].
      * intros g x [<-|[]] Ix. cbn [snd] in Ix. apply in_app_or in Ix.
        destruct Ix as [Ix|[<-|[]]]; [right|left; reflexivity].
        exists (k, ds). split; [left; reflexivity|exact Ix].
    + (* another group: [d] goes further on *)
      destruct IH as (C & F' & A' & O).
      * intros g Ig. apply F. right. exact Ig.
      * exact A2.
      * intros g x Ig Ix. apply (B g x (or_intror Ig) Ix).
      * cbn [map snd List.concat]. rewrite C, app_assoc.
        split; [reflexivity|]. split; [|split].
        -- intros g [<-|Ig]; [apply (F (k, ds)); left; reflexivity|apply F'; exact Ig].
        -- cbn [groupsAscending snd]. split; [|exact A'].
           intros a g' b Ia Ig' Ib.
           destruct (O g' b Ig' Ib) as [->|(g0 & Ig0 & Ib0)].
           ++ pose proof (B (k, ds) a (or_introl eq_refl) Ia) as Le.
              destruct (Kds a Ia) as [Ua Ka].
              destruct (Z.eq_dec (rank a) (rank d)) as [Er|]; [|lia].
              apply (KR a d Ua Ud) in Er. congruence.
           ++ apply (A1 a g0 b Ia Ig0 Ib0).
        -- intros g x [<-|Ig] Ix.
           ++ right. exists (k, ds). split; [left; reflexivity|exact Ix].
           ++ destruct (O g x Ig Ix) as [->|(g0 & Ig0 & Ix0)];
                [left; reflexivity|].
              right. exists g0. split; [right; exact Ig0|exact Ix0].
Qed.

Lemma groupRun_ordered l gs :
  (forall d, In d l -> U d) -> ascending rank l ->
  filed gs -> groupsAscending rank gs ->
  (forall g x d, In g gs -> In x (snd g) -> In d l -> rank x <= rank d) ->
  List.concat (map snd (groupRun key l gs)) = List.concat (map snd gs) ++ l
  /\ filed (groupRun key l gs)
  /\ groupsAscending rank (groupRun key l gs).
Proof.
  revert gs. induction l as [|d l IH]; intros gs Ul Al F A B.
  - cbn [groupRun]. rewrite app_nil_r. auto.
  - cbn [groupRun]. destruct Al as [Ad Al].
    destruct (push_ordered d gs (Ul d (or_introl eq_refl)) F A) as (C & F' & A' & O).
    { intros g x Ig Ix. apply (B g x d Ig Ix). left. reflexivity. }
    destruct (IH (pushToGroup (key d) d gs)) as (C2 & F2 & A2); try assumption.
    + intros d' I. apply Ul. right. exact I.
    + intros g x d' Ig Ix Id'. destruct (O g x Ig Ix) as [->|(g0 & Ig0 & Ix0)].
      * apply Ad. exact Id'.
      * apply (B g0 x d' Ig0 Ix0). right. exact Id'.
    + rewrite C2, C, <- app_assoc. auto.
Qed.

(** In groups in ascending order, two days of different groups have
    different ranks. *)
Lemma groupsAscending_apart gs i j g1 g2 a b :
  groupsAscending rank gs ->
  nth_error gs i = Some g1 -> nth_error gs j = Some g2 -> i <> j ->
  In a (snd g1) -> In b (snd g2) -> rank a <> rank b.
Proof.
  revert i j. induction gs as [|g gs IH]; intros i j A N1 N2 D Ia Ib.
  - destruct i; discriminate N1.
  - destruct A as [A1 A2]. destruct i as [|i], j as [|j]; try congruence.
    + cbn in N1. injection N1 as ->. cbn in N2. apply nth_error_In in N2.
      pose proof (A1 a g2 b Ia N2 Ib). lia.
    + cbn in N2. injection N2 as ->. cbn in N1. apply nth_error_In in N1.
      pose proof (A1 b g1 a Ib N1 Ia). lia.
    + cbn in N1, N2. apply (IH i j A2 N1 N2); auto.
Qed.

End Runs.

(** [groupByMonth] is the run of the keys when every date parses. *)
Lemma groupByMonth_run {T : Type} tz fns (l : list (CalendarDay T)) gs :
  (forall d, In d l -> exists dt, parseYMD fns (date d) = Ok dt) ->
  groupByMonth tz fns l gs = Ok (groupRun (groupKey tz fns) l gs).
Proof.
  revert gs. induction l as [|d l IH]; intros gs P; [reflexivity|].
  destruct (P d (or_introl eq_refl)) as (dt & E).
  cbn [groupByMonth groupRun]. unfold groupKey at 2. rewrite E. cbn [bindR].
  apply IH. intros d' I. apply P. right. exact I.
Qed.

(** ** Keys and ranks of the days of a valid range *)

Lemma monthText_table :
  forallb (fun a => forallb (monthTextCheck a) (zrange 0 12)) (zrange 0 12) = true.
Proof. vm_compute. reflexivity. Qed.

Lemma monthText_inj a b :
  0 <= a <= 11 -> 0 <= b <= 11 ->
  Str.ZToString a = Str.ZToString b -> a = b.
Proof.
  intros Ha Hb E.
  pose proof (forallb2 monthTextCheck (zrange 0 12) monthText_table a b
                ltac:(apply zrange_In; lia) ltac:(apply zrange_In; lia)) as C.
  unfold monthTextCheck in C. apply Bool.eqb_prop in C.
  rewrite E, String.eqb_refl in C. symmetry in C. apply Z.eqb_eq in C. exact C.
Qed.

Lemma digitChar_inj a b :
  0 <= a <= 9 -> 0 <= b <= 9 -> Str.digitChar a = Str.digitChar b -> a = b.
Proof.
  intros Ha Hb E.
  destruct (digitChar_value a Ha) as [_ Va], (digitChar_value b Hb) as [_ Vb].
  rewrite <- Va, <- Vb, E. reflexivity.
Qed.

(** The key of a year from 1000 to 9999 and a month index tells both. *)
Lemma monthKey_inj y1 k1 y2 k2 :
  1000 <= y1 <= 9999 -> 0 <= k1 <= 11 -> 1000 <= y2 <= 9999 -> 0 <= k2 <= 11 ->
  (Str.ZToString y1 ++ "-" ++ Str.ZToString k1)%string
  = (Str.ZToString y2 ++ "-" ++ Str.ZToString k2)%string ->
  y1 = y2 /\ k1 = k2.
Proof.
  intros Hy1 Hk1 Hy2 Hk2 E.
  destruct (digits_of_4 y1 ltac:(lia)) as (a & b & c & d & Ha & Hb & Hc & Hd & ->).
  destruct (digits_of_4 y2 ltac:(lia)) as (a' & b' & c' & d' & Ha' & Hb' & Hc' & Hd' & ->).
  rewrite !ZToString_digits in E by lia.
  unfold str4, str2 in E. cbn [String.append] in E.
  injection E as E1 E2 E3 E4 E5.
  apply digitChar_inj in E1, E2, E3, E4; try lia.
  apply monthText_inj in E5; lia.
Qed.

(** Months count up with the day numbers of valid dates. *)
Lemma month_rank_mono c1 c2 :
  Civil.valid c1 = true -> Civil.valid c2 = true ->
  Civil.dayNumber c1 <= Civil.dayNumber c2 ->
  12 * Civil.year c1 + Civil.month c1 <= 12 * Civil.year c2 + Civil.month c2.
Proof.
  intros V1 V2 L.
  pose proof (leb_dayNumber_iff c1 c2 V1 V2) as E.
  replace (Civil.dayNumber c1 <=? Civil.dayNumber c2) with true in E
    by (symmetry; apply Z.leb_le; exact L).
  pose proof (valid_fields c1 V1). pose proof (valid_fields c2 V2).
  destruct c1 as [[y1 m1] d1], c2 as [[y2 m2] d2].
  unfold Civil.leb in E. unfold Civil.year, Civil.month in *. cbn [fst snd] in *.
  apply orb_true_iff in E. destruct E as [E|E]; [apply Z.ltb_lt in E; lia|].
  apply andb_true_iff in E. destruct E as [E1 E2]. apply Z.eqb_eq in E1.
  apply orb_true_iff in E2. destruct E2 as [E2|E2]; [apply Z.ltb_lt in E2; lia|].
  apply andb_true_iff in E2. destruct E2 as [E2 _]. apply Z.eqb_eq in E2. lia.
Qed.

Lemma ascending_map_seq {A : Type} (rank : A -> Z) (f : nat -> A) a k :
  (forall i j, (a <= i)%nat -> (i <= j)%nat -> (j < a + k)%nat ->
               rank (f i) <= rank (f j)) ->
  ascending rank (map f (seq a k)).
Proof.
  revert a. induction k as [|k IH]; intros a M; [exact I|].
  cbn [seq map ascending]. split.
  - intros b Ib. apply in_map_iff in Ib. destruct Ib as (j & <- & Ij).
    apply in_seq in Ij. apply M; lia.
  - apply IH. intros i j Hi Hij Hj. apply M; lia.
Qed.

Section Stored.

Context {T : Type}.
Variable tz : TimeZone.
Hypothesis R : regularZone tz.
Variable now : Z.
Variable ts : list T.
Variable mode : TimeMode.
Variable cs : Civil.date.
Hypothesis Vs : Civil.valid cs = true.
Hypothesis Ys : 1000 <= Civil.year cs.
Variable n : nat.
Hypothesis Ye : Civil.year (Civil.addDays n cs) <= 9999.

(** What [groupedDays] reads of the stored day at position [i], in local
    mode. *)
Lemma stored_day i :
  (i <= n)%nat ->
  let d := expectedDay tz mode now ts cs i in
  let c := Civil.addDays i cs in
  Civil.valid c = true /\ 1000 <= Civil.year c <= 9999
  /\ isPlaceholder d = false
  /\ parseYMD (makeTime tz local) (date d)
     = Ok (Some (localMidnight tz (Civil.dayNumber c)))
  /\ groupKey tz (makeTime tz local) d
     = (Str.ZToString (Civil.year c) ++ "-"
        ++ Str.ZToString (Civil.month c - 1))%string
  /\ yearMonth (date d) = Some (Civil.year c, Civil.month c)
  /\ monthRank (date d) = 12 * Civil.year c + Civil.month c.
Proof.
  intros Li d c.
  destruct (addDays_spec i cs Vs) as [Vc Dc]. fold c in Vc, Dc.
  pose proof (year_addDays_range cs n i Vs Ys Ye Li) as Yc. fold c in Yc.
  assert (Rd : Civil.read (date d) = Some c)
    by (apply format_read_valid; [exact Vc|lia]).
  assert (P : parseYMD (makeTime tz local) (date d)
              = Ok (Some (localMidnight tz (Civil.dayNumber c)))).
  { cbn [makeTime parseYMD]. apply (parseYMDLocal_valid tz R _ c Rd Vc). lia. }
  assert (YM : yearMonth (date d) = Some (Civil.year c, Civil.month c))
    by (unfold yearMonth; rewrite Rd; reflexivity).
  repeat split; try assumption; try reflexivity; try lia.
  - unfold groupKey. rewrite P. unfold monthKey.
    assert (E : Civil.ofTime (LocalTime tz (localMidnight tz (Civil.dayNumber c))) = c).
    { apply ofTime_dayNumber; [exact Vc|]. apply (Day_localMidnight tz R). }
    cbn [JSDate.getFullYear JSDate.getMonth option_map Str.ToString].
    change (YearFromTime (LocalTime tz (localMidnight tz (Civil.dayNumber c))))
      with (Civil.year (Civil.ofTime (LocalTime tz (localMidnight tz (Civil.dayNumber c))))).
    rewrite (month_localMidnight tz R c Vc), E. reflexivity.
  - unfold monthRank. rewrite YM. reflexivity.
Qed.

(** On the stored days: equal keys, equal months and equal ranks are the
    same thing, and the ranks ascend. *)
Lemma stored_keys i j :
  (i <= n)%nat -> (j <= n)%nat ->
  let a := expectedDay tz mode now ts cs i in
  let b := expectedDay tz mode now ts cs j in
  (groupKey tz (makeTime tz local) a = groupKey tz (makeTime tz local) b
   <-> monthRank (date a) = monthRank (date b))
  /\ (yearMonth (date a) = yearMonth (date b)
      <-> monthRank (date a) = monthRank (date b))
  /\ ((i <= j)%nat -> monthRank (date a) <= monthRank (date b)).
Proof.
  intros Li Lj a b.
  destruct (stored_day i Li) as (Va & Ya & _ & _ & Ka & Ma & Ra).
  destruct (stored_day j Lj) as (Vb & Yb & _ & _ & Kb & Mb & Rb).
  fold a in Ka, Ma, Ra. fold b in Kb, Mb, Rb.
  pose proof (valid_fields _ Va) as Fa. pose proof (valid_fields _ Vb) as Fb.
  rewrite Ka, Kb, Ma, Mb, Ra, Rb. split; [|split].
  - split.
    + intros E. apply monthKey_inj in E; lia.
    + intros E.
      replace (Civil.year (Civil.addDays j cs)) with (Civil.year (Civil.addDays i cs))
        by lia.
      replace (Civil.month (Civil.addDays j cs)) with (Civil.month (Civil.addDays i cs))
        by lia.
      reflexivity.
  - split.
    + intros E. injection E as E1 E2. lia.
    + intros E. f_equal. f_equal; lia.
  - intros Lij. apply month_rank_mono; try assumption.
    destruct (addDays_spec i cs Vs) as [_ Di], (addDays_spec j cs Vs) as [_ Dj].
    lia.
Qed.

End Stored.

(** The days of the grids that are not placeholders are the days of the
    groups, group by group. *)
Lemma grids_real {T : Type} tz label fns align fdow
    (gs rs : list (string * list (CalendarDay T))) :
  (forall g, In g gs -> snd g <> []) ->
  (forall g d, In g gs -> In d (snd g) ->
               isPlaceholder d = false
               /\ exists dt, parseYMD fns (date d) = Ok dt) ->
  mapR (fun g : string * list (CalendarDay T) =>
          monthGrid tz label fns align fdow (snd g)) gs = Ok rs ->
  map (fun r => realDays (snd r)) rs = map snd gs.
Proof.
  revert rs. induction gs as [|g gs IH]; intros rs N P M.
  - cbn in M. injection M as <-. reflexivity.
  - destruct (monthGrid_spec tz label fns align fdow (snd g))
      as (lbl & pre & y & m & E & A).
    + apply N. left. reflexivity.
    + intros d I. apply (P g d (or_introl eq_refl) I).
    + cbn [mapR] in M. rewrite E in M. cbn [bindR] in M.
      destruct (mapR _ gs) as [rs'|msg] eqn:M'; [|discriminate M].
      cbn [bindR] in M. injection M as <-. cbn [map snd]. f_equal.
      * unfold realDays. apply filter_placeholders.
        intros d I. apply (P g d (or_introl eq_refl) I).
      * apply IH; [| |reflexivity].
        -- intros g' I. apply N. right. exact I.
        -- intros g' d I I'. apply (P g' d (or_intror I) I').
Qed.

Lemma nth_error_map_eq {A B C : Type} (f : A -> C) (g : B -> C) l1 l2 i a :
  map f l1 = map g l2 -> nth_error l1 i = Some a ->
  exists b, nth_error l2 i = Some b /\ g b = f a.
Proof.
  intros E N. apply (map_nth_error f) in N. rewrite E in N.
  rewrite nth_error_map in N. destruct (nth_error l2 i) as [b|]; [|discriminate N].
  exists b. split; [reflexivity|]. cbn in N. congruence.
Qed.

End OrderFacts.

(* ================================================================== *)
(** * Relative dates *)
(* ================================================================== *)

Import ParserFacts TextFacts.

(** X1. In a host zone in which every local midnight exists, for a valid
    date text with a four-digit year and a current instant in the years
    1000 to 9999: [isPastDate] is true exactly when the date is before
    today's local date, and [isFutureDate] exactly when it is after it,
    whatever the time of day. *)
Theorem past_and_future_by_local_date :
  forall (tz : TimeZone) (now : Z) (s : string) (c : Civil.date),
    regularZone tz ->
    Civil.read s = Some c -> Civil.fourDigitYear c = true ->
    1000 <= ES.YearFromTime (LocalTime tz now) <= 9999 ->
    let today := Civil.ofTime (LocalTime tz now) in
    isPastDate tz now s = Ok (negb (Civil.leb today c))
    /\ isFutureDate tz now s = Ok (negb (Civil.leb c today)).
Proof.
  intros tz now s c R H F Y today.
  destruct (fourDigitYear_inv c F) as [V _].
  pose proof (ofTime_valid (LocalTime tz now)) as Vt. fold today in Vt.
  rewrite (isPastDate_regular tz R now s c H F Y).
  rewrite (isFutureDate_regular tz R now s c H F Y).
  rewrite (leb_dayNumber_iff today c Vt V), (leb_dayNumber_iff c today V Vt).
  unfold today. rewrite dayNumber_ofTime.
  rewrite !Z.ltb_antisym. split; reflexivity.
Qed.

(** X1, at New York at 01:30 on 2025-11-02, the day on which daylight
    saving time ends: 2025-11-01 is past and not future. *)
Lemma past_and_future_witness :
  isPastDate newYork2025 1762061400000 "2025-11-01" = Ok true
  /\ isFutureDate newYork2025 1762061400000 "2025-11-01" = Ok false.
Proof.
  exact (past_and_future_by_local_date newYork2025 1762061400000 "2025-11-01"
           (2025, 11, 1) newYork2025_regular eq_refl eq_refl
           ltac:(vm_compute; split; discriminate)).
Defined.

(** X2. Under the same assumptions exactly one of [isPastDate], [isToday]
    and [isFutureDate] holds of a date. *)
Theorem past_today_future_exclusive :
  forall (tz : TimeZone) (now : Z) (s : string) (c : Civil.date),
    regularZone tz ->
    Civil.read s = Some c -> Civil.fourDigitYear c = true ->
    1000 <= ES.YearFromTime (LocalTime tz now) <= 9999 ->
    exists p f : bool,
      isPastDate tz now s = Ok p /\ isFutureDate tz now s = Ok f
      /\ ((p = true /\ isToday tz now s = false /\ f = false)
          \/ (p = false /\ isToday tz now s = true /\ f = false)
          \/ (p = false /\ isToday tz now s = false /\ f = true)).
Proof.
  intros tz now s c R H F Y.
  destruct (fourDigitYear_inv c F) as [V _].
  rewrite (isPastDate_regular tz R now s c H F Y).
  rewrite (isFutureDate_regular tz R now s c H F Y).
  rewrite (isToday_regular tz R now s c H V Y).
  eexists. eexists. split; [reflexivity|]. split; [reflexivity|].
  destruct (Z.ltb_spec (Civil.dayNumber c) (ES.Day (LocalTime tz now))),
    (Z.ltb_spec (ES.Day (LocalTime tz now)) (Civil.dayNumber c)),
    (Z.eqb_spec (Civil.dayNumber c) (ES.Day (LocalTime tz now)));
    try lia; tauto.
Qed.

(** X2, at New York at 01:30 on 2025-11-02, for that day. *)
Lemma past_today_future_witness :
  exists p f : bool,
    isPastDate newYork2025 1762061400000 "2025-11-02" = Ok p
    /\ isFutureDate newYork2025 1762061400000 "2025-11-02" = Ok f
    /\ ((p = true /\ isToday newYork2025 1762061400000 "2025-11-02" = false
         /\ f = false)
        \/ (p = false /\ isToday newYork2025 1762061400000 "2025-11-02" = true
            /\ f = false)
        \/ (p = false /\ isToday newYork2025 1762061400000 "2025-11-02" = false
            /\ f = true)).
Proof.
  exact (past_today_future_exclusive newYork2025 1762061400000 "2025-11-02"
           (2025, 11, 2) newYork2025_regular eq_refl eq_refl
           ltac:(vm_compute; split; discriminate)).
Defined.

(* ================================================================== *)
(** * The two parsers on days beyond the month *)
(* ================================================================== *)

(** X3. The non-strict parser does not reject a day number beyond the end
    of the month: for a text of the shape [\d{4}-\d{2}-\d{2}] with a year
    from 1000 to 9998, a month from 1 to 12 and a day [d] of at least 1
    it returns the date [d - 1] days after the first of the month, so
    that formatting the result gives the text of that later date. *)
Theorem lenient_parser_rolls_over :
  forall (tz : TimeZone) (s : string) (y m d : Z),
    regularZone tz -> Civil.read s = Some (y, m, d) ->
    1000 <= y <= 9998 -> 1 <= m <= 12 -> 1 <= d ->
    exists dt,
      parseYMDLocal tz s = Ok dt
      /\ ymdLocal tz dt
         = Civil.format (Civil.addDays (Z.to_nat (d - 1)) (y, m, 1)).
Proof.
  intros tz s y m d R H Hy Hm Hd.
  pose proof (read_range s y m d H) as (_ & _ & Rd).
  eexists. split.
  - apply (parseYMDLocal_overflow tz R s y m d H); lia.
  - destruct (addDays_spec (Z.to_nat (d - 1)) (y, m, 1) (valid_first y m Hm))
      as [Vn _].
    apply (ymdLocal_localMidnight tz R _ Vn).
    pose proof (year_after_first y m (Z.to_nat (d - 1)) Hm ltac:(lia)). lia.
Qed.

(** X3, at New York: "2025-11-31" is read as 2025-12-01. *)
Lemma lenient_parser_witness :
  exists dt,
    parseYMDLocal newYork2025 "2025-11-31" = Ok dt
    /\ ymdLocal newYork2025 dt
       = Civil.format (Civil.addDays (Z.to_nat (31 - 1)) (2025, 11, 1)).
Proof.
  exact (lenient_parser_rolls_over newYork2025 "2025-11-31" 2025 11 31
           newYork2025_regular eq_refl ltac:(lia) ltac:(lia) ltac:(lia)).
Defined.

(** X4. In a host zone in which every local midnight exists, the strict
    parser accepts a text of the shape [\d{4}-\d{2}-\d{2}] exactly when
    it is a valid date of a year from 100 on: it then returns the local
    midnight of that date, the same Date object as the non-strict
    parser; the years written 0000 to 0099 are rejected. *)
Theorem strict_parser_accepts_valid_dates :
  forall (tz : TimeZone) (s : string) (c : Civil.date),
    regularZone tz -> Civil.read s = Some c ->
    (Civil.valid c = true -> 100 <= Civil.year c ->
       parseYMDStrict tz s = Some (Some (localMidnight tz (Civil.dayNumber c)))
       /\ parseYMDLocal tz s = Ok (Some (localMidnight tz (Civil.dayNumber c))))
    /\ (Civil.year c < 100 -> parseYMDStrict tz s = None)
    /\ (parseYMDStrict tz s <> None <->
        Civil.valid c = true /\ 100 <= Civil.year c).
Proof.
  intros tz s c R H.
  assert (A : Civil.valid c = true -> 100 <= Civil.year c ->
              parseYMDStrict tz s
              = Some (Some (localMidnight tz (Civil.dayNumber c)))).
  { intros V Y. apply (parseYMDStrict_valid tz R s c H V Y). }
  split; [|split].
  - intros V Y. split; [exact (A V Y)|].
    apply (parseYMDLocal_valid tz R s c H V Y).
  - apply (parseYMDStrict_small_year tz R s c H).
  - split.
    + intros N. destruct (parseYMDStrict tz s) as [dt|] eqn:P; [|congruence].
      destruct (parseYMDStrict_sound tz s c dt H P) as [V _].
      split; [exact V|].
      destruct (Z.lt_ge_cases (Civil.year c) 100) as [L|G]; [|exact G].
      rewrite (parseYMDStrict_small_year tz R s c H L) in P. discriminate P.
    + intros [V Y]. rewrite (A V Y). discriminate.
Qed.

(** X4, at New York: "2024-02-29" is accepted by both parsers and
    "0050-01-01" is rejected by the strict one. *)
Lemma strict_parser_accepts_witness :
  (parseYMDStrict newYork2025 "2024-02-29"
   = Some (Some (localMidnight newYork2025 (Civil.dayNumber (2024, 2, 29))))
   /\ parseYMDLocal newYork2025 "2024-02-29"
      = Ok (Some (localMidnight newYork2025 (Civil.dayNumber (2024, 2, 29)))))
  /\ parseYMDStrict newYork2025 "0050-01-01" = None
  /\ parseYMDStrict newYork2025 "2024-02-29" <> None.
Proof.
  split; [|split].
  - exact (proj1 (strict_parser_accepts_valid_dates newYork2025 "2024-02-29"
                    (2024, 2, 29) newYork2025_regular eq_refl)
             eq_refl ltac:(cbn; lia)).
  - exact (proj1 (proj2 (strict_parser_accepts_valid_dates newYork2025
                           "0050-01-01" (50, 1, 1) newYork2025_regular eq_refl))
             ltac:(cbn; lia)).
  - apply (proj2 (proj2 (proj2 (strict_parser_accepts_valid_dates newYork2025
                                  "2024-02-29" (2024, 2, 29)
                                  newYork2025_regular eq_refl)))).
    split; [reflexivity|cbn; lia].
Defined.

(** X5. [clampToMonthEnd] for a year from 100 to 9999 and a month from 1
    to 12, in a host zone in which every local midnight exists: the day
    returned is the smaller of [d] and the number of days of the month,
    so a valid date comes back unchanged and, for [d >= 1], the result
    is always a valid date. *)
Theorem clamp_to_month_end_valid :
  forall (tz : TimeZone) (y m d : Z),
    regularZone tz -> 100 <= y <= 9999 -> 1 <= m <= 12 ->
    clampToMonthEnd tz y m d = (y, m, Some (Z.min d (Civil.daysIn y m)))
    /\ (1 <= d -> Civil.valid (y, m, Z.min d (Civil.daysIn y m)) = true)
    /\ (Civil.valid (y, m, d) = true -> clampToMonthEnd tz y m d = (y, m, Some d)).
Proof.
  intros tz y m d R Hy Hm.
  assert (E : clampToMonthEnd tz y m d = (y, m, Some (Z.min d (Civil.daysIn y m)))).
  { unfold clampToMonthEnd. rewrite (lastDay_regular tz R y m Hy Hm). reflexivity. }
  split; [exact E|]. split.
  - intros Hd. apply valid_intro; [lia|]. pose proof (daysIn_range y m). lia.
  - intros V. rewrite E. apply valid_inv in V. do 2 f_equal. lia.
Qed.

(** X5, at New York: 2025-02-31 is clamped to the 28th and 2024-02-29 is
    kept. *)
Lemma clamp_to_month_end_witness :
  clampToMonthEnd newYork2025 2025 2 31 = (2025, 2, Some 28)
  /\ Civil.valid (2025, 2, Z.min 31 (Civil.daysIn 2025 2)) = true
  /\ clampToMonthEnd newYork2025 2024 2 29 = (2024, 2, Some 29).
Proof.
  split; [|split].
  - exact (proj1 (clamp_to_month_end_valid newYork2025 2025 2 31
                    newYork2025_regular ltac:(lia) ltac:(lia))).
  - exact (proj1 (proj2 (clamp_to_month_end_valid newYork2025 2025 2 31
                           newYork2025_regular ltac:(lia) ltac:(lia)))
             ltac:(lia)).
  - exact (proj2 (proj2 (clamp_to_month_end_valid newYork2025 2024 2 29
                           newYork2025_regular ltac:(lia) ltac:(lia)))
             eq_refl).
Defined.

(* ================================================================== *)
(** * Warnings and tags *)
(* ================================================================== *)

Import WarnFacts.

(** X6. After any sequence of [warnOnce] calls, starting with no key
    warned: a further call with a key that has been used schedules
    nothing and leaves the state as it is, and the number of warnings
    scheduled is the number of distinct keys among the calls. *)
Theorem warn_once_per_key :
  forall calls : list (string * string),
    (forall k m, In k (map fst calls) ->
       warnOnce k m (warnAll calls noWarnings) = warnAll calls noWarnings)
    /\ List.length (scheduledWarnings (warnAll calls noWarnings))
       = List.length (nodup string_dec (map fst calls)).
Proof.
  intros calls. split.
  - intros k m I. apply warnOnce_known. apply warnAll_keys. left. exact I.
  - assert (T : tidy noWarnings) by (split; [constructor|reflexivity]).
    destruct (warnAll_tidy calls noWarnings T) as [N L]. rewrite L.
    apply same_length_nodup; [exact N|apply NoDup_nodup|].
    intros x. rewrite warnAll_keys, nodup_In. cbn [noWarnings warnedKeys In].
    tauto.
Qed.

(** X6, on three calls with two keys. *)
Lemma warn_once_witness :
  warnOnce "tz" "again"
    (warnAll [("tz", "zone"); ("fmt", "format"); ("tz", "zone")] noWarnings)
  = warnAll [("tz", "zone"); ("fmt", "format"); ("tz", "zone")] noWarnings
  /\ List.length
       (scheduledWarnings
          (warnAll [("tz", "zone"); ("fmt", "format"); ("tz", "zone")] noWarnings))
     = 2%nat.
Proof.
  split.
  - apply (proj1 (warn_once_per_key
                    [("tz", "zone"); ("fmt", "format"); ("tz", "zone")])).
    left. reflexivity.
  - exact (proj2 (warn_once_per_key
                    [("tz", "zone"); ("fmt", "format"); ("tz", "zone")])).
Defined.

(** X7. [containsHtml] is true exactly for the texts in which a [<] is
    followed, at any distance, by a [>]: it asks for no tag name, so
    "a < b > c" counts as HTML and "a < b" does not. *)
Theorem contains_html_iff_angle_pair :
  forall text : string,
    containsHtml text = true <->
    exists a b c : string, text = (a ++ "<" ++ b ++ ">" ++ c)%string.
Proof.
  intros text. unfold containsHtml. rewrite findTag_iff. split.
  - intros (a & b & c & E).
    exists (string_of_list_ascii a), (string_of_list_ascii b),
      (string_of_list_ascii c).
    rewrite <- (string_of_list_ascii_of_string text), E.
    rewrite string_of_list_app. cbn [string_of_list_ascii].
    rewrite string_of_list_app. reflexivity.
  - intros (a & b & c & ->).
    exists (list_ascii_of_string a), (list_ascii_of_string b),
      (list_ascii_of_string c).
    rewrite list_ascii_app. cbn [String.append list_ascii_of_string].
    rewrite list_ascii_app. reflexivity.
Qed.

(** X7, on a comparison written with spaces. *)
Lemma contains_html_witness :
  containsHtml "a < b > c" = true /\ containsHtml "a < b" = false.
Proof.
  split.
  - apply (proj2 (contains_html_iff_angle_pair "a < b > c")).
    exists "a ", " b ", " c". reflexivity.
  - reflexivity.
Defined.

(* ================================================================== *)
(** * The first day of the week *)
(* ================================================================== *)

Import CaseFacts.

(** X8. [getFirstDayOfWeekFromLang] returns 0 or 1 whatever the host
    reports; a host value of 0 or 1 is returned as it is; and when the
    host gives neither (no [weekInfo], a constructor that throws, or a
    day numbered otherwise, such as 7 for Sunday), the answer in [auto]
    mode is 0 exactly when the second part of the language tag, split
    at [-], is US, CA or PH in any letter case. *)
Theorem first_day_of_week_by_region :
  forall (host : string -> option Z) (lang : string),
    (forall cfg,
       getFirstDayOfWeekFromLang host lang cfg = 0
       \/ getFirstDayOfWeekFromLang host lang cfg = 1)
    /\ (forall first,
          host lang = Some first -> first = 0 \/ first = 1 ->
          getFirstDayOfWeekFromLang host lang Auto = first)
    /\ (host lang <> Some 0 -> host lang <> Some 1 ->
        (getFirstDayOfWeekFromLang host lang Auto = 0 <->
         exists r, nth_error (Str.split "-" lang) 1 = Some r
                   /\ In (lowerASCII r) ["us"; "ca"; "ph"])).
Proof.
  intros host lang.
  assert (F : forall b : bool, (if b then 0 else 1) = 0 \/ (if b then 0 else 1) = 1)
    by (intros []; auto).
  split; [|split].
  - intros [| |]; cbn [getFirstDayOfWeekFromLang]; auto.
    destruct (host lang) as [first|]; [|apply F].
    destruct (Z.eqb_spec first 0) as [->|N0]; [auto|].
    destruct (Z.eqb_spec first 1) as [->|N1]; [auto|]. apply F.
  - intros first E [-> | ->]; cbn [getFirstDayOfWeekFromLang]; rewrite E;
      reflexivity.
  - intros N0 N1. unfold getFirstDayOfWeekFromLang. cbv zeta.
    destruct (host lang) as [first|]; [|apply region_fallback].
    destruct (Z.eqb_spec first 0) as [->|]; [congruence|].
    destruct (Z.eqb_spec first 1) as [->|]; [congruence|].
    cbn [orb]. apply region_fallback.
Qed.

(** X8, for the tag "en-us" on a host that numbers Sunday 7. *)
Lemma first_day_of_week_witness :
  getFirstDayOfWeekFromLang (fun _ => Some 7) "en-us" Auto = 0.
Proof.
  apply (proj2 (proj2 (first_day_of_week_by_region (fun _ => Some 7) "en-us"))).
  - discriminate.
  - discriminate.
  - exists "us". split; [reflexivity|]. left. reflexivity.
Defined.

(* ================================================================== *)
(** * The dates of the month grid *)
(* ================================================================== *)

(** X9. In a host zone in which every local midnight exists, for a year
    from 1000 to 9999 and a month index from 0 to 11, every day cell of
    [buildMonthDays] has a day number within the month, an [id] equal
    to its date text, and a date text that is the text of that calendar
    date: the strict parser accepts it as the local midnight of the
    day, and formatting that instant gives the text back. *)
Theorem month_grid_dates_are_real :
  forall (tz : TimeZone) (year mi fdow : Z) (cid : string) (d : Z) (dt : string),
    regularZone tz -> 1000 <= year <= 9999 -> 0 <= mi <= 11 ->
    In (RealDay cid d dt) (buildMonthDays tz year mi fdow) ->
    cid = dt
    /\ 1 <= d <= Civil.daysIn year (mi + 1)
    /\ dt = Civil.format (year, mi + 1, d)
    /\ parseYMDStrict tz dt
       = Some (Some (localMidnight tz (Civil.dayNumber (year, mi + 1, d))))
    /\ ymdLocal tz (Some (localMidnight tz (Civil.dayNumber (year, mi + 1, d))))
       = dt.
Proof.
  intros tz year mi fdow cid d dt R Hy Hm I.
  rewrite (buildMonthDays_regular tz R year mi fdow) in I by lia.
  apply in_app_or in I. destruct I as [I|I].
  { apply in_map_iff in I. destruct I as (i & E & _). discriminate E. }
  apply in_map_iff in I. destruct I as (d' & E & I).
  injection E as E1 <- E3. subst cid.
  unfold oneTo in I. apply in_map_iff in I. destruct I as (j & <- & I).
  apply in_seq in I. pose proof (daysIn_range year (mi + 1)) as DR.
  assert (Hd : 1 <= Z.of_nat j <= Civil.daysIn year (mi + 1)) by lia.
  assert (V : Civil.valid (year, mi + 1, Z.of_nat j) = true)
    by (apply valid_intro; lia).
  assert (F : dt = Civil.format (year, mi + 1, Z.of_nat j)).
  { rewrite <- E3. unfold Civil.format. rewrite <- (ZToString_pad4 year Hy).
    reflexivity. }
  split; [exact E3|]. split; [exact Hd|]. split; [exact F|].
  assert (Y : 1000 <= Civil.year (year, mi + 1, Z.of_nat j) <= 9999)
    by (unfold Civil.year; cbn [fst]; exact Hy).
  split.
  - apply (parseYMDStrict_valid tz R dt _); [|exact V|lia].
    rewrite F. apply format_read_valid; [exact V|lia].
  - rewrite F. apply (ymdLocal_localMidnight tz R _ V Y).
Qed.

(** X9, at New York: the cell of 2024-02-29. *)
Lemma month_grid_dates_witness :
  "2024-02-29" = "2024-02-29"
  /\ 1 <= 29 <= Civil.daysIn 2024 (1 + 1)
  /\ "2024-02-29" = Civil.format (2024, 1 + 1, 29)
  /\ parseYMDStrict newYork2025 "2024-02-29"
     = Some (Some (localMidnight newYork2025 (Civil.dayNumber (2024, 1 + 1, 29))))
  /\ ymdLocal newYork2025
       (Some (localMidnight newYork2025 (Civil.dayNumber (2024, 1 + 1, 29))))
     = "2024-02-29".
Proof.
  apply (month_grid_dates_are_real newYork2025 2024 1 1 "2024-02-29" 29
           "2024-02-29" newYork2025_regular ltac:(lia) ltac:(lia)).
  vm_compute. repeat (first [left; reflexivity | right]).
Defined.

(* ================================================================== *)
(** * The flags of the stored days *)
(* ================================================================== *)

Import StoredFacts.

(** X10. After [updateCalendarDays] on a valid range (as in C1: a
    non-empty task list, four-digit years, a host zone in which every
    local midnight exists), with the current instant in the years 1000
    to 9999: a stored day is active exactly when its date is today's
    date in the active time mode, so exactly one day is active when
    today lies in the range and none otherwise. *)
Theorem one_active_day_when_today_in_range :
  forall (T : Type) (tz : TimeZone) (now : Z) (tasks : list T)
         (s e : string) (cs ce : Civil.date) (tm : option TimeMode) (w : World T),
    regularZone tz -> tasks <> [] ->
    Civil.read s = Some cs -> Civil.fourDigitYear cs = true ->
    Civil.read e = Some ce -> Civil.fourDigitYear ce = true ->
    Civil.leb cs ce = true ->
    let cfg := mkCalendarConfig s e tm in
    let today :=
      Civil.ofTime (match modeOf cfg with
                    | utc => now
                    | local => LocalTime tz now
                    end) in
    1000 <= Civil.year today <= 9999 ->
    exists n w',
      (forall fuel, (n + 1 < fuel)%nat ->
         updateCalendarDays fuel tz now (mkCalendarData tasks) cfg w
         = Some (Ok tt, w'))
      /\ (forall d, In d (calendarDays w') ->
            (isActive d = true <-> date d = Civil.format today))
      /\ List.length (filter isActive (calendarDays w'))
         = (if Civil.leb cs today && Civil.leb today ce then 1 else 0)%nat.
Proof.
  intros T tz now tasks s e cs ce tm w R NE Hs Fs He Fe L cfg today Y.
  destruct (fourDigitYear_inv cs Fs) as [Vs Ys].
  destruct (fourDigitYear_inv ce Fe) as [Ve Ye].
  destruct (update_on_range tz now tasks s e cs ce tm w R NE Hs Fs He Fe L)
    as (n & w' & A & U & D).
  exists n, w'. split; [exact U|].
  fold cfg in D. rewrite D. clear U D.
  set (x := match modeOf cfg with utc => now | local => LocalTime tz now end) in *.
  assert (Yx : 1000 <= ES.YearFromTime x <= 9999) by exact Y.
  pose proof (ofTime_valid x) as Vt. fold today in Vt.
  assert (Dt : Civil.dayNumber today = ES.Day x) by apply dayNumber_ofTime.
  assert (Act : forall i, (i <= n)%nat ->
            isActive (expectedDay tz (modeOf cfg) now tasks cs i)
            = (Civil.dayNumber cs + Z.of_nat i =? ES.Day x)).
  { intros i Li. apply expected_active; try assumption; try lia.
    - right. exact R.
    - pose proof (year_addDays_range cs n i Vs ltac:(lia)
                    ltac:(rewrite A; lia) Li). lia. }
  split.
  - intros d I. apply in_map_iff in I. destruct I as (i & <- & I).
    apply in_seq in I. rewrite (Act i ltac:(lia)), expected_date.
    destruct (addDays_spec i cs Vs) as [Vi Ei].
    rewrite Z.eqb_eq, <- Ei, <- Dt. split.
    + intros E. apply (dayNumber_inj _ _ Vi Vt) in E. rewrite E. reflexivity.
    + intros E.
      assert (Q : Civil.read (Civil.format (Civil.addDays i cs))
                  = Civil.read (Civil.format today)) by (rewrite E; reflexivity).
      pose proof (year_addDays_range cs n i Vs ltac:(lia)
                    ltac:(rewrite A; lia) ltac:(lia)).
      rewrite !format_read_valid in Q by (assumption || lia).
      injection Q as ->. reflexivity.
  - rewrite filter_map_length.
    rewrite (filter_ext_in _ (fun i => Civil.dayNumber cs + Z.of_nat i =? ES.Day x))
      by (intros i I; apply in_seq in I; apply Act; lia).
    rewrite count_hits.
    rewrite (leb_dayNumber_iff cs today Vs Vt), (leb_dayNumber_iff today ce Vt Ve).
    rewrite Dt. destruct (addDays_spec n cs Vs) as [_ En]. rewrite A in En.
    rewrite En.
    destruct (Z.leb_spec (Civil.dayNumber cs) (ES.Day x)),
      (Z.ltb_spec (ES.Day x) (Civil.dayNumber cs + Z.of_nat (S n))),
      (Z.leb_spec (ES.Day x) (Civil.dayNumber cs + Z.of_nat n));
      cbn [andb]; lia.
Qed.

(** X10, at New York on the evening of 2025-12-03 (04:00 UTC on the
    4th), local mode, for the days 2025-12-01 to 2025-12-05. *)
Lemma one_active_day_witness :
  exists n w',
    (forall fuel, (n + 1 < fuel)%nat ->
       updateCalendarDays fuel newYork2025 1764820800000
         (mkCalendarData [10; 20; 30])
         (mkCalendarConfig "2025-12-01" "2025-12-05" None) initialWorld
       = Some (Ok tt, w'))
    /\ (forall d, In d (calendarDays w') ->
          (isActive d = true <-> date d = "2025-12-03"))
    /\ List.length (filter isActive (calendarDays w')) = 1%nat.
Proof.
  exact (one_active_day_when_today_in_range Z newYork2025 1764820800000
           [10; 20; 30] "2025-12-01" "2025-12-05" (2025, 12, 1) (2025, 12, 5)
           None initialWorld newYork2025_regular ltac:(discriminate)
           eq_refl eq_refl eq_refl eq_refl eq_refl
           ltac:(vm_compute; split; discriminate)).
Defined.

(** X11. After [updateCalendarDays] on a valid range (as in C1): for the
    stored day at position [i], [isTaskActiveByIndex(i)] returns the
    day's [isToday] flag, and in local mode that flag equals
    [isActive]. *)
Theorem active_by_index_is_today_flag :
  forall (T : Type) (tz : TimeZone) (now : Z) (tasks : list T)
         (s e : string) (cs ce : Civil.date) (tm : option TimeMode) (w : World T),
    regularZone tz -> tasks <> [] ->
    Civil.read s = Some cs -> Civil.fourDigitYear cs = true ->
    Civil.read e = Some ce -> Civil.fourDigitYear ce = true ->
    Civil.leb cs ce = true ->
    let cfg := mkCalendarConfig s e tm in
    exists n w',
      (forall fuel, (n + 1 < fuel)%nat ->
         updateCalendarDays fuel tz now (mkCalendarData tasks) cfg w
         = Some (Ok tt, w'))
      /\ (forall i d, nth_error (calendarDays w') i = Some d ->
            isTaskActiveByIndex tz now (Z.of_nat i) cfg = Ok (isToday_ d)
            /\ (modeOf cfg = local -> isActive d = isToday_ d)).
Proof.
  intros T tz now tasks s e cs ce tm w R NE Hs Fs He Fe L cfg.
  destruct (fourDigitYear_inv cs Fs) as [Vs Ys].
  destruct (fourDigitYear_inv ce Fe) as [Ve Ye].
  destruct (update_on_range tz now tasks s e cs ce tm w R NE Hs Fs He Fe L)
    as (n & w' & A & U & D).
  exists n, w'. split; [exact U|].
  fold cfg in D. rewrite D. intros i d N.
  apply nth_error_expected in N. destruct N as [-> Li].
  pose proof (year_addDays_range cs n i Vs ltac:(lia)
                ltac:(rewrite A; lia) ltac:(lia)) as Yi.
  split.
  - unfold isTaskActiveByIndex. cbn [startDate cfg].
    rewrite (getTaskDate_spec tz R s cs i Hs Fs) by lia.
    reflexivity.
  - intros M. cbn [expectedDay isActive isToday_]. rewrite M. reflexivity.
Qed.

(** X11, at New York on the evening of 2025-12-03, for the third day of
    a range starting on 2025-12-01. *)
Lemma active_by_index_witness :
  exists n w',
    (forall fuel, (n + 1 < fuel)%nat ->
       updateCalendarDays fuel newYork2025 1764820800000
         (mkCalendarData [10; 20; 30])
         (mkCalendarConfig "2025-12-01" "2025-12-05" None) initialWorld
       = Some (Ok tt, w'))
    /\ (forall i d, nth_error (calendarDays w') i = Some d ->
          isTaskActiveByIndex newYork2025 1764820800000 (Z.of_nat i)
            (mkCalendarConfig "2025-12-01" "2025-12-05" None) = Ok (isToday_ d)
          /\ (modeOf (mkCalendarConfig "2025-12-01" "2025-12-05" None) = local ->
              isActive d = isToday_ d)).
Proof.
  exact (active_by_index_is_today_flag Z newYork2025 1764820800000
           [10; 20; 30] "2025-12-01" "2025-12-05" (2025, 12, 1) (2025, 12, 5)
           None initialWorld newYork2025_regular ltac:(discriminate)
           eq_refl eq_refl eq_refl eq_refl eq_refl).
Defined.

(* ================================================================== *)
(** * The cards and the selection of the content component *)
(* ================================================================== *)

Import ContentFacts.

(** X12. After [updateCalendarDays] on a valid range (as in C1), the
    component's [getTaskForDay] returns for every stored day the task
    the composable attached to that day: the two task lookups, by
    position and by identifier, agree, and no placeholder card is shown
    for a stored day. *)
Theorem card_task_is_attached_task :
  forall (T : Type) (tz : TimeZone) (now : Z) (tasks : list T)
         (s e : string) (cs ce : Civil.date) (tm : option TimeMode) (w : World T),
    regularZone tz -> tasks <> [] ->
    Civil.read s = Some cs -> Civil.fourDigitYear cs = true ->
    Civil.read e = Some ce -> Civil.fourDigitYear ce = true ->
    Civil.leb cs ce = true ->
    let cfg := mkCalendarConfig s e tm in
    exists n w',
      (forall fuel, (n + 1 < fuel)%nat ->
         updateCalendarDays fuel tz now (mkCalendarData tasks) cfg w
         = Some (Ok tt, w'))
      /\ (forall (fns : TimeFns) (monthLabel : Date -> string) d,
            In d (calendarDays w') ->
            exists t,
              task d = Some t
              /\ CalendarContent.getTaskForDay tz fns monthLabel
                   (calendarDays w') tasks d
                 = Ok (CalendarContent.Task t)).
Proof.
  intros T tz now tasks s e cs ce tm w R NE Hs Fs He Fe L cfg.
  destruct (update_on_range tz now tasks s e cs ce tm w R NE Hs Fs He Fe L)
    as (n & w' & A & U & D).
  exists n, w'. split; [exact U|].
  fold cfg in D. rewrite D. intros fns label d I.
  apply in_map_iff in I. destruct I as (i & <- & I). apply in_seq in I.
  destruct (getTaskForDay_cyclic tasks i NE) as (t & Et & Gt).
  exists t. split; [exact Et|].
  unfold CalendarContent.getTaskForDay.
  rewrite findIndex_by_id by lia.
  unfold getTaskForDay in Gt.
  destruct (arrayGet tasks (jsRem (Z.of_nat i) (Z.of_nat (List.length tasks))))
    as [t'|]; [|discriminate Gt].
  injection Gt as ->. reflexivity.
Qed.

(** X12, at New York, for the fourth day of five with three tasks: the
    first task again. *)
Lemma card_task_witness :
  exists n w',
    (forall fuel, (n + 1 < fuel)%nat ->
       updateCalendarDays fuel newYork2025 0 (mkCalendarData [10; 20; 30])
         (mkCalendarConfig "2025-12-01" "2025-12-05" None) initialWorld
       = Some (Ok tt, w'))
    /\ (forall (fns : TimeFns) (monthLabel : Date -> string) d,
          In d (calendarDays w') ->
          exists t,
            task d = Some t
            /\ CalendarContent.getTaskForDay newYork2025 fns monthLabel
                 (calendarDays w') [10; 20; 30] d
               = Ok (CalendarContent.Task t)).
Proof.
  exact (card_task_is_attached_task Z newYork2025 0 [10; 20; 30]
           "2025-12-01" "2025-12-05" (2025, 12, 1) (2025, 12, 5) None
           initialWorld newYork2025_regular ltac:(discriminate)
           eq_refl eq_refl eq_refl eq_refl eq_refl).
Defined.

(** X13. After [updateCalendarDays] on a valid range (as in C1), with
    the current instant in the years 1000 to 9999, what [onMounted] and
    [handleTaskClick] do to the stored days: exactly one day ends up
    selected and nothing but the selection changes; when today lies in
    the range the selected day is the active one, and otherwise it is
    the first day. *)
Theorem selected_day_is_active_day :
  forall (T : Type) (tz : TimeZone) (now : Z) (tasks : list T)
         (s e : string) (cs ce : Civil.date) (tm : option TimeMode) (w : World T),
    regularZone tz -> tasks <> [] ->
    Civil.read s = Some cs -> Civil.fourDigitYear cs = true ->
    Civil.read e = Some ce -> Civil.fourDigitYear ce = true ->
    Civil.leb cs ce = true ->
    let cfg := mkCalendarConfig s e tm in
    let today :=
      Civil.ofTime (match modeOf cfg with
                    | utc => now
                    | local => LocalTime tz now
                    end) in
    1000 <= Civil.year today <= 9999 ->
    exists n w',
      (forall fuel, (n + 1 < fuel)%nat ->
         updateCalendarDays fuel tz now (mkCalendarData tasks) cfg w
         = Some (Ok tt, w'))
      /\ let days' :=
           CalendarContent.selectTodayOrFirst
             (ymd (makeTime tz (modeOf cfg)) (Some now)) (calendarDays w') in
         List.length (filter isSelected days') = 1%nat
         /\ map (CalendarContent.setSelected false) days'
            = map (CalendarContent.setSelected false) (calendarDays w')
         /\ (Civil.leb cs today && Civil.leb today ce = true ->
             forall d, In d days' -> isSelected d = isActive d)
         /\ (Civil.leb cs today && Civil.leb today ce = false ->
             forall i d, nth_error days' i = Some d ->
                         isSelected d = Nat.eqb i 0).
Proof.
  intros T tz now tasks s e cs ce tm w R NE Hs Fs He Fe L cfg today Y.
  destruct (fourDigitYear_inv cs Fs) as [Vs Ys].
  destruct (fourDigitYear_inv ce Fe) as [Ve Ye].
  destruct (update_on_range tz now tasks s e cs ce tm w R NE Hs Fs He Fe L)
    as (n & w' & A & U & D).
  exists n, w'. split; [exact U|].
  fold cfg in D. rewrite D. clear U D.
  set (x := match modeOf cfg with utc => now | local => LocalTime tz now end) in *.
  assert (Yx : 1000 <= ES.YearFromTime x <= 9999) by exact Y.
  pose proof (ofTime_valid x) as Vt. fold today in Vt.
  rewrite (ymd_mode tz (modeOf cfg) now Yx). fold x. fold today.
  assert (Hn : Civil.year (Civil.addDays n cs) <= 9999) by (rewrite A; lia).
  destruct (addDays_spec n cs Vs) as [_ En]. rewrite A in En.
  unfold CalendarContent.selectTodayOrFirst.
  rewrite (findIndex_today tz (modeOf cfg) now tasks cs n today Vs
             ltac:(lia) Hn Vt Y).
  rewrite (leb_dayNumber_iff cs today Vs Vt), (leb_dayNumber_iff today ce Vt Ve).
  rewrite En.
  set (l := map (expectedDay tz (modeOf cfg) now tasks cs) (seq 0 (S n))).
  assert (Ll : List.length l = S n) by (unfold l; rewrite length_map, length_seq; reflexivity).
  assert (Act : forall i, (i <= n)%nat ->
            isActive (expectedDay tz (modeOf cfg) now tasks cs i)
            = (Civil.dayNumber cs + Z.of_nat i =? Civil.dayNumber today)).
  { intros i Li. unfold today. rewrite dayNumber_ofTime.
    apply expected_active; try assumption; try lia.
    - right. exact R.
    - pose proof (year_addDays_range cs n i Vs ltac:(lia) Hn Li). lia. }
  assert (NEl : l <> []) by (intros E; rewrite E in Ll; discriminate Ll).
  destruct ((Civil.dayNumber cs <=? Civil.dayNumber today)
            && (Civil.dayNumber today <=? Civil.dayNumber cs + Z.of_nat n)) eqn:B.
  - apply andb_true_iff in B. destruct B as [B1 B2].
    apply Z.leb_le in B1, B2.
    set (i := Z.to_nat (Civil.dayNumber today - Civil.dayNumber cs)).
    assert (E : match l with
                | [] => []
                | _ :: _ => CalendarContent.selectOnly i l
                end = CalendarContent.selectOnly i l)
      by (destruct l; [congruence|reflexivity]).
    rewrite E. cbv zeta. split; [|split; [|split]].
    + apply selectOnly_count. unfold i. lia.
    + apply selectOnly_rest.
    + intros _ d I. apply In_nth_error in I. destruct I as (j & N).
      rewrite selectOnly_nth in N.
      destruct (nth_error l j) as [d0|] eqn:N0; [|discriminate N].
      cbn [option_map] in N. injection N as <-.
      apply nth_error_expected in N0. destruct N0 as [-> Lj].
      cbn [CalendarContent.setSelected isSelected isActive].
      pose proof (Act j ltac:(lia)) as Aj. cbn [isActive] in Aj. rewrite Aj.
      destruct (Nat.eqb_spec j i), (Z.eqb_spec (Civil.dayNumber cs + Z.of_nat j)
                                               (Civil.dayNumber today));
        try reflexivity; unfold i in *; lia.
    + discriminate.
  - assert (E : match l with
                | [] => []
                | _ :: _ => CalendarContent.selectOnly 0 l
                end = CalendarContent.selectOnly 0 l)
      by (destruct l; [congruence|reflexivity]).
    rewrite E. cbv zeta. split; [|split; [|split]].
    + apply selectOnly_count. lia.
    + apply selectOnly_rest.
    + discriminate.
    + intros _ i d N. rewrite selectOnly_nth in N.
      destruct (nth_error l i) as [d0|]; [|discriminate N].
      cbn [option_map] in N. injection N as <-. reflexivity.
Qed.

(** X13, at New York on the evening of 2025-12-03, for the days
    2025-12-01 to 2025-12-05. *)
Lemma selected_day_witness :
  exists n w',
    (forall fuel, (n + 1 < fuel)%nat ->
       updateCalendarDays fuel newYork2025 1764820800000
         (mkCalendarData [10; 20; 30])
         (mkCalendarConfig "2025-12-01" "2025-12-05" None) initialWorld
       = Some (Ok tt, w'))
    /\ let days' :=
         CalendarContent.selectTodayOrFirst
           (ymd (makeTime newYork2025 local) (Some 1764820800000))
           (calendarDays w') in
       List.length (filter isSelected days') = 1%nat
       /\ map (CalendarContent.setSelected false) days'
          = map (CalendarContent.setSelected false) (calendarDays w')
       /\ (true = true -> forall d, In d days' -> isSelected d = isActive d)
       /\ (true = false ->
           forall i d, nth_error days' i = Some d -> isSelected d = Nat.eqb i 0).
Proof.
  exact (selected_day_is_active_day Z newYork2025 1764820800000
           [10; 20; 30] "2025-12-01" "2025-12-05" (2025, 12, 1) (2025, 12, 5)
           None initialWorld newYork2025_regular ltac:(discriminate)
           eq_refl eq_refl eq_refl eq_refl eq_refl
           ltac:(vm_compute; split; discriminate)).
Defined.

(* ================================================================== *)
(** * Task cards *)
(* ================================================================== *)

Import StatusFacts.

(** X14. The status of the card of index [i], for a valid start date
    with a four-digit year and a current date in the years 1000 to 9999,
    in UTC mode on any host or in local mode in a zone in which every
    local midnight exists: the card is active when the date [i] days
    after the start is today's date in the active mode, finished when
    it is earlier and disabled when it is later; and it is active
    exactly when the mode's [isToday] holds of that date, which is the
    [isActive] flag [updateCalendarDays] stores for the day. *)
Theorem card_status_by_date :
  forall (tz : TimeZone) (tm : option TimeMode) (cd : Z) (i : nat)
         (s : string) (cs : Civil.date),
    tm = Some utc \/ regularZone tz ->
    Civil.read s = Some cs -> Civil.fourDigitYear cs = true ->
    Civil.year (Civil.addDays i cs) <= 9999 ->
    let today :=
      Civil.ofTime (if TaskCard.isUTC tm then cd else LocalTime tz cd) in
    1000 <= Civil.year today <= 9999 ->
    let c := Civil.addDays i cs in
    TaskCard.status tz tm (Some cd) (Z.of_nat i) s
    = Ok (if Civil.leb c today && Civil.leb today c then TaskCard.ACTIVE
          else if Civil.leb c today then TaskCard.FINISHED
               else TaskCard.DISABLED)
    /\ (TaskCard.status tz tm (Some cd) (Z.of_nat i) s = Ok TaskCard.ACTIVE
        <-> isTodayFn (TaskCard.timeFns tz tm) cd (Civil.format c) = true).
Proof.
  intros tz tm cd i s cs M H F Hi today Y c.
  destruct (fourDigitYear_inv cs F) as [V Yc].
  destruct (addDays_spec i cs V) as [Vi Ei]. fold c in Vi, Ei.
  pose proof (year_addDays_range cs i i V ltac:(lia) Hi ltac:(lia)) as Yi.
  fold c in Yi.
  assert (S : exists x,
            today = Civil.ofTime x
            /\ TaskCard.status tz tm (Some cd) (Z.of_nat i) s
               = Ok (if Civil.dayNumber cs + Z.of_nat i =? ES.Day x
                     then TaskCard.ACTIVE
                     else if Civil.dayNumber cs + Z.of_nat i <? ES.Day x
                          then TaskCard.FINISHED else TaskCard.DISABLED)
            /\ isTodayFn (TaskCard.timeFns tz tm) cd (Civil.format c)
               = (Civil.dayNumber c =? ES.Day x)).
  { destruct (TaskCard.isUTC tm) eqn:U.
    - assert (tm = Some utc) as ->
        by (destruct tm as [[|]|]; try discriminate U; reflexivity).
      exists cd. split; [reflexivity|]. split.
      + rewrite status_utc.
        rewrite (status_local (fixedZone 0) zero_regular (Some local) cd i s cs
                   eq_refl H F Hi); rewrite LocalTime_zero; [reflexivity|exact Y].
      + apply (isTodayFn_mode tz utc cd (Civil.format c) c (or_introl eq_refl));
          [apply format_read_valid; [exact Vi|lia]|exact Vi|exact Y].
    - destruct M as [->|R]; [discriminate U|].
      exists (LocalTime tz cd). split; [reflexivity|]. split.
      + apply (status_local tz R tm cd i s cs U H F Hi Y).
      + assert (TaskCard.timeFns tz tm = makeTime tz local) as ->
          by (destruct tm as [[|]|]; try reflexivity; discriminate U).
        apply (isTodayFn_mode tz local cd (Civil.format c) c (or_intror R));
          [apply format_read_valid; [exact Vi|lia]|exact Vi|exact Y]. }
  destruct S as (x & Ex & St & Td).
  pose proof (ofTime_valid x) as Vt. rewrite <- Ex in Vt.
  assert (Dt : Civil.dayNumber today = ES.Day x)
    by (rewrite Ex; apply dayNumber_ofTime).
  rewrite St, Td, Ei.
  rewrite (leb_dayNumber_iff c today Vi Vt), (leb_dayNumber_iff today c Vt Vi).
  rewrite Dt, Ei.
  destruct (Z.eqb_spec (Civil.dayNumber cs + Z.of_nat i) (ES.Day x)),
    (Z.ltb_spec (Civil.dayNumber cs + Z.of_nat i) (ES.Day x)),
    (Z.leb_spec (Civil.dayNumber cs + Z.of_nat i) (ES.Day x)),
    (Z.leb_spec (ES.Day x) (Civil.dayNumber cs + Z.of_nat i));
    cbn [andb]; try lia;
    (split; [reflexivity|split; intros Q; first [reflexivity | discriminate Q]]).
Qed.

(** X14, at New York on the evening of 2025-12-03 (04:00 UTC on the 4th):
    the third card is active in local mode and finished in UTC mode. *)
Lemma card_status_witness :
  (TaskCard.status newYork2025 None (Some 1764820800000) (Z.of_nat 2) "2025-12-01"
   = Ok TaskCard.ACTIVE
   /\ (TaskCard.status newYork2025 None (Some 1764820800000) (Z.of_nat 2)
         "2025-12-01" = Ok TaskCard.ACTIVE
       <-> isTodayFn (TaskCard.timeFns newYork2025 None) 1764820800000
             (Civil.format (Civil.addDays 2 (2025, 12, 1))) = true))
  /\
  (TaskCard.status newYork2025 (Some utc) (Some 1764820800000) (Z.of_nat 2)
     "2025-12-01" = Ok TaskCard.FINISHED
   /\ (TaskCard.status newYork2025 (Some utc) (Some 1764820800000) (Z.of_nat 2)
         "2025-12-01" = Ok TaskCard.ACTIVE
       <-> isTodayFn (TaskCard.timeFns newYork2025 (Some utc)) 1764820800000
             (Civil.format (Civil.addDays 2 (2025, 12, 1))) = true)).
Proof.
  split.
  - exact (card_status_by_date newYork2025 None 1764820800000 2 "2025-12-01"
             (2025, 12, 1) (or_intror newYork2025_regular) eq_refl eq_refl
             ltac:(vm_compute; discriminate)
             ltac:(vm_compute; split; discriminate)).
  - exact (card_status_by_date newYork2025 (Some utc) 1764820800000 2
             "2025-12-01" (2025, 12, 1) (or_introl eq_refl) eq_refl eq_refl
             ltac:(vm_compute; discriminate)
             ltac:(vm_compute; split; discriminate)).
Defined.

Import TimerFacts.

(** X15. The four numbers of the countdown, for a positive time left:
    hours are below 24, minutes and seconds below 60, and days, hours,
    minutes and seconds recombine to the time left in whole seconds. *)
Theorem countdown_recombines :
  forall timeLeft days hours minutes seconds : Z,
    0 < timeLeft ->
    TaskCard.countdown timeLeft = (days, hours, minutes, seconds) ->
    0 <= days /\ 0 <= hours < 24 /\ 0 <= minutes < 60 /\ 0 <= seconds < 60
    /\ timeLeft / 1000 = ((days * 24 + hours) * 60 + minutes) * 60 + seconds.
Proof.
  intros tl d h m s P E. unfold TaskCard.countdown in E.
  change (1000 * 60 * 60 * 24) with 86400000 in E.
  change (1000 * 60 * 60) with 3600000 in E.
  change (1000 * 60) with 60000 in E.
  rewrite !Z.rem_mod_nonneg in E by lia.
  cbv zeta in E. injection E as <- <- <- <-.
  repeat split; try (Z.div_mod_to_equations; lia).
Qed.

(** X15, for 90061500 ms: 1 day, 1 hour, 1 minute and 1 second. *)
Lemma countdown_witness :
  0 <= 1 /\ 0 <= 1 < 24 /\ 0 <= 1 < 60 /\ 0 <= 1 < 60
  /\ 90061500 / 1000 = ((1 * 24 + 1) * 60 + 1) * 60 + 1.
Proof.
  exact (countdown_recombines 90061500 1 1 1 1 ltac:(lia) eq_refl).
Defined.

(** X16. The countdown of the active card, in UTC mode on any host or in
    local mode in a zone of fixed offset: when the card's date is the
    current date and the clock is on the same day, [timer] counts the
    time left to 23:59:59.999 of that day in the active mode; it shows
    hours, minutes and seconds, each on two digits, never a day part,
    and it is [undefined] in the last millisecond of the day. *)
Theorem active_card_counts_down_to_end_of_day :
  forall (tz : TimeZone) (tm : option TimeMode) (off cd ct : Z) (i : nat)
         (s : string) (cs : Civil.date) (fin u : string),
    (tm = Some utc /\ off = 0)
    \/ (TaskCard.isUTC tm = false /\ tz = fixedZone off
        /\ Z.abs off < ES.msPerDay) ->
    Civil.read s = Some cs -> Civil.fourDigitYear cs = true ->
    Civil.year (Civil.addDays i cs) <= 9999 ->
    1000 <= ES.YearFromTime (cd + off) <= 9999 ->
    Civil.dayNumber cs + Z.of_nat i = ES.Day (cd + off) ->
    ES.Day (ct + off) = ES.Day (cd + off) ->
    let left := ES.msPerDay - 1 - (ct + off) mod ES.msPerDay in
    0 <= left < ES.msPerDay
    /\ TaskCard.timer tz tm (Some cd) (Some ct) (Z.of_nat i) s fin u
       = Ok (if left =? 0 then None
             else Some (fin ++ ": " ++ Civil.pad 2 (left / 3600000) ++ " : "
                        ++ Civil.pad 2 (left mod 3600000 / 60000) ++ " : "
                        ++ Civil.pad 2 (left mod 60000 / 1000))%string).
Proof.
  intros tz tm off cd ct i s cs fin u M H F Hi Y A Dc left.
  pose proof (Z.mod_pos_bound (ct + off) ES.msPerDay
                ltac:(unfold ES.msPerDay; lia)) as B.
  split; [unfold left; lia|].
  assert (E : TaskCard.timer tz tm (Some cd) (Some ct) (Z.of_nat i) s fin u
              = Ok (if (ct + off) mod ES.msPerDay =? ES.msPerDay - 1 then None
                    else Some (fin ++ ": "
                               ++ TaskCard.countdownText u left)%string)).
  { destruct M as [[-> ->]|(U & -> & Bo)].
    - rewrite timer_utc.
      apply (timer_fixed 0 (Some local) cd ct i s cs fin u); try assumption.
      + unfold ES.msPerDay. lia.
      + reflexivity.
    - apply (timer_fixed off tm cd ct i s cs fin u); assumption. }
  rewrite E.
  destruct (Z.eqb_spec ((ct + off) mod ES.msPerDay) (ES.msPerDay - 1)) as [Q|Q].
  - replace (left =? 0) with true by (symmetry; apply Z.eqb_eq; unfold left; lia).
    reflexivity.
  - replace (left =? 0) with false by (symmetry; apply Z.eqb_neq; unfold left; lia).
    rewrite countdownText_within_day by (unfold left; lia). reflexivity.
Qed.

(** X16, in UTC mode at 04:00 UTC on 2025-12-04, for the fourth card of a
    calendar starting on 2025-12-01: 19:59:59 are left. *)
Lemma active_card_countdown_witness :
  0 <= 71999999 < ES.msPerDay
  /\ TaskCard.timer newYork2025 (Some utc) (Some 1764820800000)
       (Some 1764820800000) (Z.of_nat 3) "2025-12-01" "Finishes in" "d"
     = Ok (Some "Finishes in: 19 : 59 : 59").
Proof.
  exact (active_card_counts_down_to_end_of_day newYork2025 (Some utc) 0
           1764820800000 1764820800000 3 "2025-12-01" (2025, 12, 1)
           "Finishes in" "d" (or_introl (conj eq_refl eq_refl)) eq_refl eq_refl
           ltac:(vm_compute; discriminate)
           ltac:(vm_compute; split; discriminate) eq_refl eq_refl).
Defined.

(* ================================================================== *)
(** * The configuration check and the generator *)
(* ================================================================== *)

Import ConfigFacts.

(** X17. [validateConfig] of the pre-commit script, on a host zone in
    which every local midnight exists, for start and end texts of the
    shape [\d{4}-\d{2}-\d{2}]: it reports no error exactly when both are
    valid dates of a year from 100 on, the start is not after the end,
    and [firstDayOfWeek] is absent, empty or one of auto, monday and
    sunday; and for two such dates in the wrong order the order error
    is among the errors. *)
Theorem config_check_passes_iff :
  forall (tz : TimeZone) (s e : string) (fd : option string)
         (cs ce : Civil.date),
    regularZone tz -> Civil.read s = Some cs -> Civil.read e = Some ce ->
    (fst (ValidateConfig.validateConfig tz (Some s) (Some e) fd) = []
     <-> (Civil.valid cs = true /\ 100 <= Civil.year cs)
         /\ (Civil.valid ce = true /\ 100 <= Civil.year ce)
         /\ Civil.leb cs ce = true
         /\ match fd with
            | Some f => f = "" \/ In f ["auto"; "monday"; "sunday"]
            | None => True
            end)
    /\ (Civil.valid cs = true -> 100 <= Civil.year cs ->
        Civil.valid ce = true -> 100 <= Civil.year ce ->
        Civil.leb cs ce = false ->
        In ("Start date (" ++ s ++ ") is after end date (" ++ e ++ ")")%string
           (fst (ValidateConfig.validateConfig tz (Some s) (Some e) fd))).
Proof.
  intros tz s e fd cs ce R Hs He.
  rewrite (validateConfig_shape tz s e fd cs ce R Hs He).
  assert (FD : match fd with
               | Some f =>
                   if ValidateConfig.given fd
                      && negb (existsb (String.eqb f) ["auto"; "monday"; "sunday"])
                   then [("Invalid firstDayOfWeek: " ++ f
                          ++ ". Must be 'auto', 'monday', or 'sunday'")%string]
                   else []
               | None => []
               end = []
               <-> match fd with
                   | Some f => f = "" \/ In f ["auto"; "monday"; "sunday"]
                   | None => True
                   end).
  { destruct fd as [f|]; [|tauto]. cbn [ValidateConfig.given].
    destruct (String.eqb_spec f "") as [->|N]; cbn [negb andb].
    - split; auto.
    - destruct (existsb (String.eqb f) ["auto"; "monday"; "sunday"]) eqn:X;
        cbn [negb].
      + split; [|reflexivity]. intros _. right.
        apply existsb_exists in X. destruct X as (x & I & E).
        apply String.eqb_eq in E. subst x. exact I.
      + split; [discriminate|]. intros [E|I]; [congruence|].
        exfalso. assert (X' : existsb (String.eqb f) ["auto"; "monday"; "sunday"] = true)
          by (apply existsb_exists; exists f; split;
              [exact I|apply String.eqb_refl]).
        congruence. }
  split.
  - destruct (Civil.valid cs), (Z.leb_spec 100 (Civil.year cs)),
      (Civil.valid ce), (Z.leb_spec 100 (Civil.year ce)), (Civil.leb cs ce);
      cbn [andb negb app];
      try (split; [discriminate|intros (A & B & C & D); intuition (lia || congruence)]).
    rewrite FD. intuition auto.
  - intros Vs Ys Ve Ye L. rewrite Vs, Ve, L.
    replace (100 <=? Civil.year cs) with true by (symmetry; apply Z.leb_le; lia).
    replace (100 <=? Civil.year ce) with true by (symmetry; apply Z.leb_le; lia).
    cbn [andb negb app]. left. reflexivity.
Qed.

(** X17, at New York: the range 2025-12-01 to 2025-12-24 passes, and for
    2025-12-24 to 2025-12-01 the order error is reported. *)
Lemma config_check_witness :
  fst (ValidateConfig.validateConfig newYork2025 (Some "2025-12-01")
         (Some "2025-12-24") (Some "auto")) = []
  /\ In "Start date (2025-12-24) is after end date (2025-12-01)"
        (fst (ValidateConfig.validateConfig newYork2025 (Some "2025-12-24")
                (Some "2025-12-01") None)).
Proof.
  split.
  - apply (proj1 (config_check_passes_iff newYork2025 "2025-12-01" "2025-12-24"
                    (Some "auto") (2025, 12, 1) (2025, 12, 24)
                    newYork2025_regular eq_refl eq_refl)).
    repeat split; try reflexivity; try (cbn; lia). right. left. reflexivity.
  - exact (proj2 (config_check_passes_iff newYork2025 "2025-12-24" "2025-12-01"
                    None (2025, 12, 24) (2025, 12, 1)
                    newYork2025_regular eq_refl eq_refl)
             eq_refl ltac:(cbn; lia) eq_refl ltac:(cbn; lia) eq_refl).
Defined.

(** X18. A configuration that passes [validateConfig] gives a day list:
    for texts of the shape with a start year of 1000 or more, checked on
    one host and used on another (both with zones in which every local
    midnight exists), and a non-empty task list, [updateCalendarDays]
    returns normally and stores one day per date of the range, at least
    one. *)
Theorem checked_config_generates_days :
  forall (T : Type) (tzScript tzHost : TimeZone) (now : Z) (tasks : list T)
         (s e : string) (fd : option string) (cs ce : Civil.date)
         (tm : option TimeMode) (w : World T),
    regularZone tzScript -> regularZone tzHost -> tasks <> [] ->
    Civil.read s = Some cs -> Civil.read e = Some ce ->
    1000 <= Civil.year cs ->
    fst (ValidateConfig.validateConfig tzScript (Some s) (Some e) fd) = [] ->
    exists n w',
      Civil.addDays n cs = ce
      /\ (forall fuel, (n + 1 < fuel)%nat ->
            updateCalendarDays fuel tzHost now (mkCalendarData tasks)
                               (mkCalendarConfig s e tm) w
            = Some (Ok tt, w'))
      /\ List.length (calendarDays w') = S n
      /\ map date (calendarDays w')
         = map (fun i => Civil.format (Civil.addDays i cs)) (seq 0 (S n)).
Proof.
  intros T tzS tzH now tasks s e fd cs ce tm w RS RH NE Hs He Y P.
  rewrite (validateConfig_shape tzS s e fd cs ce RS Hs He) in P.
  destruct (Civil.valid cs) eqn:Vs; [|discriminate P].
  destruct (Civil.valid ce) eqn:Ve;
    [|destruct (100 <=? Civil.year cs); discriminate P].
  destruct (Civil.leb cs ce) eqn:L.
  2:{ destruct (100 <=? Civil.year cs); [|discriminate P].
      destruct (100 <=? Civil.year ce); discriminate P. }
  pose proof (read_year_range s cs Hs) as Rs.
  pose proof (read_year_range e ce He) as Re.
  pose proof (leb_year cs ce L) as Ly.
  assert (Fs : Civil.fourDigitYear cs = true).
  { unfold Civil.fourDigitYear. rewrite Vs.
    rewrite !andb_true_iff, !Z.leb_le. repeat split; lia. }
  assert (Fe : Civil.fourDigitYear ce = true).
  { unfold Civil.fourDigitYear. rewrite Ve.
    rewrite !andb_true_iff, !Z.leb_le. repeat split; lia. }
  destruct (update_on_range tzH now tasks s e cs ce tm w RH NE Hs Fs He Fe L)
    as (n & w' & A & U & D).
  exists n, w'. split; [exact A|]. split; [exact U|]. rewrite D. split.
  - rewrite length_map, length_seq. reflexivity.
  - rewrite map_map. reflexivity.
Qed.

(** X18: a configuration checked in the zone of offset 0 and used in New
    York. *)
Lemma checked_config_witness :
  exists n w',
    Civil.addDays n (2025, 12, 1) = (2025, 12, 24)
    /\ (forall fuel, (n + 1 < fuel)%nat ->
          updateCalendarDays fuel newYork2025 0 (mkCalendarData [10; 20; 30])
                             (mkCalendarConfig "2025-12-01" "2025-12-24" None)
                             initialWorld
          = Some (Ok tt, w'))
    /\ List.length (calendarDays w') = S n
    /\ map date (calendarDays w')
       = map (fun i => Civil.format (Civil.addDays i (2025, 12, 1))) (seq 0 (S n)).
Proof.
  exact (checked_config_generates_days Z (fixedZone 0) newYork2025 0
           [10; 20; 30] "2025-12-01" "2025-12-24" (Some "monday")
           (2025, 12, 1) (2025, 12, 24) None initialWorld
           zero_regular newYork2025_regular ltac:(discriminate)
           eq_refl eq_refl ltac:(cbn; lia) eq_refl).
Defined.

(* ================================================================== *)
(** * Image paths *)
(* ================================================================== *)

(** X19. [resolveImg] returns an absolute URL (starting with [//],
    [http://] or [https://]) as it is, without consulting the image map
    and without warning; and for a key [k] that is not empty, not
    absolute, and starts neither with a slash nor with one of the two
    directory prefixes, the six spellings [k], [/k], [assets/images/k],
    [/assets/images/k], [src/assets/images/k] and [/src/assets/images/k]
    all resolve alike: to the map's URL for [k], or to the empty string
    with one warning naming [k] when the map has none (or an empty
    one). *)
Theorem image_path_spellings_agree :
  forall (IMG : string -> option string),
    (forall name, isAbsoluteUrl name = true ->
       resolveImg IMG (Some name) = (name, []))
    /\ (forall k sp,
          String.eqb k "" = false -> isAbsoluteUrl k = false ->
          stripLeadingSlashes k = k ->
          startsWith "src/assets/images/" k = false ->
          startsWith "assets/images/" k = false ->
          In sp [k; "/" ++ k; "assets/images/" ++ k; "/assets/images/" ++ k;
                 "src/assets/images/" ++ k; "/src/assets/images/" ++ k]%string ->
          resolveImg IMG (Some sp)
          = match IMG k with
            | Some url =>
                if String.eqb url ""
                then ("", [("[resolveImg] Not found in IMG map: " ++ k)%string])
                else (url, [])
            | None => ("", [("[resolveImg] Not found in IMG map: " ++ k)%string])
            end).
Proof.
  intros IMG. split.
  - intros name A. unfold resolveImg. rewrite A.
    destruct (String.eqb_spec name "") as [->|_]; [discriminate A|reflexivity].
  - intros k sp NE NA NS N1 N2 I.
    assert (D1 : dropPrefix "src/assets/images/" k = None)
      by (unfold startsWith in N1;
          destruct (dropPrefix "src/assets/images/" k); [discriminate N1|reflexivity]).
    assert (D2 : dropPrefix "assets/images/" k = None)
      by (unfold startsWith in N2;
          destruct (dropPrefix "assets/images/" k); [discriminate N2|reflexivity]).
    assert (K : k <> "" /\ forall r, k <> String "/" r).
    { split; [intros ->; discriminate NE|]. intros r ->.
      cbn [stripLeadingSlashes Ascii.eqb Bool.eqb] in NS.
      assert (L : (String.length (stripLeadingSlashes r) <= String.length r)%nat).
      { clear. induction r as [|c r IH]; [cbn; lia|].
        cbn [stripLeadingSlashes]. destruct (Ascii.eqb c "/"); cbn [String.length] in *; lia. }
      rewrite NS in L. cbn [String.length] in L. lia. }
    destruct K as [K0 K1].
    assert (G : forall sp',
              String.eqb sp' "" = false -> isAbsoluteUrl sp' = false ->
              cleanImgName sp' = k ->
              resolveImg IMG (Some sp')
              = match IMG k with
                | Some url =>
                    if String.eqb url ""
                    then ("", [("[resolveImg] Not found in IMG map: " ++ k)%string])
                    else (url, [])
                | None => ("", [("[resolveImg] Not found in IMG map: " ++ k)%string])
                end).
    { intros sp' E A C. unfold resolveImg. rewrite E, A, C. reflexivity. }
    assert (Ck : cleanImgName k = k).
    { unfold cleanImgName, stripPrefix. rewrite NS, D1, D2. reflexivity. }
    assert (Ak : isAbsoluteUrl (String "/" k) = false).
    { unfold isAbsoluteUrl, startsWith. cbn [dropPrefix].
      change (Ascii.eqb "/" "/") with true. change (Ascii.eqb "h" "/") with false.
      destruct k as [|c r] eqn:Ek; [reflexivity|].
      destruct (Ascii.eqb_spec "/" c) as [<-|_]; [|reflexivity].
      exfalso. apply (K1 r). reflexivity. }
    assert (Cs : forall r, cleanImgName (String "/" r) = cleanImgName r)
      by reflexivity.
    assert (C1 : cleanImgName ("assets/images/" ++ k) = k).
    { unfold cleanImgName.
      change (stripLeadingSlashes ("assets/images/" ++ k))
        with ("assets/images/" ++ k)%string.
      change (stripPrefix "src/assets/images/" ("assets/images/" ++ k))
        with ("assets/images/" ++ k)%string.
      apply stripPrefix_app. }
    assert (C2 : cleanImgName ("src/assets/images/" ++ k) = k).
    { unfold cleanImgName.
      change (stripLeadingSlashes ("src/assets/images/" ++ k))
        with ("src/assets/images/" ++ k)%string.
      rewrite stripPrefix_app. unfold stripPrefix. rewrite D2. reflexivity. }
    cbn [In] in I.
    destruct I as [<-|[<-|[<-|[<-|[<-|[<-|[]]]]]]].
    + apply G; assumption.
    + apply G; [reflexivity|exact Ak|]. cbn [String.append].
      rewrite Cs. exact Ck.
    + apply G; [reflexivity|reflexivity|exact C1].
    + apply G; [reflexivity|reflexivity|]. cbn [String.append].
      rewrite Cs. exact C1.
    + apply G; [reflexivity|reflexivity|exact C2].
    + apply G; [reflexivity|reflexivity|]. cbn [String.append].
      rewrite Cs. exact C2.
Qed.

(** X19, for a CDN address and for the key "banners/default/a.webp"
    written with the full directory prefix. *)
Lemma image_path_witness :
  resolveImg (fun k => if String.eqb k "banners/default/a.webp"
                       then Some "/assets/a.1f.webp" else None)
             (Some "https://cdn.example/a.webp")
  = ("https://cdn.example/a.webp", [])
  /\ resolveImg (fun k => if String.eqb k "banners/default/a.webp"
                          then Some "/assets/a.1f.webp" else None)
                (Some "/src/assets/images/banners/default/a.webp")
     = ("/assets/a.1f.webp", []).
Proof.
  split.
  - exact (proj1 (image_path_spellings_agree _) "https://cdn.example/a.webp"
             eq_refl).
  - apply (proj2 (image_path_spellings_agree
                    (fun k => if String.eqb k "banners/default/a.webp"
                              then Some "/assets/a.1f.webp" else None))
             "banners/default/a.webp"
             "/src/assets/images/banners/default/a.webp"
             eq_refl eq_refl eq_refl eq_refl eq_refl).
    do 5 right. left. reflexivity.
Defined.

(* ================================================================== *)
(** * Dates as displayed *)
(* ================================================================== *)

Import FormatFacts.

(** X20. The date formatters, for a valid date text of a year from 100
    on, with [monthShort] and [monthLong] the month names of the host's
    locale data: in UTC mode on any host and in local mode in a zone in
    which every local midnight exists, [formatTaskDateByMode] gives the
    short name of the month written in the text, a dot, and the day
    written in the text without leading zero, and
    [formatDisabledTaskDateByMode] the long name, a comma and the day;
    the local helpers [formatTaskDate] and [formatDisabledTaskDate] give
    the same texts. *)
Theorem formatted_date_shows_the_written_date :
  forall (tz : TimeZone) (mode : TimeMode) (monthShort monthLong : Z -> string)
         (s : string) (c : Civil.date),
    mode = utc \/ regularZone tz ->
    Civil.read s = Some c -> Civil.valid c = true -> 100 <= Civil.year c ->
    formatTaskDateByMode tz mode monthShort s
    = Ok (monthShort (Civil.month c - 1) ++ ". "
          ++ Str.ZToString (Civil.dayOfMonth c))%string
    /\ formatDisabledTaskDateByMode tz mode monthLong s
       = Ok (monthLong (Civil.month c - 1) ++ ", "
             ++ Str.ZToString (Civil.dayOfMonth c))%string
    /\ (regularZone tz ->
        formatTaskDate tz monthShort s
        = Ok (monthShort (Civil.month c - 1) ++ ". "
              ++ Str.ZToString (Civil.dayOfMonth c))%string
        /\ formatDisabledTaskDate tz monthLong s
           = Ok (monthLong (Civil.month c - 1) ++ ", "
                 ++ Str.ZToString (Civil.dayOfMonth c))%string).
Proof.
  intros tz mode short long s c M H V Y. split; [|split].
  - destruct mode.
    + destruct M as [M|R]; [discriminate M|].
      apply (formatByMode_local tz R short ". " s c H V Y).
    + apply (formatByMode_utc tz short ". " s c H V Y).
  - destruct mode.
    + destruct M as [M|R]; [discriminate M|].
      apply (formatByMode_local tz R long ", " s c H V Y).
    + apply (formatByMode_utc tz long ", " s c H V Y).
  - intros R. split.
    + apply (formatTaskDate_local tz R short ". " s c H V Y).
    + apply (formatTaskDate_local tz R long ", " s c H V Y).
Qed.

(** X20, at New York in UTC mode, with month names that are the month
    numbers in brackets: "2025-12-05" gives month 11 and day 5. *)
Lemma formatted_date_witness :
  formatTaskDateByMode newYork2025 utc
    (fun m => ("[" ++ Str.ZToString m ++ "]")%string) "2025-12-05"
  = Ok "[11]. 5"
  /\ formatDisabledTaskDateByMode newYork2025 utc
       (fun m => ("[" ++ Str.ZToString m ++ "]")%string) "2025-12-05"
     = Ok "[11], 5"
  /\ (regularZone newYork2025 ->
      formatTaskDate newYork2025
        (fun m => ("[" ++ Str.ZToString m ++ "]")%string) "2025-12-05"
      = Ok "[11]. 5"
      /\ formatDisabledTaskDate newYork2025
           (fun m => ("[" ++ Str.ZToString m ++ "]")%string) "2025-12-05"
         = Ok "[11], 5").
Proof.
  exact (formatted_date_shows_the_written_date newYork2025 utc
           (fun m => ("[" ++ Str.ZToString m ++ "]")%string)
           (fun m => ("[" ++ Str.ZToString m ++ "]")%string)
           "2025-12-05" (2025, 12, 5) (or_introl eq_refl) eq_refl eq_refl
           ltac:(cbn; lia)).
Defined.

(** X21. [getTaskMonth(i, startDate)], for a valid start date with a
    four-digit year in a zone in which every local midnight exists:
    the long name of the month of the date [i] days after the start. *)
Theorem task_month_is_month_of_task_date :
  forall (tz : TimeZone) (monthLong : Z -> string) (i : nat)
         (s : string) (cs : Civil.date),
    regularZone tz ->
    Civil.read s = Some cs -> Civil.fourDigitYear cs = true ->
    Civil.year (Civil.addDays i cs) <= 9999 ->
    getTaskMonth tz monthLong (Z.of_nat i) s
    = Ok (monthLong (Civil.month (Civil.addDays i cs) - 1)).
Proof.
  intros tz long i s cs R H F Hi.
  destruct (fourDigitYear_inv cs F) as [V Y].
  destruct (addDays_spec i cs V) as [Vi _].
  pose proof (year_addDays_range cs i i V ltac:(lia) Hi ltac:(lia)) as Yi.
  unfold getTaskMonth. rewrite (getTaskDate_spec tz R s cs i H F Hi).
  cbn [bindR].
  rewrite (parseYMDLocal_valid tz R _ (Civil.addDays i cs))
    by (first [apply format_read_valid; [exact Vi|lia] | exact Vi | lia]).
  cbn [bindR]. unfold toLocaleMonth. cbn [JSDate.getMonth option_map].
  rewrite (month_localMidnight tz R _ Vi). reflexivity.
Qed.

(** X21, at New York: five days after 2025-12-29 the month is January
    (index 0). *)
Lemma task_month_witness :
  getTaskMonth newYork2025 (fun m => ("[" ++ Str.ZToString m ++ "]")%string)
    (Z.of_nat 5) "2025-12-29"
  = Ok "[0]".
Proof.
  exact (task_month_is_month_of_task_date newYork2025
           (fun m => ("[" ++ Str.ZToString m ++ "]")%string) 5 "2025-12-29"
           (2025, 12, 29) newYork2025_regular eq_refl eq_refl
           ltac:(vm_compute; discriminate)).
Defined.

(* ================================================================== *)
(** * The month groups of the day picker *)
(* ================================================================== *)

Import GroupFacts.

(** X22. [groupedDays] loses and repeats no day: for days that are not
    placeholders and whose dates the active mode's parser accepts, it
    returns normally; every group is non-empty; the days of the groups
    that are not placeholders are, taken together, the given days (each
    as often as given); and without alignment there are no placeholders
    at all. *)
Theorem month_groups_keep_every_day :
  forall (T : Type) (tz : TimeZone) (monthLabel : Date -> string)
         (mode : TimeMode) (align : bool) (fdow : Z)
         (days : list (CalendarDay T)),
    (forall d, In d days ->
       isPlaceholder d = false
       /\ exists dt, parseYMD (makeTime tz mode) (date d) = Ok dt) ->
    exists gs,
      groupedDays tz monthLabel mode align fdow days = Ok gs
      /\ Permutation
           (filter (fun d => negb (isPlaceholder d)) (List.concat (map snd gs)))
           days
      /\ (align = false -> Permutation (List.concat (map snd gs)) days)
      /\ (forall g, In g gs -> snd g <> []).
Proof.
  intros T tz label mode align fdow days P.
  destruct (groupByMonth_spec tz (makeTime tz mode) days [])
    as (gs & G & Pm & N).
  { intros d I. apply (P d I). }
  { intros g []. }
  cbn [map List.concat app] in Pm.
  destruct (grids_spec tz label (makeTime tz mode) align fdow gs N)
    as (rs & M & F & A & NN).
  { intros g d I I'. apply P.
    apply (Permutation_in d Pm). apply in_concat.
    exists (snd g). split; [apply in_map; exact I|exact I']. }
  exists rs. unfold groupedDays. rewrite G. cbn [bindR]. rewrite M.
  split; [reflexivity|]. split; [rewrite F; exact Pm|]. split; [|exact NN].
  intros Al. rewrite (A Al). exact Pm.
Qed.

(** X22, for three days of two months given out of order, in UTC mode
    with alignment. *)
Lemma month_groups_witness :
  exists gs,
    groupedDays (fixedZone 0) (fun _ => "month") utc true 1
      [mkCalendarDay (NumId 1) (Some 31) "2025-12-31" false false false true false
                     (Some 10);
       mkCalendarDay (NumId 2) (Some 1) "2026-01-01" false false false true false
                     (Some 20);
       mkCalendarDay (NumId 3) (Some 30) "2025-12-30" false false false true false
                     (Some 30)]
    = Ok gs
    /\ Permutation
         (filter (fun d => negb (isPlaceholder d)) (List.concat (map snd gs)))
         [mkCalendarDay (NumId 1) (Some 31) "2025-12-31" false false false true
                        false (Some 10);
          mkCalendarDay (NumId 2) (Some 1) "2026-01-01" false false false true
                        false (Some 20);
          mkCalendarDay (NumId 3) (Some 30) "2025-12-30" false false false true
                        false (Some 30)]
    /\ (true = false ->
        Permutation (List.concat (map snd gs))
          [mkCalendarDay (NumId 1) (Some 31) "2025-12-31" false false false true
                         false (Some 10);
           mkCalendarDay (NumId 2) (Some 1) "2026-01-01" false false false true
                         false (Some 20);
           mkCalendarDay (NumId 3) (Some 30) "2025-12-30" false false false true
                         false (Some 30)])
    /\ (forall g, In g gs -> snd g <> []).
Proof.
  apply (month_groups_keep_every_day Z (fixedZone 0) (fun _ => "month") utc
           true 1).
  intros d [<-|[<-|[<-|[]]]]; (split; [reflexivity|eexists; reflexivity]).
Defined.

(* ================================================================== *)
(** * Formatting, then parsing *)
(* ================================================================== *)

(** X23. Formatting an instant and parsing the text gives the start of
    the instant's day: for any instant of the years 1000 to 9999, in UTC
    mode on any host or in local mode in a zone in which every local
    midnight exists, the active mode's [ymd] prints the calendar date of
    the instant in the shape [\d{4}-\d{2}-\d{2}], the mode's [parseYMD]
    accepts that text and returns the midnight at which that day begins
    in the mode, and formatting this midnight gives the same text
    again. *)
Theorem format_then_parse_is_start_of_day :
  forall (tz : TimeZone) (mode : TimeMode) (t : Z),
    mode = utc \/ regularZone tz ->
    let x := match mode with utc => t | local => LocalTime tz t end in
    1000 <= ES.YearFromTime x <= 9999 ->
    let zone := match mode with utc => fixedZone 0 | local => tz end in
    Civil.read (ymd (makeTime tz mode) (Some t)) = Some (Civil.ofTime x)
    /\ parseYMD (makeTime tz mode) (ymd (makeTime tz mode) (Some t))
       = Ok (Some (localMidnight zone (ES.Day x)))
    /\ ymd (makeTime tz mode) (Some (localMidnight zone (ES.Day x)))
       = ymd (makeTime tz mode) (Some t).
Proof.
  intros tz mode t M x Y zone.
  assert (G : forall z, regularZone z ->
            1000 <= ES.YearFromTime (LocalTime z t) <= 9999 ->
            Civil.read (ymdLocal z (Some t)) = Some (Civil.ofTime (LocalTime z t))
            /\ parseYMDLocal z (ymdLocal z (Some t))
               = Ok (Some (localMidnight z (ES.Day (LocalTime z t))))
            /\ ymdLocal z (Some (localMidnight z (ES.Day (LocalTime z t))))
               = ymdLocal z (Some t)).
  { intros z R Yz. destruct (parse_today z R t Yz) as [E P].
    pose proof (ofTime_valid (LocalTime z t)) as V.
    assert (Yc : 1000 <= Civil.year (Civil.ofTime (LocalTime z t)) <= 9999)
      by exact Yz.
    split; [|split].
    - rewrite E. apply format_read_valid; [exact V|lia].
    - exact P.
    - rewrite E, <- dayNumber_ofTime.
      apply (ymdLocal_localMidnight z R _ V Yc). }
  destruct mode.
  - destruct M as [M|R]; [discriminate M|]. apply (G tz R Y).
  - cbn [makeTime ymd parseYMD]. rewrite !ymdUTC_local, parseYMDUTC_local.
    unfold x in Y.
    pose proof (G (fixedZone 0) zero_regular) as G0.
    rewrite LocalTime_zero in G0. apply G0. exact Y.
Qed.

(** X23, at New York at 23:00 local time on 2025-12-03. *)
Lemma format_then_parse_witness :
  Civil.read (ymd (makeTime newYork2025 local) (Some 1764820800000))
  = Some (2025, 12, 3)
  /\ parseYMD (makeTime newYork2025 local)
       (ymd (makeTime newYork2025 local) (Some 1764820800000))
     = Ok (Some (localMidnight newYork2025
                   (ES.Day (LocalTime newYork2025 1764820800000))))
  /\ ymd (makeTime newYork2025 local)
       (Some (localMidnight newYork2025
                (ES.Day (LocalTime newYork2025 1764820800000))))
     = ymd (makeTime newYork2025 local) (Some 1764820800000).
Proof.
  exact (format_then_parse_is_start_of_day newYork2025 local 1764820800000
           (or_intror newYork2025_regular)
           ltac:(vm_compute; split; discriminate)).
Defined.

(* ================================================================== *)
(** * Composing the date calculations *)
(* ================================================================== *)

Import ComposeFacts.

(** X24. Task dates compose: for a valid start date with a four-digit
    year (UTC mode on any host, local mode in a zone in which every
    local midnight exists), the date [j] days after the date [i] days
    after the start is the date [i + j] days after the start, as long as
    the year stays below 10000. *)
Theorem task_dates_compose :
  forall (tz : TimeZone) (mode : TimeMode) (s : string) (c : Civil.date)
         (i j : nat),
    mode = utc \/ regularZone tz ->
    Civil.read s = Some c -> Civil.fourDigitYear c = true ->
    Civil.year (Civil.addDays (i + j) c) <= 9999 ->
    exists d,
      getTaskDateByMode (makeTime tz mode) (Z.of_nat i) s = Ok d
      /\ getTaskDateByMode (makeTime tz mode) (Z.of_nat j) d
         = getTaskDateByMode (makeTime tz mode) (Z.of_nat (i + j)) s.
Proof.
  intros tz mode s c i j M H F Hn.
  destruct (fourDigitYear_inv c F) as [V Y].
  pose proof (year_addDays_range c (i + j) i V ltac:(lia) Hn ltac:(lia)) as Yi.
  pose proof (fourDigitYear_addDays c (i + j) i F Hn ltac:(lia)) as Fi.
  destruct (addDays_spec i c V) as [Vi _].
  exists (Civil.format (Civil.addDays i c)). split.
  - apply getTaskDateByMode_spec; try assumption. lia.
  - rewrite (getTaskDateByMode_spec tz mode s c (i + j) M H F Hn).
    rewrite (getTaskDateByMode_spec tz mode _ (Civil.addDays i c) j M).
    + rewrite addDays_add. reflexivity.
    + apply format_read_valid; [exact Vi|lia].
    + exact Fi.
    + rewrite addDays_add. exact Hn.
Qed.

(** X24, at New York in local mode: 3 days and then 30 days after
    2025-10-30, across the end of daylight saving time. *)
Lemma task_dates_compose_witness :
  exists d,
    getTaskDateByMode (makeTime newYork2025 local) (Z.of_nat 3) "2025-10-30" = Ok d
    /\ getTaskDateByMode (makeTime newYork2025 local) (Z.of_nat 30) d
       = getTaskDateByMode (makeTime newYork2025 local) (Z.of_nat (3 + 30))
           "2025-10-30".
Proof.
  exact (task_dates_compose newYork2025 local "2025-10-30" (2025, 10, 30) 3 30
           (or_intror newYork2025_regular) eq_refl eq_refl
           ltac:(vm_compute; discriminate)).
Defined.

(** X25. In UTC mode, on any host, counting days undoes the task-date
    calculation: for a valid start date with a four-digit year the
    inclusive day count from the start to the date of task [i] is
    [i + 1]. *)
Theorem day_count_inverts_task_date :
  forall (tz : TimeZone) (s : string) (c : Civil.date) (i : nat),
    Civil.read s = Some c -> Civil.fourDigitYear c = true ->
    Civil.year (Civil.addDays i c) <= 9999 ->
    exists d,
      getTaskDateByMode (makeTime tz utc) (Z.of_nat i) s = Ok d
      /\ getDaysBetweenByMode (makeTime tz utc) s d = Ok (Some (Z.of_nat i + 1)).
Proof.
  intros tz s c i H F Hn.
  destruct (fourDigitYear_inv c F) as [V Y].
  pose proof (year_addDays_range c i i V ltac:(lia) Hn ltac:(lia)) as Yi.
  destruct (addDays_spec i c V) as [Vi Ei].
  exists (Civil.format (Civil.addDays i c)). split.
  - apply getTaskDateByMode_spec; try assumption. left. reflexivity.
  - rewrite (getDaysBetweenByMode_utc_exact tz s _ c (Civil.addDays i c));
      try assumption; try lia.
    + rewrite Ei. do 2 f_equal. lia.
    + apply format_read_valid; [exact Vi|lia].
Qed.

(** X25, on a host in New York: task 23 of a calendar starting on
    2025-10-30. *)
Lemma day_count_inverts_witness :
  exists d,
    getTaskDateByMode (makeTime newYork2025 utc) (Z.of_nat 23) "2025-10-30" = Ok d
    /\ getDaysBetweenByMode (makeTime newYork2025 utc) "2025-10-30" d
       = Ok (Some (Z.of_nat 23 + 1)).
Proof.
  exact (day_count_inverts_task_date newYork2025 "2025-10-30" (2025, 10, 30) 23
           eq_refl eq_refl ltac:(vm_compute; discriminate)).
Defined.

(* ================================================================== *)
(** * The month groups of the stored days *)
(* ================================================================== *)

Import OrderFacts.

(** X26. The day picker shows the stored days in date order, one group
    per month: after [updateCalendarDays] on a valid range (as in C1) in
    local mode, [groupedDays] returns normally for every label function,
    alignment and first day of the week; the days of its groups that are
    not placeholders, read group after group, are the stored list in its
    order; two such days of one group have the same year and month; and
    two such days of different groups have different ones. *)
Theorem month_groups_follow_the_dates :
  forall (T : Type) (tz : TimeZone) (now : Z) (tasks : list T)
         (s e : string) (cs ce : Civil.date) (tm : option TimeMode) (w : World T)
         (monthLabel : Date -> string) (align : bool) (fdow : Z),
    regularZone tz -> tasks <> [] ->
    Civil.read s = Some cs -> Civil.fourDigitYear cs = true ->
    Civil.read e = Some ce -> Civil.fourDigitYear ce = true ->
    Civil.leb cs ce = true ->
    let cfg := mkCalendarConfig s e tm in
    modeOf cfg = local ->
    exists n w' gs,
      (forall fuel, (n + 1 < fuel)%nat ->
         updateCalendarDays fuel tz now (mkCalendarData tasks) cfg w
         = Some (Ok tt, w'))
      /\ groupedDays tz monthLabel (modeOf cfg) align fdow (calendarDays w')
         = Ok gs
      /\ List.concat (map (fun g => realDays (snd g)) gs) = calendarDays w'
      /\ (forall g a b,
            In g gs -> In a (realDays (snd g)) -> In b (realDays (snd g)) ->
            yearMonth (date a) = yearMonth (date b))
      /\ (forall i j g1 g2 a b,
            nth_error gs i = Some g1 -> nth_error gs j = Some g2 -> i <> j ->
            In a (realDays (snd g1)) -> In b (realDays (snd g2)) ->
            yearMonth (date a) <> yearMonth (date b)).
Proof.
  intros T tz now tasks s e cs ce tm w label align fdow R NE Hs Fs He Fe L cfg Mo.
  destruct (fourDigitYear_inv cs Fs) as [Vs Ys].
  destruct (fourDigitYear_inv ce Fe) as [Ve Ye].
  destruct (update_on_range tz now tasks s e cs ce tm w R NE Hs Fs He Fe L)
    as (n & w' & A & U & D).
  fold cfg in D. rewrite Mo in *.
  assert (Yn : Civil.year (Civil.addDays n cs) <= 9999) by (rewrite A; lia).
  set (days := map (expectedDay tz local now tasks cs) (seq 0 (S n))) in *.
  set (key := groupKey (T := T) tz (makeTime tz local)).
  set (rank := fun d : CalendarDay T => monthRank (date d)).
  assert (Pos : forall d, In d days ->
            exists i, (i <= n)%nat /\ d = expectedDay tz local now tasks cs i).
  { intros d I. apply in_map_iff in I. destruct I as (i & <- & I).
    apply in_seq in I. exists i. split; [lia|reflexivity]. }
  assert (KR : forall a b, In a days -> In b days ->
            (key a = key b <-> rank a = rank b)).
  { intros a b Ia Ib.
    destruct (Pos a Ia) as (i & Li & ->), (Pos b Ib) as (j & Lj & ->).
    apply (stored_keys tz R now tasks local cs Vs ltac:(lia) n Yn i j Li Lj). }
  assert (YM : forall a b, In a days -> In b days ->
            (yearMonth (date a) = yearMonth (date b) <-> rank a = rank b)).
  { intros a b Ia Ib.
    destruct (Pos a Ia) as (i & Li & ->), (Pos b Ib) as (j & Lj & ->).
    apply (stored_keys tz R now tasks local cs Vs ltac:(lia) n Yn i j Li Lj). }
  assert (Asc : ascending rank days).
  { apply ascending_map_seq. intros i j _ Lij Lj.
    apply (stored_keys tz R now tasks local cs Vs ltac:(lia) n Yn i j); lia. }
  assert (Ok_ : forall d, In d days ->
            isPlaceholder d = false
            /\ exists dt, parseYMD (makeTime tz local) (date d) = Ok dt).
  { intros d I. destruct (Pos d I) as (i & Li & ->).
    destruct (stored_day tz R now tasks local cs Vs ltac:(lia) n Yn i Li)
      as (_ & _ & Ph & P & _).
    split; [exact Ph|eexists; exact P]. }
  pose proof (groupByMonth_run tz (makeTime tz local) days []
                (fun d I => proj2 (Ok_ d I))) as G.
  destruct (groupRun_ordered key rank (fun d => In d days) KR days [])
    as (C & F & GA).
  { intros d I. exact I. }
  { exact Asc. }
  { intros g []. }
  { exact I. }
  { intros g x d []. }
  fold key in G. cbn [map List.concat app] in C.
  set (gs := groupRun key days []) in *.
  assert (N : forall g, In g gs -> snd g <> [])
    by (intros g Ig; apply (F g Ig)).
  assert (P : forall g d, In g gs -> In d (snd g) ->
            isPlaceholder d = false
            /\ exists dt, parseYMD (makeTime tz local) (date d) = Ok dt).
  { intros g d Ig Id. apply Ok_. apply (F g Ig). exact Id. }
  destruct (grids_spec tz label (makeTime tz local) align fdow gs N P)
    as (rs & M & _).
  pose proof (grids_real tz label (makeTime tz local) align fdow gs rs N P M) as Re.
  exists n, w', rs. split; [exact U|]. rewrite D.
  split; [unfold groupedDays; rewrite G; cbn [bindR]; exact M|].
  split; [rewrite Re; exact C|]. split.
  - intros g a b Ig Ia Ib.
    destruct (In_nth_error _ _ Ig) as (i & Ni).
    destruct (nth_error_map_eq _ _ _ _ i g Re Ni) as (g0 & N0 & E0).
    cbn beta in E0. rewrite <- E0 in Ia, Ib.
    apply nth_error_In in N0.
    destruct (F g0 N0) as [_ Fg].
    destruct (Fg a Ia) as [Ua Ka], (Fg b Ib) as [Ub Kb].
    apply (YM a b Ua Ub). apply (KR a b Ua Ub). congruence.
  - intros i j g1 g2 a b N1 N2 Dij Ia Ib.
    destruct (nth_error_map_eq _ _ _ _ i g1 Re N1) as (h1 & M1 & E1).
    destruct (nth_error_map_eq _ _ _ _ j g2 Re N2) as (h2 & M2 & E2).
    cbn beta in E1, E2. rewrite <- E1 in Ia. rewrite <- E2 in Ib.
    pose proof (groupsAscending_apart rank gs i j h1 h2 a b GA M1 M2 Dij Ia Ib)
      as Ne.
    intros Q. apply Ne.
    apply (YM a b); [| |exact Q].
    + apply (F h1 (nth_error_In _ _ M1)). exact Ia.
    + apply (F h2 (nth_error_In _ _ M2)). exact Ib.
Qed.

(** X26, at New York for the days 2025-12-30 to 2026-01-02, aligned to
    weeks that begin on Monday. *)
Lemma month_groups_follow_witness :
  exists n w' gs,
    (forall fuel, (n + 1 < fuel)%nat ->
       updateCalendarDays fuel newYork2025 1764820800000
         (mkCalendarData [10; 20; 30])
         (mkCalendarConfig "2025-12-30" "2026-01-02" None) initialWorld
       = Some (Ok tt, w'))
    /\ groupedDays newYork2025 (fun _ => "month") local true 1 (calendarDays w')
       = Ok gs
    /\ List.concat (map (fun g => realDays (snd g)) gs) = calendarDays w'
    /\ (forall g a b,
          In g gs -> In a (realDays (snd g)) -> In b (realDays (snd g)) ->
          yearMonth (date a) = yearMonth (date b))
    /\ (forall i j g1 g2 a b,
          nth_error gs i = Some g1 -> nth_error gs j = Some g2 -> i <> j ->
          In a (realDays (snd g1)) -> In b (realDays (snd g2)) ->
          yearMonth (date a) <> yearMonth (date b)).
Proof.
  exact (month_groups_follow_the_dates Z newYork2025 1764820800000
           [10; 20; 30] "2025-12-30" "2026-01-02" (2025, 12, 30) (2026, 1, 2)
           None initialWorld (fun _ => "month") true 1
           newYork2025_regular ltac:(discriminate)
           eq_refl eq_refl eq_refl eq_refl eq_refl eq_refl).
Defined.
